(** * Walcord: the KEY(...) placeholder rewriter of [src/main.py]

    A shallow embedding of the token grammar, the modifier pipeline and the
    line rewriter of walcord, followed by the properties that the
    specification states about them.

    Conventions of the embedding.
    - Python [str] is [string]; the text is taken to be ASCII (the character
      classes [\w], [\s], [\d] and [str.lower] are those of the codes 0..127,
      a character above 127 belongs to no class and has no other case).
    - Python [int] is [Z]; Python [float] is the binary64 [float] of the
      kernel, with the operations of [PrimFloat].
    - A raised exception is a value of [exn]; a function that may raise
      returns a [result].
    - The module-level [colors] dictionary is passed explicitly.
    - [logging] calls are modelled by the list of records they emit. *)

From Stdlib Require Import ZArith NArith List String Ascii Bool Lia Floats DecimalString Sorted.
From stdpp Require Import gmap strings.

Local Open Scope Z_scope.

(** ** Exceptions and results *)

(** The exceptions that the rewriter can raise.  The [ValueError]s of
    [main.py] are told apart by their message; the specification calls
    [ColorNotFound] UnknownKey, [OpacityNotValid] InvalidOpacity,
    [TakesTwoParameters] and [InvertTakesNoParameters]
    InvalidModifierArity, and [WallpaperConflict]
    WallpaperModifierConflict.  The others come from the Python run time. *)
Inductive exn : Type :=
| ColorNotFound (first_arg : string)
    (* ValueError: Color '{first_arg}' not found in the colors dictionary. *)
| OpacityNotValid (second_arg : string)
    (* ValueError: Opacity value is not a valid: {second_arg}. opacity will be set to 1.0;
       the text kept is the one that [float()] was given *)
| TakesTwoParameters (given : nat)
    (* ValueError: Add modificator takes 2 parameters. You gave {len(p)} parameters *)
| InvertTakesNoParameters (params : string)
    (* ValueError: Invert modificator takes no parameters. You gave {params} *)
| WallpaperConflict
    (* ValueError: You cant use opacity or modifier with wallpaper key. *)
| InvalidLiteral (text : string)
    (* ValueError: invalid literal for int() with base 10 *)
| UnpackError
    (* ValueError: too many / not enough values to unpack (expected 3) *)
| UnknownFormatCode
    (* ValueError: Unknown format code 'x' for object of type 'str' *)
| TypeError
| AttributeError
| IndexError
| KeyError
| OverflowError
| ZeroDivisionError.

Inductive result (A : Type) : Type :=
| Ok (a : A)
| Raise (e : exn).

Arguments Ok {A} a.
Arguments Raise {A} e.

Definition bind {A B : Type} (m : result A) (k : A -> result B) : result B :=
  match m with
  | Ok a => k a
  | Raise e => Raise e
  end.

Notation "'try!' x ':=' m 'in' k" := (bind m (fun x => k))
  (at level 10, x pattern, m at level 100, k at level 200).

Definition of_option {A : Type} (e : exn) (o : option A) : result A :=
  match o with
  | Some a => Ok a
  | None => Raise e
  end.

(** ** The Python built-ins that the program calls *)

Module Py.

Definition code (c : ascii) : N := N_of_ascii c.

Definition between (lo hi : N) (c : ascii) : bool :=
  ((lo <=? code c) && (code c <=? hi))%N.

(** [str.isspace] of one ASCII character; also the class [\s]. *)
Definition isspace (c : ascii) : bool := between 9 13 c || between 28 32 c.

(** The white space that [int()] strips: tab .. carriage return, and blank. *)
Definition int_space (c : ascii) : bool := between 9 13 c || (code c =? 32)%N.

Definition isdigit (c : ascii) : bool := between 48 57 c.

Definition isupper (c : ascii) : bool := between 65 90 c.

Definition islower (c : ascii) : bool := between 97 122 c.

(** The class [\w]. *)
Definition isword (c : ascii) : bool :=
  isdigit c || isupper c || islower c || (code c =? 95)%N.

Definition lower_char (c : ascii) : ascii :=
  if isupper c then ascii_of_N (code c + 32) else c.

(** [s.lower()] *)
Fixpoint lower (s : string) : string :=
  match s with
  | EmptyString => EmptyString
  | String c s' => String (lower_char c) (lower s')
  end.

(** [s.replace(c, "")] for a one-character [c]. *)
Fixpoint remove (c : ascii) (s : string) : string :=
  match s with
  | EmptyString => EmptyString
  | String d s' => if Ascii.eqb d c then remove c s' else String d (remove c s')
  end.

(** [s.lstrip(c)] for a one-character [c]. *)
Fixpoint lstrip (c : ascii) (s : string) : string :=
  match s with
  | EmptyString => EmptyString
  | String d s' => if Ascii.eqb d c then lstrip c s' else s
  end.

(** [s.split(c)] for a one-character separator: never the empty list. *)
Fixpoint split (c : ascii) (s : string) : list string :=
  match s with
  | EmptyString => [EmptyString]
  | String d s' =>
      if Ascii.eqb d c then EmptyString :: split c s'
      else match split c s' with
           | h :: t => String d h :: t
           | [] => [String d EmptyString]
           end
  end.

(** [s[i:i+n]]: a slice stops at the end of the string. *)
Definition slice (i n : nat) (s : string) : string := String.substring i n s.

(** Strip leading characters of a class. *)
Fixpoint lstrip_class (p : ascii -> bool) (s : string) : string :=
  match s with
  | EmptyString => EmptyString
  | String d s' => if p d then lstrip_class p s' else s
  end.

(** Strip trailing characters of a class. *)
Fixpoint rstrip_class (p : ascii -> bool) (s : string) : string :=
  match s with
  | EmptyString => EmptyString
  | String d s' =>
      match rstrip_class p s' with
      | EmptyString => if p d then EmptyString else String d EmptyString
      | r => String d r
      end
  end.

(** The value of a digit in a base up to 16. *)
Definition digit_value (base : Z) (c : ascii) : option Z :=
  let v :=
    if isdigit c then Some (Z.of_N (code c) - 48)
    else if between 97 102 c then Some (Z.of_N (code c) - 87)
    else if between 65 70 c then Some (Z.of_N (code c) - 55)
    else None in
  match v with
  | Some d => if d <? base then Some d else None
  | None => None
  end.

(** The digits of an [int()] literal: single underscores may separate
    digits; [fresh] holds at the start and after an underscore, where a
    digit must follow. *)
Fixpoint digits (base : Z) (fresh : bool) (acc : Z) (s : string) : option Z :=
  match s with
  | EmptyString => if fresh then None else Some acc
  | String c s' =>
      if Ascii.eqb c "_" then (if fresh then None else digits base true acc s')
      else match digit_value base c with
           | Some d => digits base false (acc * base + d) s'
           | None => None
           end
  end.

(** After the sign: base 16 admits a [0x] prefix, after which one
    underscore may come before the digits. *)
Definition unsigned_literal (base : Z) (s : string) : option Z :=
  match s with
  | String "0" (String x s') =>
      if (base =? 16) && (Ascii.eqb x "x" || Ascii.eqb x "X") then
        match s' with
        | String "_" s'' => digits base true 0 s''
        | _ => digits base true 0 s'
        end
      else digits base true 0 s
  | _ => digits base true 0 s
  end.

(** [int(s, base)] for base 10 or 16; [None] stands for [ValueError]. *)
Definition int (base : Z) (s : string) : option Z :=
  match rstrip_class int_space (lstrip_class int_space s) with
  | String "+" s' => unsigned_literal base s'
  | String "-" s' => option_map Z.opp (unsigned_literal base s')
  | s' => unsigned_literal base s'
  end.

(** [str(n)] for an [int]. *)
Definition str_int (n : Z) : string := NilZero.string_of_int (Z.to_int n).

Definition hex_char (d : Z) : ascii :=
  if d <? 10 then ascii_of_N (Z.to_N (d + 48)) else ascii_of_N (Z.to_N (d + 87)).

(** The lowercase hexadecimal digits of a positive number, most
    significant first, put in front of [acc]. *)
Fixpoint hex_pos (p : positive) (fuel : nat) (acc : string) : string :=
  match fuel with
  | O => acc
  | S fuel' =>
      let acc' := String (hex_char (Zpos p mod 16)) acc in
      match Zpos p / 16 with
      | Zpos q => hex_pos q fuel' acc'
      | _ => acc'
      end
  end.

Definition hex_digits (n : Z) : string :=
  match n with
  | Zpos p => hex_pos p (Pos.size_nat p) EmptyString
  | _ => "0"
  end.

(** [format(n, "02x")] for an [int]: the sign counts in the width. *)
Definition format_02x (n : Z) : string :=
  if n <? 0 then String "-" (hex_digits (- n))
  else if n <? 16 then String "0" (hex_digits n)
  else hex_digits n.

End Py.


(** ** Python floats *)

Module PyFloat.

(** The binary64 number nearest to [n / d] (ties to even) for [0 <= n]
    and [0 < d]; infinity when the quotient is out of range. *)
Definition nearest (n d : Z) : float :=
  match n, d with
  | Zpos p, Zpos q => SF2Prim (SFdiv prec emax (S754_finite false p 0) (S754_finite false q 0))
  | _, _ => 0%float
  end.

(** The number that a string of decimal digits writes. *)
Fixpoint decimal (acc : Z) (s : string) : option Z :=
  match s with
  | EmptyString => Some acc
  | String c s' =>
      if Py.isdigit c then decimal (acc * 10 + (Z.of_N (Py.code c) - 48)) s' else None
  end.

(** [float(s)] for an unsigned decimal literal without exponent, the only
    form that the token grammar hands to it: correctly rounded.  [None]
    stands for [ValueError].  The other forms that [float()] reads (sign,
    exponent, surrounding blanks, underscores, inf, nan) are not modelled. *)
Definition of_string (s : string) : option float :=
  match Py.split "." s with
  | [i] =>
      match i with
      | EmptyString => None
      | _ => option_map (fun n => nearest n 1) (decimal 0 i)
      end
  | [i; f] =>
      match String.append i f with
      | EmptyString => None
      | digs => option_map (fun n => nearest n (10 ^ Z.of_nat (String.length f))) (decimal 0 digs)
      end
  | _ => None
  end.

(** The conversion of an [int] operand of a float operation. *)
Definition of_int (n : Z) : result float :=
  let f := match n with
           | Zneg p => PrimFloat.opp (nearest (Zpos p) 1)
           | _ => nearest n 1
           end in
  if PrimFloat.is_infinity f then Raise OverflowError else Ok f.

(** A finite non-zero float as [m * 2 ^ e], sign apart. *)
Definition magnitude (x : float) : option (positive * Z) :=
  match Prim2SF x with
  | S754_finite _ m e => Some (m, e)
  | _ => None
  end.

(** [num / den] is the magnitude of the float. *)
Definition ratio (m : positive) (e : Z) : Z * Z :=
  if 0 <=? e then (Zpos m * 2 ^ e, 1) else (Zpos m, 2 ^ (- e)).

(** The least [p], searched upwards from [p0], with [num / den < 10 ^ p]. *)
Fixpoint decimal_point (fuel : nat) (num den p : Z) : Z :=
  match fuel with
  | O => p
  | S fuel' =>
      let below := if 0 <=? p then num <? 10 ^ p * den else num * 10 ^ (- p) <? den in
      if below then p else decimal_point fuel' num den (p + 1)
  end.

(** Whether the decimal [d * 10 ^ (- k)] reads back as [x]. *)
Definition reads_back (x : float) (d k : Z) : bool :=
  let y := if 0 <=? k then nearest d (10 ^ k) else nearest (d * 10 ^ (- k)) 1 in
  PrimFloat.eqb y x.

(** The decimal with [n] significant digits nearest to [num / den] that
    reads back as [x], as mantissa and scale, when there is one. *)
Definition candidate (x : float) (num den p : Z) (n : Z) : option (Z * Z) :=
  let k := n - p in
  let a := if 0 <=? k then num * 10 ^ k else num in
  let b := if 0 <=? k then den else den * 10 ^ (- k) in
  let lo := a / b in
  let r := a mod b in
  let hi := lo + 1 in
  let lo_ok := reads_back x lo k in
  let hi_ok := reads_back x hi k in
  let prefer_hi := (b <? 2 * r) || ((b =? 2 * r) && Z.odd lo) in
  if lo_ok && hi_ok then Some (if prefer_hi then hi else lo, k)
  else if lo_ok then Some (lo, k)
  else if hi_ok then Some (hi, k)
  else None.

Fixpoint shortest (fuel : nat) (x : float) (num den p : Z) (n : Z) : Z * Z :=
  match fuel with
  | O => (num / den, 0)
  | S fuel' =>
      match candidate x num den p n with
      | Some dk => dk
      | None => shortest fuel' x num den p (n + 1)
      end
  end.

(** Drop the trailing zeros of a mantissa, up to [fuel] of them. *)
Fixpoint strip_zeros (fuel : nat) (d k : Z) : Z * Z :=
  match fuel with
  | O => (d, k)
  | S fuel' => if (d mod 10 =? 0) && negb (d =? 0) then strip_zeros fuel' (d / 10) (k - 1) else (d, k)
  end.

Fixpoint zeros (n : nat) : string :=
  match n with
  | O => EmptyString
  | S n' => String "0" (zeros n')
  end.

(** The layout of [repr]: digits [ds], decimal point after [decpt] of them. *)
Definition layout (ds : string) (decpt : Z) : string :=
  let nd := Z.of_nat (String.length ds) in
  if (decpt <=? -4) || (16 <? decpt) then
    let e := decpt - 1 in
    let mant := match ds with
                | String c EmptyString => ds
                | String c rest => String c (String "." rest)
                | EmptyString => ds
                end in
    let es := Py.str_int (Z.abs e) in
    let es := if Z.abs e <? 10 then String "0" es else es in
    String.append mant (String "e" (String (if e <? 0 then "-"%char else "+"%char) es))
  else if decpt <=? 0 then
    String.append "0." (String.append (zeros (Z.to_nat (- decpt))) ds)
  else if nd <=? decpt then
    String.append ds (String.append (zeros (Z.to_nat (decpt - nd))) ".0")
  else
    String.append (Py.slice 0 (Z.to_nat decpt) ds)
      (String "." (Py.slice (Z.to_nat decpt) (String.length ds) ds)).

(** [repr(x)], which is also [str(x)] and what an f-string prints: the
    shortest decimal that reads back as [x]. *)
Definition repr (x : float) : string :=
  if PrimFloat.is_nan x then "nan"
  else if PrimFloat.is_infinity x then (if PrimFloat.get_sign x then "-inf" else "inf")
  else
    let sign := if PrimFloat.get_sign x then "-" else "" in
    match magnitude x with
    | None => String.append sign "0.0"
    | Some (m, e) =>
        let '(num, den) := ratio m e in
        let lg := Z.log2 num - Z.log2 den in
        let p := decimal_point 8 num den (lg * 30103 / 100000 - 2) in
        let '(d, k) := shortest 17 (PrimFloat.abs x) num den p 1 in
        let '(d, k) := strip_zeros 400 d k in
        let ds := Py.str_int d in
        String.append sign (layout ds (Z.of_nat (String.length ds) - k))
    end.

(** [x % 1.0] *)
Definition mod1 (x : float) : float :=
  match Prim2SF x with
  | S754_zero _ => 0%float
  | S754_finite s m e =>
      let frac := if 0 <=? e then 0 else Zpos m mod 2 ^ (- e) in
      if frac =? 0 then 0%float
      else
        let f := SF2Prim (binary_normalize prec emax frac e false) in
        if s then (PrimFloat.add (PrimFloat.opp f) 1)%float else f
  | _ => PrimFloat.nan
  end.

End PyFloat.

(** [a / b] on floats. *)
Definition float_div (a b : float) : result float :=
  if PrimFloat.eqb b 0 then Raise ZeroDivisionError else Ok (PrimFloat.div a b).

(** ** [colorsys.rgb_to_hls] of the Python library *)

Module colorsys.

(** [max(r, g, b)]: a later item replaces the maximum when it is greater. *)
Definition max3 (r g b : float) : float :=
  let m := if PrimFloat.ltb r g then g else r in
  if PrimFloat.ltb m b then b else m.

Definition min3 (r g b : float) : float :=
  let m := if PrimFloat.ltb g r then g else r in
  if PrimFloat.ltb b m then b else m.

(** The function as CPython has it up to 3.11; later releases write the
    divisor of the second case [2.0-maxc-minc]. *)
Definition rgb_to_hls (r g b : float) : result (float * float * float) :=
  let maxc := max3 r g b in
  let minc := min3 r g b in
  let sumc := PrimFloat.add maxc minc in
  let rangec := PrimFloat.sub maxc minc in
  let l := PrimFloat.div sumc 2 in
  if PrimFloat.eqb minc maxc then Ok (0%float, l, 0%float)
  else
    try! s := (if PrimFloat.leb l 0.5 then float_div rangec sumc
               else float_div rangec (PrimFloat.sub 2 sumc)) in
    try! rc := float_div (PrimFloat.sub maxc r) rangec in
    try! gc := float_div (PrimFloat.sub maxc g) rangec in
    try! bc := float_div (PrimFloat.sub maxc b) rangec in
    let h := if PrimFloat.eqb r maxc then PrimFloat.sub bc gc
             else if PrimFloat.eqb g maxc then PrimFloat.sub (PrimFloat.add 2 rc) bc
             else PrimFloat.sub (PrimFloat.add 4 gc) rc in
    Ok (PyFloat.mod1 (PrimFloat.div h 6), l, s).

End colorsys.

(** ** The palette *)

(** A value of the [colors] dictionary after [hex_to_rgb_map]: the tuple
    of the channels, or the wallpaper path. *)
Inductive color_value : Type :=
| Tuple (t : list Z)
| Str (s : string).

(** [not v] for [v = colors.get(key)]. *)
Definition falsy (v : option color_value) : bool :=
  match v with
  | None => true
  | Some (Tuple []) => true
  | Some (Str EmptyString) => true
  | Some _ => false
  end.

(** [tuple(int(h.lstrip('#')[i:i+2], 16) for i in (0, 2, 4))]; [None]
    stands for the [ValueError] of [int]. *)
Definition hex_to_rgb (h : string) : option (list Z) :=
  r ← Py.int 16 (Py.slice 0 2 (Py.lstrip "#" h));
  g ← Py.int 16 (Py.slice 2 2 (Py.lstrip "#" h));
  b ← Py.int 16 (Py.slice 4 2 (Py.lstrip "#" h));
  Some [r; g; b].

Definition is_wallpaper (key : string) : bool :=
  String.eqb key "wallpaper" || String.eqb key "w".

(** The entry of [returned] that one entry of [colors] gives, if any. *)
Definition hex_to_rgb_entry (color : string) (h : string) : option color_value :=
  match hex_to_rgb h with
  | Some t => Some (Tuple t)
  | None => if is_wallpaper color then Some (Str h) else None
  end.

(** The warnings that it logs are left out. *)
Definition hex_to_rgb_map (colors : gmap string string) : gmap string color_value :=
  map_imap hex_to_rgb_entry colors.

(** [r, g, b = color; colorsys.rgb_to_hls(r / 255.0, g / 255.0, b / 255.0)] *)
Definition rgb_to_hls (color : color_value) : result (float * float * float) :=
  match color with
  | Tuple [r; g; b] =>
      try! fr := PyFloat.of_int r in
      try! r' := float_div fr 255 in
      try! fg := PyFloat.of_int g in
      try! g' := float_div fg 255 in
      try! fb := PyFloat.of_int b in
      try! b' := float_div fb 255 in
      colorsys.rgb_to_hls r' g' b'
  | Tuple _ => Raise UnpackError
  | Str (String _ (String _ (String _ EmptyString))) => Raise TypeError
  | Str _ => Raise UnpackError
  end.

(** The position that a Python index denotes in a sequence of [len] items. *)
Definition index (len : nat) (pos : Z) : option nat :=
  if (0 <=? pos) && (pos <? Z.of_nat len) then Some (Z.to_nat pos)
  else if (- Z.of_nat len <=? pos) && (pos <? 0) then Some (Z.to_nat (Z.of_nat len + pos))
  else None.

(** On the wallpaper string the item is a character, and adding an
    [int] to it is a [TypeError]. *)
Definition add_to_color_tuple (color : color_value) (value pos : Z) : result color_value :=
  match color with
  | Tuple t =>
      match index (length t) pos with
      | Some i =>
          match t !! i with
          | Some c => Ok (Tuple (<[i := c + value]> t))
          | None => Raise IndexError
          end
      | None => Raise IndexError
      end
  | Str s =>
      match index (String.length s) pos with
      | Some _ => Raise TypeError
      | None => Raise IndexError
      end
  end.

Definition invert_color (color : color_value) : result color_value :=
  match color with
  | Tuple t => Ok (Tuple (map (fun i => 255 - i) t))
  | Str EmptyString => Ok (Tuple [])
  | Str _ => Raise TypeError
  end.

Inductive mod_type : Type := add | sub | invert.

(** The dictionary [{"pos": .., "mod": .., "type": ..}]. *)
Record second_mod : Type := {
  pos : Z;
  mod_ : Z;
  type : option mod_type
}.

(** The default of the parameter [scond_mod]. *)
Definition no_second_mod : second_mod := {| pos := 0; mod_ := 0; type := None |}.

Definition check_and_apply_second_modificator
  (color_tuple : color_value) (scond_mod : second_mod) : result color_value :=
  match type scond_mod with
  | Some add | Some sub => add_to_color_tuple color_tuple (mod_ scond_mod) (pos scond_mod)
  | Some invert => invert_color color_tuple
  | None => Ok color_tuple
  end.

(** ** The first modifiers *)

(** An item of a colour value: a channel, or a character of the path. *)
Inductive item : Type :=
| Int (n : Z)
| Chr (c : ascii).

(** [color_tuple[i]] *)
Definition getitem (color_tuple : color_value) (i : nat) : result item :=
  match color_tuple with
  | Tuple t => of_option IndexError (Int <$> t !! i)
  | Str s => of_option IndexError (Chr <$> String.get i s)
  end.

(** [f"{x}"] *)
Definition str_item (x : item) : string :=
  match x with
  | Int n => Py.str_int n
  | Chr c => String c EmptyString
  end.

(** [f"{x:02x}"] *)
Definition hex_item (x : item) : result string :=
  match x with
  | Int n => Ok (Py.format_02x n)
  | Chr _ => Raise UnknownFormatCode
  end.

(** The type of the functions of [FIRST_MODIFIERS]. *)
Abbreviation formatter := (color_value -> float -> second_mod -> result string).

Definition return_rgba_string : formatter := fun color_tuple opacity scond_mod =>
  try! color_tuple := check_and_apply_second_modificator color_tuple scond_mod in
  try! c0 := getitem color_tuple 0 in
  try! c1 := getitem color_tuple 1 in
  try! c2 := getitem color_tuple 2 in
  Ok ("rgba(" +:+ str_item c0 +:+ "," +:+ str_item c1 +:+ "," +:+ str_item c2
        +:+ "," +:+ PyFloat.repr opacity +:+ ")").

Definition return_rgb_string : formatter := fun color_tuple opacity scond_mod =>
  try! color_tuple := check_and_apply_second_modificator color_tuple scond_mod in
  try! c0 := getitem color_tuple 0 in
  try! c1 := getitem color_tuple 1 in
  try! c2 := getitem color_tuple 2 in
  Ok ("rgb(" +:+ str_item c0 +:+ "," +:+ str_item c1 +:+ "," +:+ str_item c2 +:+ ")").

Definition return_values_string : formatter := fun color_tuple opacity scond_mod =>
  try! color_tuple := check_and_apply_second_modificator color_tuple scond_mod in
  try! c0 := getitem color_tuple 0 in
  try! c1 := getitem color_tuple 1 in
  try! c2 := getitem color_tuple 2 in
  Ok (str_item c0 +:+ "," +:+ str_item c1 +:+ "," +:+ str_item c2
        +:+ "," +:+ PyFloat.repr opacity).

Definition return_values_without_opacity_string : formatter :=
  fun color_tuple opacity scond_mod =>
  try! color_tuple := check_and_apply_second_modificator color_tuple scond_mod in
  try! c0 := getitem color_tuple 0 in
  try! c1 := getitem color_tuple 1 in
  try! c2 := getitem color_tuple 2 in
  Ok (str_item c0 +:+ "," +:+ str_item c1 +:+ "," +:+ str_item c2).

Definition return_red_string : formatter := fun color_tuple opacity scond_mod =>
  try! color_tuple := check_and_apply_second_modificator color_tuple scond_mod in
  try! c0 := getitem color_tuple 0 in
  Ok (str_item c0).

Definition return_green_string : formatter := fun color_tuple opacity scond_mod =>
  try! color_tuple := check_and_apply_second_modificator color_tuple scond_mod in
  try! c1 := getitem color_tuple 1 in
  Ok (str_item c1).

Definition return_blue_string : formatter := fun color_tuple opacity scond_mod =>
  try! color_tuple := check_and_apply_second_modificator color_tuple scond_mod in
  try! c2 := getitem color_tuple 2 in
  Ok (str_item c2).

Definition return_opacity_string : formatter := fun color_tuple opacity scond_mod =>
  try! color_tuple := check_and_apply_second_modificator color_tuple scond_mod in
  Ok (PyFloat.repr opacity).

Definition return_hex_string : formatter := fun color_tuple opacity scond_mod =>
  try! color_tuple := check_and_apply_second_modificator color_tuple scond_mod in
  try! c0 := getitem color_tuple 0 in
  try! h0 := hex_item c0 in
  try! c1 := getitem color_tuple 1 in
  try! h1 := hex_item c1 in
  try! c2 := getitem color_tuple 2 in
  try! h2 := hex_item c2 in
  Ok ("#" +:+ h0 +:+ h1 +:+ h2).

Definition return_hex_values_string : formatter := fun color_tuple opacity scond_mod =>
  try! color_tuple := check_and_apply_second_modificator color_tuple scond_mod in
  try! c0 := getitem color_tuple 0 in
  try! h0 := hex_item c0 in
  try! c1 := getitem color_tuple 1 in
  try! h1 := hex_item c1 in
  try! c2 := getitem color_tuple 2 in
  try! h2 := hex_item c2 in
  Ok (h0 +:+ h1 +:+ h2).

(** [check_and_apply_second_modificator(rgb_to_hls(color_tuple))]: the
    argument is evaluated, then the call fails, since the function takes
    two positional arguments and is given one. *)
Definition check_and_apply_second_modificator_1 (hls : float * float * float)
  : result (float * float * float) :=
  Raise TypeError.

Definition return_hsl_string : formatter := fun color_tuple opacity scond_mod =>
  try! hls := rgb_to_hls color_tuple in
  try! (h, l, s) := check_and_apply_second_modificator_1 hls in
  Ok ("hsl(" +:+ PyFloat.repr h +:+ "," +:+ PyFloat.repr l +:+ "," +:+ PyFloat.repr s +:+ ")").

Definition return_h_from_hsl_string : formatter := fun color_tuple opacity scond_mod =>
  try! hls := rgb_to_hls color_tuple in
  try! (h, l, s) := check_and_apply_second_modificator_1 hls in
  Ok (PyFloat.repr h).

Definition return_s_from_hsl_string : formatter := fun color_tuple opacity scond_mod =>
  try! hls := rgb_to_hls color_tuple in
  try! (h, l, s) := check_and_apply_second_modificator_1 hls in
  Ok (PyFloat.repr s).

Definition return_l_from_hsl_string : formatter := fun color_tuple opacity scond_mod =>
  try! hls := rgb_to_hls color_tuple in
  try! (h, l, s) := check_and_apply_second_modificator_1 hls in
  Ok (PyFloat.repr l).

Definition return_hsl_values_string : formatter := fun color_tuple opacity scond_mod =>
  try! hls := rgb_to_hls color_tuple in
  try! (h, l, s) := check_and_apply_second_modificator_1 hls in
  Ok (PyFloat.repr h +:+ "," +:+ PyFloat.repr l +:+ "," +:+ PyFloat.repr s).

Definition FIRST_MODIFIERS : gmap string formatter :=
  list_to_map [
    ("DEFAULT", return_rgba_string);
    (".rgba", return_rgba_string);
    (".rgb", return_rgb_string);
    (".hex", return_hex_string);
    (".hsl", return_hsl_string);
    (".rgba_values", return_values_string);
    (".rgb_values", return_values_without_opacity_string);
    (".hex_values", return_hex_values_string);
    (".hsl_values", return_hsl_values_string);
    (".r", return_red_string);
    (".red", return_red_string);
    (".g", return_green_string);
    (".green", return_green_string);
    (".b", return_blue_string);
    (".blue", return_blue_string);
    (".o", return_opacity_string);
    (".opacity", return_opacity_string);
    (".h", return_h_from_hsl_string);
    (".hue", return_h_from_hsl_string);
    (".s", return_s_from_hsl_string);
    (".saturation", return_s_from_hsl_string);
    (".l", return_l_from_hsl_string);
    (".lightness", return_l_from_hsl_string)
  ].

(** ** The second modifiers *)

(** [params.replace(" ","").replace("(", "").replace(")", "").split(",")] *)
Definition split_params (params : string) : list string :=
  Py.split "," (Py.remove ")" (Py.remove "(" (Py.remove " " params))).

Definition int10 (s : string) : result Z := of_option (InvalidLiteral s) (Py.int 10 s).

(** [params] is group 5 of the match, [None] when the group took no part:
    [None.replace] is an [AttributeError]. *)
Definition add_modificator (params : option string) : result second_mod :=
  match params with
  | None => Raise AttributeError
  | Some params =>
      let p := split_params params in
      if (length p <? 2)%nat || (2 <? length p)%nat then Raise (TakesTwoParameters (length p))
      else
        try! p0 := int10 (nth 0 p EmptyString) in
        try! p1 := int10 (nth 1 p EmptyString) in
        Ok {| pos := p0; mod_ := p1; type := Some add |}
  end.

Definition sub_modificator (params : option string) : result second_mod :=
  match params with
  | None => Raise AttributeError
  | Some params =>
      let p := split_params params in
      if (length p <? 2)%nat || (2 <? length p)%nat then Raise (TakesTwoParameters (length p))
      else
        try! p0 := int10 (nth 0 p EmptyString) in
        try! p1 := int10 (nth 1 p EmptyString) in
        Ok {| pos := p0; mod_ := -1 * p1; type := Some sub |}
  end.

Definition invert_modificator (params : option string) : result second_mod :=
  match params with
  | Some (String c s) => Raise (InvertTakesNoParameters (String c s))
  | _ => Ok {| pos := 0; mod_ := 0; type := Some invert |}
  end.

Definition SECOND_MODIFIERS : gmap string (option string -> result second_mod) :=
  list_to_map [
    (".add", add_modificator);
    (".sub", sub_modificator);
    (".invert", invert_modificator);
    (".a", add_modificator);
    (".s", sub_modificator);
    (".i", invert_modificator)
  ].

(** ** The token grammar *)

(** The groups of a match of the pattern of [replace_key]; [group1]
    always takes part in a match. *)
Record Match : Type := {
  group1 : string;
  group2 : option string;
  group3 : option string;
  group4 : option string;
  group5 : option string
}.

Module Re.

(** The longest prefix of characters of a class, and what follows it:
    a greedy [c*]. *)
Fixpoint span (p : ascii -> bool) (s : string) : string * string :=
  match s with
  | EmptyString => (EmptyString, EmptyString)
  | String c s' =>
      if p c then let '(w, r) := span p s' in (String c w, r)
      else (EmptyString, s)
  end.

(** A greedy [c+]. *)
Definition many1 (p : ascii -> bool) (s : string) : option (string * string) :=
  match span p s with
  | (EmptyString, _) => None
  | (w, r) => Some (w, r)
  end.

(** One given character. *)
Definition char (c : ascii) (s : string) : option string :=
  match s with
  | String d r => if Ascii.eqb d c then Some r else None
  | EmptyString => None
  end.

(** A literal under [re.IGNORECASE]: the text matched and what follows. *)
Fixpoint literal (lit : string) (s : string) : option string :=
  match lit, s with
  | EmptyString, _ => Some s
  | String c lit', String d s' =>
      if Ascii.eqb (Py.lower_char d) (Py.lower_char c) then literal lit' s' else None
  | String _ _, EmptyString => None
  end.

(** [\d+(?:\.\d+)?] *)
Definition number (s : string) : option (string * string) :=
  match many1 Py.isdigit s with
  | None => None
  | Some (i, r) =>
      match char "." r with
      | Some r' =>
          match many1 Py.isdigit r' with
          | Some (f, r'') => Some (i +:+ "." +:+ f, r'')
          | None => Some (i, r)
          end
      | None => Some (i, r)
      end
  end.

(** [(?:,\s*(\d+(?:\.\d+)?))?\)]: group 2 and what follows the closing
    parenthesis.  When the optional part fails after its comma, the
    parenthesis is looked for at the comma, and the match fails. *)
Definition opacity_and_close (s : string) : option (option string * string) :=
  match char "," s with
  | Some r =>
      match number (snd (span Py.isspace r)) with
      | Some (o, r') =>
          match char ")" r' with
          | Some r'' => Some (Some o, r'')
          | None => None
          end
      | None => None
      end
  | None =>
      match char ")" s with
      | Some r => Some (None, r)
      | None => None
      end
  end.

(** [\.\w+] *)
Definition dotted (s : string) : option (string * string) :=
  match char "." s with
  | Some r =>
      match many1 Py.isword r with
      | Some (w, r') => Some (String "." w, r')
      | None => None
      end
  | None => None
  end.

(** [\(\d+(?:\.\d+)?(?:,\s*\d+(?:\.\d+)?)?\)], group 5.  The text matched
    keeps the white space after the comma. *)
Definition arguments (s : string) : option (string * string) :=
  match char "(" s with
  | None => None
  | Some r =>
      match number r with
      | None => None
      | Some (a, r1) =>
          let second :=
            match char "," r1 with
            | Some r2 =>
                let '(ws, r3) := span Py.isspace r2 in
                match number r3 with
                | Some (b, r4) => Some ("," +:+ ws +:+ b, r4)
                | None => None
                end
            | None => None
            end in
          let '(mid, r5) := match second with
                            | Some (t, r4) => (a +:+ t, r4)
                            | None => (a, r1)
                            end in
          match char ")" r5 with
          | Some r6 => Some ("(" +:+ mid +:+ ")", r6)
          | None => None
          end
      end
  end.

(** [(\.\w+(\(...\))?)?], groups 4 and 5. *)
Definition second (s : string) : option string * option string * string :=
  match dotted s with
  | Some (name, r) =>
      match arguments r with
      | Some (args, r') => (Some (name +:+ args), Some args, r')
      | None => (Some name, None, r)
      end
  | None => (None, None, s)
  end.

(** A match of
    [KEY\((\w+)(?:,\s*(\d+(?:\.\d+)?))?\)(\.\w+)?(\.\w+(\(\d+(?:\.\d+)?(?:,\s*\d+(?:\.\d+)?)?\))?)?]
    at the start of [s], with what follows it.  Every repetition is
    followed by a character outside its class, so the greedy choice is the
    only one that can succeed and no backtracking is called for. *)
Definition token (s : string) : option (Match * string) :=
  match literal "KEY(" s with
  | None => None
  | Some r =>
      match many1 Py.isword r with
      | None => None
      | Some (key, r1) =>
          match opacity_and_close r1 with
          | None => None
          | Some (g2, r2) =>
              let '(g3, r3) := match dotted r2 with
                               | Some (m, r') => (Some m, r')
                               | None => (None, r2)
                               end in
              let '(g4, g5, r4) := second r3 in
              Some ({| group1 := key; group2 := g2; group3 := g3;
                       group4 := g4; group5 := g5 |}, r4)
          end
      end
  end.

(** A match of [KEY\([^)]*\)] at the start of [s]. *)
Definition key_at (s : string) : bool :=
  match literal "KEY(" s with
  | Some r =>
      match snd (span (fun c => negb (Ascii.eqb c ")")) r) with
      | String _ _ => true
      | EmptyString => false
      end
  | None => false
  end.

(** [bool(re.search(r'KEY\([^)]*\)', s, re.IGNORECASE))] *)
Fixpoint search_key (s : string) : bool :=
  key_at s ||
  match s with
  | String _ s' => search_key s'
  | EmptyString => false
  end.

(** [re.sub(pattern, repl, s)] for the pattern of [token]: the matches
    are taken from left to right and [repl] is called on each as it is
    found.  A match is never empty, so [fuel] above the length of [s]
    is enough. *)
Fixpoint sub (fuel : nat) (repl : Match -> result string) (s : string) : result string :=
  match fuel with
  | O => Ok s
  | S fuel' =>
      match token s with
      | Some (m, rest) =>
          try! r := repl m in
          try! t := sub fuel' repl rest in
          Ok (r +:+ t)
      | None =>
          match s with
          | String c s' =>
              try! t := sub fuel' repl s' in
              Ok (String c t)
          | EmptyString => Ok EmptyString
          end
      end
  end.

(** [re.sub(r'[0-9,]', '', s)] *)
Fixpoint strip_digits_commas (s : string) : string :=
  match s with
  | EmptyString => EmptyString
  | String c s' =>
      if Py.isdigit c || Ascii.eqb c "," then strip_digits_commas s'
      else String c (strip_digits_commas s')
  end.

End Re.

(** ** [remap_key] *)

(** [g if g else None] for a group. *)
Definition truthy (g : option string) : option string :=
  match g with
  | Some (String c s) => Some (String c s)
  | _ => None
  end.

(** The [try] block of [remap_key]: every failure in it, the one of
    [float()] too, is caught by its [except] clause, which raises. *)
Definition opacity_of (second_arg : string) : result float :=
  match PyFloat.of_string second_arg with
  | None => Raise (OpacityNotValid second_arg)
  | Some second_arg' =>
      if PrimFloat.ltb second_arg' 0 then Raise (OpacityNotValid second_arg)
      else if PrimFloat.ltb 1 second_arg' && PrimFloat.leb second_arg' 100
      then Ok (PrimFloat.div second_arg' 100)
      else if PrimFloat.ltb 100 second_arg' then Raise (OpacityNotValid second_arg)
      else Ok second_arg'
  end.

(** [second_modifer_name] *)
Definition second_modifer_name_of (second_modifer : string) : string :=
  Py.remove " " (Re.strip_digits_commas (Py.remove ")" (Py.remove "(" second_modifer))).

(** [second_modifer_params] once the second modifier has been looked up. *)
Definition second_modifer_params_of (m : Match) : result second_mod :=
  match truthy (group4 m) with
  | Some g4 =>
      match SECOND_MODIFIERS !! second_modifer_name_of (Py.lower g4) with
      | Some f => f (group5 m)
      | None => Ok no_second_mod
      end
  | None => Ok no_second_mod
  end.

(** [match.group(2) if match.group(2) else "1.0"] *)
Definition second_arg_of (m : Match) : string :=
  match truthy (group2 m) with
  | Some g2 => g2
  | None => "1.0"
  end.

(** [match.group(3).lower() if match.group(3) else None] *)
Definition first_modifier_of (m : Match) : option string :=
  Py.lower <$> truthy (group3 m).

Definition remap_key (colors : gmap string color_value) (m : Match) : result string :=
  let first_arg := Py.lower (group1 m) in
  let first_arg_values := colors !! first_arg in
  if falsy first_arg_values then Raise (ColorNotFound first_arg)
  else
    match first_arg_values with
    | None => Raise (ColorNotFound first_arg)
    | Some first_arg_values =>
        try! opacity := opacity_of (second_arg_of m) in
        let first_modifier := first_modifier_of m in
        try! second_modifer_params := second_modifer_params_of m in
        if is_wallpaper first_arg
           && (negb (PrimFloat.eqb opacity 1) || bool_decide (is_Some first_modifier))
        then Raise WallpaperConflict
        else
          match first_modifier ≫= (FIRST_MODIFIERS !!.) with
          | Some f => f first_arg_values opacity second_modifer_params
          | None =>
              match FIRST_MODIFIERS !! "DEFAULT" with
              | Some f => f first_arg_values opacity no_second_mod
              | None => Raise KeyError
              end
          end
    end.

Definition replace_key (colors : gmap string color_value) (text : string) : result string :=
  Re.sub (S (String.length text)) (remap_key colors) text.

(** ** [try_replace_key_in_theme] *)

(** What [logging.warning] and [logging.error] are given: the line
    (counted from 1), the file name, and for an error the exception. *)
Inductive log_record : Type :=
| WARNING (line : nat) (filename : string)
    (* in line {n+1} in {filename}: KEY parse error. Maybe you wrote the wrong parameters? *)
| ERROR (line : nat) (filename : string) (e : exn).
    (* in line {n+1} in {filename}: {e} *)

(** The loop of [try_replace_key_in_theme] from line index [n] on, with
    the output and the log so far. *)
Fixpoint rewrite_lines (colors : gmap string color_value) (filename end_ : string)
  (n : nat) (lines : list string) (output : string) (log : list log_record)
  : string * list log_record :=
  match lines with
  | [] => (output, log)
  | i :: lines' =>
      if Re.search_key i then
        match replace_key colors i with
        | Ok r =>
            let new_line := r +:+ end_ in
            let log' := if String.eqb new_line (i +:+ end_)
                        then log ++ [WARNING (n + 1) filename] else log in
            rewrite_lines colors filename end_ (S n) lines' (output +:+ new_line) log'
        | Raise e =>
            rewrite_lines colors filename end_ (S n) lines' output
              (log ++ [ERROR (n + 1) filename e])
        end
      else rewrite_lines colors filename end_ (S n) lines' (output +:+ i +:+ end_) log
  end.

(** The text that it returns, and the records that it logs. *)
Definition try_replace_key_in_theme (colors : gmap string color_value)
  (lines : list string) (filename end_ : string) : string * list log_record :=
  rewrite_lines colors filename end_ 0 lines EmptyString [].

(** ** [map_colors] *)

(** The dictionary that pywal gives, as far as [map_colors] reads it:
    [colors["wallpaper"]], [colors["special"]] and [colors["colors"]].
    A part that is [None] is a key that the dictionary lacks.  The
    values are taken to be strings, as they are in pywal's file. *)
Record pywal : Type := {
  pywal_wallpaper : option string;
  pywal_special : option (gmap string string);
  pywal_colors : option (gmap string string)
}.

(** [d[key]] *)
Definition getkey {A : Type} (d : gmap string A) (key : string) : result A :=
  of_option KeyError (d !! key).

Definition map_colors (colors : pywal) : result (gmap string string) :=
  try! wallpaper := of_option KeyError (pywal_wallpaper colors) in
  try! special := of_option KeyError (pywal_special colors) in
  try! background := getkey special "background" in
  try! foreground := getkey special "foreground" in
  try! cs := of_option KeyError (pywal_colors colors) in
  try! color0 := getkey cs "color0" in
  try! color1 := getkey cs "color1" in
  try! color2 := getkey cs "color2" in
  try! color3 := getkey cs "color3" in
  try! color4 := getkey cs "color4" in
  try! color5 := getkey cs "color5" in
  try! color6 := getkey cs "color6" in
  try! color7 := getkey cs "color7" in
  try! color8 := getkey cs "color8" in
  try! color9 := getkey cs "color9" in
  try! color10 := getkey cs "color10" in
  try! color11 := getkey cs "color11" in
  try! color12 := getkey cs "color12" in
  try! color13 := getkey cs "color13" in
  try! color14 := getkey cs "color14" in
  try! color15 := getkey cs "color15" in
  Ok (list_to_map [
    ("wallpaper", wallpaper);
    ("background", background);
    ("foreground", foreground);
    ("0", color0); ("1", color1); ("2", color2); ("3", color3);
    ("4", color4); ("5", color5); ("6", color6); ("7", color7);
    ("8", color8); ("9", color9); ("10", color10); ("11", color11);
    ("12", color12); ("13", color13); ("14", color14); ("15", color15);
    ("border", color2);
    ("text", color15);
    ("accent", color13);
    ("b", background);
    ("f", foreground);
    ("br", color2);
    ("t", color15);
    ("a", color13);
    ("w", wallpaper)
  ]).

(** ** The pure steps of [main] *)

Module PyStr.

(** [needle in s] *)
Fixpoint contains (needle s : string) : bool :=
  String.prefix needle s ||
  match s with
  | String _ s' => contains needle s'
  | EmptyString => false
  end.

(** [s.strip()] *)
Definition strip (s : string) : string :=
  Py.rstrip_class Py.isspace (Py.lstrip_class Py.isspace s).

End PyStr.

(** [" * @description Generated by Walcord\n"] *)
Definition generated_description : string :=
  " * @description Generated by Walcord" +:+ String (ascii_of_nat 10) EmptyString.

(** The loop of [main] over [theme_lines] that replaces the first line
    in which ["@description"] occurs, and stops there. *)
Fixpoint main_set_description (theme_lines : list string) : list string :=
  match theme_lines with
  | [] => []
  | line :: rest =>
      if PyStr.contains "@description" line then generated_description :: rest
      else line :: main_set_description rest
  end.

(** [".css" if not args.extention else args.extention] *)
Definition main_extention (extention : option string) : string :=
  match extention with
  | Some (String c e) => String c e
  | _ => ".css"
  end.

(** The loop of [main] over the lines read from the standard input that
    takes the file name from a line in which ["@name"] occurs: there is
    no [break], every such line sets the name anew. *)
Definition main_stdin_file_name (extention : option string) (theme_lines : list string)
  : string :=
  fold_left
    (fun theme_file_name line =>
       if PyStr.contains "@name" line
       then PyStr.strip (List.last (Py.split " " line) EmptyString) +:+ main_extention extention
       else theme_file_name)
    theme_lines "stdin.walcord.theme.css".

(** [theme_text] of [main] for the lines of one theme: [theme] tells
    whether [--theme] was given, in which case the lines, read with
    [readlines], keep their line ends and none is added. *)
Definition main_theme_text (colors : gmap string color_value) (theme : bool)
  (theme_lines : list string) (theme_file : string) : string * list log_record :=
  try_replace_key_in_theme colors (main_set_description theme_lines) theme_file
    (if theme then EmptyString else String (ascii_of_nat 10) EmptyString).

(** ** A palette for the examples *)

Definition wall : string := "/home/u/wall.png".

(** The colour [a] with the given channels, and the wallpaper path. *)
Definition sample_colors (r g b : Z) : gmap string color_value :=
  <["a" := Tuple [r; g; b]]> (<["wallpaper" := Str wall]> (<["w" := Str wall]> ∅)).

Definition newline : string := String (ascii_of_nat 10) EmptyString.

(** A dictionary as pywal writes it, with grey colours. *)
Definition sample_pywal : pywal :=
  {| pywal_wallpaper := Some "/w.png";
     pywal_special := Some (list_to_map [("background", "#000000"); ("foreground", "#ffffff");
                                         ("cursor", "#ffffff")]);
     pywal_colors := Some (list_to_map [
       ("color0", "#000000"); ("color1", "#010101"); ("color2", "#020202");
       ("color3", "#030303"); ("color4", "#040404"); ("color5", "#050505");
       ("color6", "#060606"); ("color7", "#070707"); ("color8", "#080808");
       ("color9", "#090909"); ("color10", "#0a0a0a"); ("color11", "#0b0b0b");
       ("color12", "#0c0c0c"); ("color13", "#0d0d0d"); ("color14", "#0e0e0e");
       ("color15", "#0f0f0f")]) |}.

(** What [map_colors] makes of it. *)
Definition sample_mapped : gmap string string :=
  list_to_map [("wallpaper", "/w.png"); ("background", "#000000"); ("foreground", "#ffffff");
    ("0", "#000000"); ("1", "#010101"); ("2", "#020202"); ("3", "#030303");
    ("4", "#040404"); ("5", "#050505"); ("6", "#060606"); ("7", "#070707");
    ("8", "#080808"); ("9", "#090909"); ("10", "#0a0a0a"); ("11", "#0b0b0b");
    ("12", "#0c0c0c"); ("13", "#0d0d0d"); ("14", "#0e0e0e"); ("15", "#0f0f0f");
    ("border", "#020202"); ("text", "#0f0f0f"); ("accent", "#0d0d0d");
    ("b", "#000000"); ("f", "#ffffff"); ("br", "#020202"); ("t", "#0f0f0f");
    ("a", "#0d0d0d"); ("w", "/w.png")].

(** ** Notions used in the statements *)

(** The two lowercase hexadecimal digits of a channel. *)
Definition two_hex (n : Z) : string :=
  String (Py.hex_char (n / 16)) (String (Py.hex_char (n mod 16)) EmptyString).

(** No divisor of [colorsys.rgb_to_hls] is zero, for the extremes
    [maxc] and [minc]. *)
Definition divisors_nonzero (maxc minc : float) : bool :=
  PrimFloat.eqb minc maxc
  || (negb (PrimFloat.eqb (PrimFloat.sub maxc minc) 0)
      && (if PrimFloat.leb (PrimFloat.div (PrimFloat.add maxc minc) 2) 0.5
          then negb (PrimFloat.eqb (PrimFloat.add maxc minc) 0)
          else negb (PrimFloat.eqb (PrimFloat.sub 2 (PrimFloat.add maxc minc)) 0))).

(** A hexadecimal digit, in either case. *)
Definition isxdigit (c : ascii) : bool :=
  match Py.digit_value 16 c with
  | Some _ => true
  | None => false
  end.

(** The number of times that a character stands in a string. *)
Fixpoint count_char (c : ascii) (s : string) : nat :=
  match s with
  | EmptyString => O
  | String d s' => if Ascii.eqb d c then S (count_char c s') else count_char c s'
  end.

(** A match with the key and the two modifiers in lower case. *)
Definition lower_match (m : Match) : Match :=
  {| group1 := Py.lower (group1 m);
     group2 := group2 m;
     group3 := Py.lower <$> group3 m;
     group4 := Py.lower <$> group4 m;
     group5 := group5 m |}.

(** The line number and the file name of a record of the log. *)
Definition log_line (r : log_record) : nat :=
  match r with
  | WARNING line _ => line
  | ERROR line _ _ => line
  end.

Definition log_filename (r : log_record) : string :=
  match r with
  | WARNING _ filename => filename
  | ERROR _ filename _ => filename
  end.

(** Every character of a string is of a class. *)
Fixpoint all_chars (p : ascii -> bool) (s : string) : bool :=
  match s with
  | EmptyString => true
  | String c s' => p c && all_chars p s'
  end.

(** A channel scaled to the unit interval: [n / 255.0]. *)
Definition unit_channel (n : Z) : float := PrimFloat.div (PyFloat.nearest n 1) 255.

(** The lightness and the saturation that [colorsys.rgb_to_hls] computes
    from the greatest and the least of the three channels. *)
Definition lightness_saturation (maxc minc : float) : float * float :=
  let sumc := PrimFloat.add maxc minc in
  let rangec := PrimFloat.sub maxc minc in
  let l := PrimFloat.div sumc 2 in
  (l, if PrimFloat.eqb minc maxc then 0%float
      else if PrimFloat.leb l 0.5 then PrimFloat.div rangec sumc
      else PrimFloat.div rangec (PrimFloat.sub 2 sumc)).

(** The lightness between 0 and 1, the saturation not below 0. *)
Definition in_bounds (ls : float * float) : bool :=
  PrimFloat.leb 0 (fst ls) && PrimFloat.leb (fst ls) 1 && PrimFloat.leb 0 (snd ls).

(** Zero, not a number, or with the sign bit clear. *)
Definition sign_clear (x : spec_float) : Prop :=
  match x with
  | S754_finite true _ _ => False
  | S754_infinity true => False
  | _ => True
  end.

(** The grammar of [replace_key] matches somewhere in [s]. *)
Fixpoint has_token (s : string) : bool :=
  match Re.token s with
  | Some _ => true
  | None =>
      match s with
      | String _ s' => has_token s'
      | EmptyString => false
      end
  end.

(** The matches that [re.sub] hands to [repl] in [s], from left to
    right, with the fuel of [Re.sub]. *)
Fixpoint matches (fuel : nat) (s : string) : list Match :=
  match fuel with
  | O => []
  | S fuel' =>
      match Re.token s with
      | Some (m, rest) => m :: matches fuel' rest
      | None =>
          match s with
          | String _ s' => matches fuel' s'
          | EmptyString => []
          end
      end
  end.

(** The matches on which [replace_key] calls [remap_key] in [text]. *)
Definition matches_of (text : string) : list Match :=
  matches (S (String.length text)) text.

(** [replace_key] fails with [e] on the line [text], and so the line is
    lost in [try_replace_key_in_theme]: nothing is written for it, not
    the line end either, and [e] is logged as an error at the number of
    the line, whatever the file name, the line end and the number. *)
Definition fatal_to_line (colors : gmap string color_value) (text : string) (e : exn) : Prop :=
  replace_key colors text = Raise e /\
  forall (filename end_ : string) (n : nat),
    rewrite_lines colors filename end_ n [text] EmptyString []
    = (EmptyString, [ERROR (n + 1) filename e]).


(** [needle] occurs in [text]. *)
Definition occurs_in (needle text : string) : Prop :=
  exists before after, text = before +:+ needle +:+ after.

(** * Properties *)

(** ** The examples of the specification *)

Example key_rgb : replace_key (sample_colors 255 0 0) "KEY(A).rgb" = Ok "rgb(255,0,0)".
Proof. vm_compute. reflexivity. Qed.

Example key_percent_rgba :
  replace_key (sample_colors 0 128 255) "KEY(A, 50).rgba" = Ok "rgba(0,128,255,0.5)".
Proof. vm_compute. reflexivity. Qed.

Example key_rgb_add :
  replace_key (sample_colors 10 20 30) "KEY(A).rgb.add(0,5)" = Ok "rgb(15,20,30)".
Proof. vm_compute. reflexivity. Qed.

Example key_in_text :
  replace_key (sample_colors 10 20 30)
    "x KEY(a).hex; KEY(a, 0.6).rgb_values KEY(a).rgb.invert KEY(a).foo.add(5,3)"
  = Ok "x #0a141e; 10,20,30 rgb(245,235,225) rgba(10,20,30,1.0)".
Proof. vm_compute. reflexivity. Qed.

(** ** Results *)

Lemma bind_Ok {A B : Type} (m : result A) (k : A -> result B) (b : B) :
  bind m k = Ok b -> exists a, m = Ok a /\ k a = Ok b.
Proof. destruct m as [a|e]; simpl; [eauto | discriminate]. Qed.

(** ** Second modifiers on a tuple *)




(** C8: applying the [invert] second modifier twice gives the tuple
    back.  It holds for every tuple of integers, the triples with
    channels in 0..255 among them: [255 - (255 - c) = c] without any
    bound on [c]. *)
Theorem invert_twice (color : list Z) :
  (try! scond_mod := invert_modificator None in
   try! once := check_and_apply_second_modificator (Tuple color) scond_mod in
   check_and_apply_second_modificator once scond_mod) = Ok (Tuple color).
Proof.
  simpl. unfold check_and_apply_second_modificator. simpl. do 2 f_equal.
  rewrite map_map. induction color as [|c color IH]; simpl; [reflexivity|].
  rewrite IH. f_equal. lia.
Qed.



Example add_sub_parsed :
  add_modificator (Some "(0, 500)") = Ok {| pos := 0; mod_ := 500; type := Some add |} /\
  sub_modificator (Some "(0, 500)") = Ok {| pos := 0; mod_ := -1 * 500; type := Some sub |}.
Proof. split; reflexivity. Qed.

(** ** The tables of modifiers *)

Lemma FIRST_MODIFIERS_DEFAULT : FIRST_MODIFIERS !! "DEFAULT" = Some return_rgba_string.
Proof. reflexivity. Qed.

Lemma FIRST_MODIFIERS_hsl : FIRST_MODIFIERS !! ".hsl" = Some return_hsl_string.
Proof. reflexivity. Qed.

(** ** The default output *)

Lemma return_rgba_string_tuple (r g b : Z) (opacity : float) :
  return_rgba_string (Tuple [r; g; b]) opacity no_second_mod
  = Ok ("rgba(" +:+ Py.str_int r +:+ "," +:+ Py.str_int g +:+ "," +:+ Py.str_int b
          +:+ "," +:+ PyFloat.repr opacity +:+ ")").
Proof. reflexivity. Qed.

(** C10: a token that resolves and whose first modifier is absent or is
    not a key of [FIRST_MODIFIERS] resolves to what [return_rgba_string]
    gives for the palette value and the opacity, called without the
    second modifier: for a triple, [rgba(r,g,b,opacity)] with the
    channels of the palette, whatever groups 4 and 5 hold. *)
Theorem default_is_rgba (colors : gmap string color_value) (m : Match) (s : string) :
  remap_key colors m = Ok s ->
  first_modifier_of m ≫= (FIRST_MODIFIERS !!.) = None ->
  exists (v : color_value) (opacity : float),
    colors !! Py.lower (group1 m) = Some v /\
    opacity_of (second_arg_of m) = Ok opacity /\
    return_rgba_string v opacity no_second_mod = Ok s /\
    forall r g b, v = Tuple [r; g; b] ->
      s = "rgba(" +:+ Py.str_int r +:+ "," +:+ Py.str_int g +:+ "," +:+ Py.str_int b
            +:+ "," +:+ PyFloat.repr opacity +:+ ")".
Proof.
  unfold remap_key. intros H Hfm. cbv zeta in H.
  destruct (falsy _); [discriminate|].
  destruct (colors !! Py.lower (group1 m)) as [v|]; [|discriminate].
  apply bind_Ok in H as (opacity & Hop & H).
  apply bind_Ok in H as (sm & Hsm & H).
  destruct (_ && _); [discriminate|].
  rewrite Hfm, FIRST_MODIFIERS_DEFAULT in H.
  exists v, opacity. repeat split; try assumption.
  intros r g b ->. rewrite return_rgba_string_tuple in H. congruence.
Qed.

Lemma default_is_rgba_witness :
  exists (v : color_value) (opacity : float),
    sample_colors 10 20 30 !! Py.lower "A" = Some v /\
    opacity_of "1.0" = Ok opacity /\
    return_rgba_string v opacity no_second_mod = Ok "rgba(10,20,30,1.0)" /\
    forall r g b, v = Tuple [r; g; b] ->
      "rgba(10,20,30,1.0)"
      = "rgba(" +:+ Py.str_int r +:+ "," +:+ Py.str_int g +:+ "," +:+ Py.str_int b
          +:+ "," +:+ PyFloat.repr opacity +:+ ")".
Proof.
  apply (default_is_rgba (sample_colors 10 20 30)
           {| group1 := "A"; group2 := None; group3 := Some ".foo";
              group4 := Some ".add(1,7)"; group5 := Some "(1,7)" |}
           "rgba(10,20,30,1.0)").
  - vm_compute. reflexivity.
  - vm_compute. reflexivity.
Defined.

(** ** Checking a property on every channel value *)

Lemma forall_channel (P : Z -> bool) :
  forallb P (map Z.of_nat (seq 0 256)) = true ->
  forall n, 0 <= n <= 255 -> P n = true.
Proof.
  intros H n Hn. rewrite forallb_forall in H. apply H.
  apply in_map_iff. exists (Z.to_nat n). split; [lia|].
  apply in_seq. lia.
Qed.

(** ** The [.hsl] family *)

(** The channel scaled to the unit interval: [n / 255.0]. *)
Lemma channel_scaled (n : Z) :
  0 <= n <= 255 ->
  (try! f := PyFloat.of_int n in float_div f 255)
  = Ok (PrimFloat.div (PyFloat.nearest n 1) 255).
Proof.
  intros Hn.
  assert (Hfin : PrimFloat.is_infinity (PyFloat.nearest n 1) = false).
  { apply negb_true_iff.
    apply (forall_channel (fun n => negb (PrimFloat.is_infinity (PyFloat.nearest n 1))));
      [vm_compute; reflexivity | exact Hn]. }
  unfold PyFloat.of_int. destruct n as [|p|p]; [| |lia]; rewrite Hfin; reflexivity.
Qed.

Lemma max3_cases (x y z : float) :
  colorsys.max3 x y z = x \/ colorsys.max3 x y z = y \/ colorsys.max3 x y z = z.
Proof.
  unfold colorsys.max3. destruct (PrimFloat.ltb x y); destruct (PrimFloat.ltb _ z); auto.
Qed.

Lemma min3_cases (x y z : float) :
  colorsys.min3 x y z = x \/ colorsys.min3 x y z = y \/ colorsys.min3 x y z = z.
Proof.
  unfold colorsys.min3. destruct (PrimFloat.ltb y x); destruct (PrimFloat.ltb z _); auto.
Qed.

Lemma rgb_to_hls_total (r g b : float) :
  divisors_nonzero (colorsys.max3 r g b) (colorsys.min3 r g b) = true ->
  exists hls, colorsys.rgb_to_hls r g b = Ok hls.
Proof.
  unfold divisors_nonzero, colorsys.rgb_to_hls.
  set (maxc := colorsys.max3 r g b). set (minc := colorsys.min3 r g b).
  destruct (PrimFloat.eqb minc maxc); [eauto|]. simpl.
  intros [Hr Hs]%andb_true_iff. apply negb_true_iff in Hr.
  unfold float_div. rewrite Hr.
  destruct (PrimFloat.leb _ _); apply negb_true_iff in Hs; rewrite Hs; simpl; eauto.
Qed.

Lemma channels_divisors_nonzero (m n : Z) :
  0 <= m <= 255 -> 0 <= n <= 255 ->
  divisors_nonzero (PrimFloat.div (PyFloat.nearest m 1) 255)
                   (PrimFloat.div (PyFloat.nearest n 1) 255) = true.
Proof.
  intros Hm Hn. revert n Hn.
  apply (forall_channel (fun n =>
           divisors_nonzero (PrimFloat.div (PyFloat.nearest m 1) 255)
                            (PrimFloat.div (PyFloat.nearest n 1) 255))).
  revert m Hm.
  apply (forall_channel (fun m =>
           forallb (fun n =>
             divisors_nonzero (PrimFloat.div (PyFloat.nearest m 1) 255)
                              (PrimFloat.div (PyFloat.nearest n 1) 255))
             (map Z.of_nat (seq 0 256)))).
  vm_compute. reflexivity.
Qed.

(** The conversion itself succeeds on every colour with channels in 0..255. *)
Lemma rgb_to_hls_channels (r g b : Z) :
  0 <= r <= 255 -> 0 <= g <= 255 -> 0 <= b <= 255 ->
  exists hls, rgb_to_hls (Tuple [r; g; b]) = Ok hls.
Proof.
  intros Hr Hg Hb. unfold rgb_to_hls.
  destruct (bind_Ok _ _ _ (channel_scaled r Hr)) as (fr & Er & Er').
  destruct (bind_Ok _ _ _ (channel_scaled g Hg)) as (fg & Eg & Eg').
  destruct (bind_Ok _ _ _ (channel_scaled b Hb)) as (fb & Eb & Eb').
  rewrite Er; cbn [bind]; rewrite Er'; cbn [bind].
  rewrite Eg; cbn [bind]; rewrite Eg'; cbn [bind].
  rewrite Eb; cbn [bind]; rewrite Eb'; cbn [bind].
  apply rgb_to_hls_total.
  destruct (max3_cases (PrimFloat.div (PyFloat.nearest r 1) 255)
              (PrimFloat.div (PyFloat.nearest g 1) 255)
              (PrimFloat.div (PyFloat.nearest b 1) 255)) as [-> | [-> | ->]];
  destruct (min3_cases (PrimFloat.div (PyFloat.nearest r 1) 255)
              (PrimFloat.div (PyFloat.nearest g 1) 255)
              (PrimFloat.div (PyFloat.nearest b 1) 255)) as [-> | [-> | ->]];
  apply channels_divisors_nonzero; assumption.
Qed.

(** The five formatters of the family never return a string. *)
Lemma hsl_family_never_returns (color_tuple : color_value) (opacity : float)
  (scond_mod : second_mod) (f : formatter) :
  In f [return_hsl_string; return_h_from_hsl_string; return_s_from_hsl_string;
        return_l_from_hsl_string; return_hsl_values_string] ->
  exists e, f color_tuple opacity scond_mod = Raise e.
Proof.
  simpl. intros [<- | [<- | [<- | [<- | [<- | []]]]]];
    unfold return_hsl_string, return_h_from_hsl_string, return_s_from_hsl_string,
      return_l_from_hsl_string, return_hsl_values_string;
    destruct (rgb_to_hls color_tuple) as [hls|e]; simpl; eauto.
Qed.

(** A token with the first modifier [.hsl] never resolves, whatever the
    palette and the other groups. *)
Lemma remap_key_hsl_never_resolves (colors : gmap string color_value) (m : Match) (s : string) :
  first_modifier_of m = Some ".hsl" -> remap_key colors m <> Ok s.
Proof.
  intros Hfm. unfold remap_key. cbv zeta.
  destruct (falsy _); [discriminate|].
  destruct (colors !! Py.lower (group1 m)) as [v|]; [|discriminate].
  destruct (opacity_of _) as [opacity|]; [|discriminate]. cbn [bind].
  destruct (second_modifer_params_of m) as [sm|]; [|discriminate]. cbn [bind].
  destruct (_ && _); [discriminate|].
  rewrite Hfm. cbn [mbind option_bind]. rewrite FIRST_MODIFIERS_hsl.
  destruct (hsl_family_never_returns v opacity sm return_hsl_string) as [e ->];
    [left; reflexivity | discriminate].
Qed.

(** C2, as the code behaves: on a palette colour with channels in
    0..255, [.hsl] converts the colour and then raises [TypeError], with
    or without a second modifier; no [hsl(h,l,s)] string is returned,
    and no token with this first modifier resolves. *)
Theorem hsl_raises_TypeError (r g b : Z) (opacity : float) (scond_mod : second_mod) :
  0 <= r <= 255 -> 0 <= g <= 255 -> 0 <= b <= 255 ->
  FIRST_MODIFIERS !! ".hsl" = Some return_hsl_string /\
  return_hsl_string (Tuple [r; g; b]) opacity scond_mod = Raise TypeError /\
  forall colors m s, first_modifier_of m = Some ".hsl" -> remap_key colors m <> Ok s.
Proof.
  intros Hr Hg Hb. split; [reflexivity|]. split.
  - destruct (rgb_to_hls_channels r g b Hr Hg Hb) as [hls E].
    unfold return_hsl_string. rewrite E. reflexivity.
  - intros colors m s. apply remap_key_hsl_never_resolves.
Qed.

Lemma hsl_raises_TypeError_witness :
  return_hsl_string (Tuple [10; 20; 30]) 1 no_second_mod = Raise TypeError.
Proof.
  apply (proj1 (proj2 (hsl_raises_TypeError 10 20 30 1 no_second_mod
                         ltac:(lia) ltac:(lia) ltac:(lia)))).
Defined.

Example key_hsl_fails :
  try_replace_key_in_theme (sample_colors 10 20 30) ["c: KEY(a).hsl;"] "theme.css" newline
  = (EmptyString, [ERROR 1 "theme.css" TypeError]).
Proof. vm_compute. reflexivity. Qed.

(** ** Hexadecimal strings *)

Lemma format_02x_channel (n : Z) : 0 <= n <= 255 -> Py.format_02x n = two_hex n.
Proof.
  intros Hn. apply String.eqb_eq. revert n Hn.
  apply (forall_channel (fun n => String.eqb (Py.format_02x n) (two_hex n))).
  vm_compute. reflexivity.
Qed.

Lemma int16_two_hex (n : Z) : 0 <= n <= 255 -> Py.int 16 (two_hex n) = Some n.
Proof.
  intros Hn.
  assert (H : match Py.int 16 (two_hex n) with Some v => v =? n | None => false end = true).
  { revert n Hn.
    apply (forall_channel
             (fun n => match Py.int 16 (two_hex n) with Some v => v =? n | None => false end)).
    vm_compute. reflexivity. }
  destruct (Py.int 16 (two_hex n)) as [v|]; [|discriminate].
  apply Z.eqb_eq in H. congruence.
Qed.

Lemma high_digit_not_hash (n : Z) :
  0 <= n <= 255 -> Ascii.eqb (Py.hex_char (n / 16)) "#" = false.
Proof.
  intros Hn. apply negb_true_iff. revert n Hn.
  apply (forall_channel (fun n => negb (Ascii.eqb (Py.hex_char (n / 16)) "#"))).
  vm_compute. reflexivity.
Qed.

Lemma lstrip_same (c : ascii) (s : string) : Py.lstrip c (String c s) = Py.lstrip c s.
Proof. simpl. rewrite Ascii.eqb_refl. reflexivity. Qed.

Lemma lstrip_other (c d : ascii) (s : string) :
  Ascii.eqb d c = false -> Py.lstrip c (String d s) = String d s.
Proof. simpl. intros ->. reflexivity. Qed.

Lemma return_hex_string_channels (r g b : Z) (opacity : float) :
  0 <= r <= 255 -> 0 <= g <= 255 -> 0 <= b <= 255 ->
  return_hex_string (Tuple [r; g; b]) opacity no_second_mod
  = Ok (String "#" (two_hex r +:+ two_hex g +:+ two_hex b)).
Proof.
  intros Hr Hg Hb. unfold return_hex_string. cbn.
  rewrite !format_02x_channel by assumption. reflexivity.
Qed.

Lemma hex_to_rgb_two_hex (r g b : Z) :
  0 <= r <= 255 -> 0 <= g <= 255 -> 0 <= b <= 255 ->
  hex_to_rgb (String "#" (two_hex r +:+ two_hex g +:+ two_hex b)) = Some [r; g; b].
Proof.
  intros Hr Hg Hb. unfold hex_to_rgb.
  assert (E : Py.lstrip "#" (String "#" (two_hex r +:+ two_hex g +:+ two_hex b))
              = two_hex r +:+ two_hex g +:+ two_hex b).
  { rewrite lstrip_same. apply lstrip_other, high_digit_not_hash, Hr. }
  rewrite E.
  change (Py.slice 0 2 (two_hex r +:+ two_hex g +:+ two_hex b)) with (two_hex r).
  change (Py.slice 2 2 (two_hex r +:+ two_hex g +:+ two_hex b)) with (two_hex g).
  change (Py.slice 4 2 (two_hex r +:+ two_hex g +:+ two_hex b)) with (two_hex b).
  rewrite !int16_two_hex by assumption. reflexivity.
Qed.

(** C7: the string that the hex formatter prints for a colour with
    channels in 0..255 is [#] and six lowercase hexadecimal digits, and
    [hex_to_rgb_map] reads it back as the same triple, under whatever
    key it is stored in the palette. *)
Theorem hex_round_trip (r g b : Z) (opacity : float)
  (key : string) (colors : gmap string string) :
  0 <= r <= 255 -> 0 <= g <= 255 -> 0 <= b <= 255 ->
  exists h,
    return_hex_string (Tuple [r; g; b]) opacity no_second_mod = Ok h /\
    h = String "#" (two_hex r +:+ two_hex g +:+ two_hex b) /\
    hex_to_rgb_map (<[key := h]> colors) !! key = Some (Tuple [r; g; b]).
Proof.
  intros Hr Hg Hb. eexists. split; [apply return_hex_string_channels; assumption|].
  split; [reflexivity|].
  unfold hex_to_rgb_map. rewrite map_lookup_imap, lookup_insert_eq. simpl.
  unfold hex_to_rgb_entry. rewrite hex_to_rgb_two_hex by assumption. reflexivity.
Qed.

Lemma hex_round_trip_witness :
  exists h,
    return_hex_string (Tuple [10; 20; 255]) 1 no_second_mod = Ok h /\
    h = String "#" (two_hex 10 +:+ two_hex 20 +:+ two_hex 255) /\
    hex_to_rgb_map (<["a" := h]> ∅) !! "a" = Some (Tuple [10; 20; 255]).
Proof. apply (hex_round_trip 10 20 255 1 "a" ∅); lia. Defined.

Example hex_of_channels :
  return_hex_string (Tuple [10; 20; 255]) 1 no_second_mod = Ok "#0a14ff".
Proof. reflexivity. Qed.

(** ** The order of floats *)

Lemma SFcompare_antisym (x y : spec_float) (c : comparison) :
  SFcompare x y = Some c -> SFcompare y x = Some (CompOpp c).
Proof.
  destruct x as [sx|sx| |sx mx ex], y as [sy|sy| |sy my ey]; simpl;
    try discriminate;
    try (intros [= <-]; try destruct sx; try destruct sy; reflexivity).
  intros [= <-]. f_equal. rewrite (Z.compare_antisym ex ey).
  pose proof (Pos.compare_cont_antisym mx my Eq) as A. simpl in A.
  destruct sx, sy; simpl; try reflexivity;
    destruct (ex ?= ey); simpl; try reflexivity;
    rewrite <- A; destruct (Pos.compare_cont Eq mx my); reflexivity.
Qed.

Lemma ltb_leb_false (a b : float) :
  PrimFloat.ltb a b = true -> PrimFloat.leb b a = false.
Proof.
  rewrite ltb_spec, leb_spec. unfold SFltb, SFleb.
  destruct (SFcompare (Prim2SF a) (Prim2SF b)) as [c|] eqn:E; [|discriminate].
  rewrite (SFcompare_antisym _ _ _ E). destruct c; simpl; congruence.
Qed.

Lemma leb_ltb_false (a b : float) :
  PrimFloat.leb a b = true -> PrimFloat.ltb b a = false.
Proof.
  rewrite ltb_spec, leb_spec. unfold SFltb, SFleb.
  destruct (SFcompare (Prim2SF a) (Prim2SF b)) as [c|] eqn:E; [|discriminate].
  rewrite (SFcompare_antisym _ _ _ E). destruct c; simpl; congruence.
Qed.

Lemma Prim2SF_0 : Prim2SF 0 = S754_zero false.
Proof. vm_compute. reflexivity. Qed.

Lemma Prim2SF_1 : Prim2SF 1 = S754_finite false 4503599627370496 (-52).
Proof. vm_compute. reflexivity. Qed.

Lemma Prim2SF_100 : Prim2SF 100 = S754_finite false 7036874417766400 (-46).
Proof. vm_compute. reflexivity. Qed.

(** [1.0 < v] leaves [v < 0.0] out. *)
Lemma above_1_not_below_0 (v : float) :
  PrimFloat.ltb 1 v = true -> PrimFloat.ltb v 0 = false.
Proof.
  rewrite !ltb_spec, Prim2SF_0, Prim2SF_1. unfold SFltb, SFcompare.
  destruct (Prim2SF v) as [s|s| |s m e]; try destruct s; cbv beta iota;
    try discriminate; reflexivity.
Qed.

(** [v <= 1.0] leaves [v > 100] out. *)
Lemma upto_1_not_above_100 (v : float) :
  PrimFloat.leb v 1 = true -> PrimFloat.ltb 100 v = false.
Proof.
  rewrite ltb_spec, leb_spec, Prim2SF_1, Prim2SF_100. unfold SFltb, SFleb, SFcompare.
  destruct (Prim2SF v) as [s|s| |s m e]; try destruct s; cbv beta iota;
    try discriminate; try reflexivity.
  destruct (e ?= -52) eqn:E; try discriminate; intros _.
  - apply Z.compare_eq in E. subst e. reflexivity.
  - rewrite Z.compare_lt_iff in E.
    assert (E' : (-46 ?= e) = Gt) by (apply Z.compare_gt_iff; lia).
    rewrite E'. reflexivity.
Qed.

(** ** Opacity *)

(** The percentage form: a value above 1.0 and up to 100 is divided by 100. *)
Lemma opacity_percentage (second_arg : string) (v : float) :
  PyFloat.of_string second_arg = Some v ->
  PrimFloat.ltb 1 v = true -> PrimFloat.leb v 100 = true ->
  opacity_of second_arg = Ok (PrimFloat.div v 100).
Proof.
  intros E H1 H100. unfold opacity_of.
  rewrite E, (above_1_not_below_0 v H1), H1, H100. reflexivity.
Qed.

(** The fraction form: a value from 0.0 to 1.0 is kept. *)
Lemma opacity_fraction (second_arg : string) (v : float) :
  PyFloat.of_string second_arg = Some v ->
  PrimFloat.leb 0 v = true -> PrimFloat.leb v 1 = true ->
  opacity_of second_arg = Ok v.
Proof.
  intros E H0 H1. unfold opacity_of.
  rewrite E, (leb_ltb_false 0 v H0), (leb_ltb_false v 1 H1), (upto_1_not_above_100 v H1).
  reflexivity.
Qed.

(** A value below 0 or above 100 raises, and so does a text that
    [float()] does not read: no opacity is returned. *)
Lemma opacity_out_of_range (second_arg : string) (v : float) :
  PyFloat.of_string second_arg = Some v ->
  PrimFloat.ltb v 0 = true \/ PrimFloat.ltb 100 v = true ->
  opacity_of second_arg = Raise (OpacityNotValid second_arg).
Proof.
  intros E H. unfold opacity_of. rewrite E.
  destruct (PrimFloat.ltb v 0); [reflexivity|].
  destruct H as [H|H]; [discriminate|].
  rewrite (ltb_leb_false 100 v H), andb_false_r, H. reflexivity.
Qed.

Example opacity_50 : opacity_of "50" = Ok 0.5%float.
Proof. vm_compute. reflexivity. Qed.

Example opacity_1 : opacity_of "1" = Ok 1%float /\ opacity_of "100" = Ok 1%float.
Proof. split; vm_compute; reflexivity. Qed.

(** ** Failures of a token *)

(** A failure of the first token of a text is the failure of [replace_key]. *)
Lemma replace_key_first_token (colors : gmap string color_value)
  (text rest : string) (m : Match) (e : exn) :
  Re.token text = Some (m, rest) ->
  remap_key colors m = Raise e ->
  replace_key colors text = Raise e.
Proof.
  intros Ht He. unfold replace_key. cbn [Re.sub]. rewrite Ht, He. reflexivity.
Qed.

Lemma remap_key_opacity_failure (colors : gmap string color_value) (m : Match) (e : exn) :
  falsy (colors !! Py.lower (group1 m)) = false ->
  opacity_of (second_arg_of m) = Raise e ->
  remap_key colors m = Raise e.
Proof.
  intros Hf He. unfold remap_key. rewrite Hf.
  destruct (colors !! Py.lower (group1 m)); [|discriminate].
  rewrite He. reflexivity.
Qed.

(** C3, as the code behaves: an opacity below 0 or above 100 is not
    replaced by 1.0.  The [except] clause sets [opacity = 1.0] and then
    raises, so [remap_key] fails, and with it the line that holds the
    token: the token does not resolve. *)
Theorem out_of_range_opacity_fails (colors : gmap string color_value) (m : Match) (v : float) :
  falsy (colors !! Py.lower (group1 m)) = false ->
  PyFloat.of_string (second_arg_of m) = Some v ->
  PrimFloat.ltb v 0 = true \/ PrimFloat.ltb 100 v = true ->
  remap_key colors m = Raise (OpacityNotValid (second_arg_of m)) /\
  forall text rest, Re.token text = Some (m, rest) ->
    replace_key colors text = Raise (OpacityNotValid (second_arg_of m)).
Proof.
  intros Hf Hv Hr.
  assert (H : remap_key colors m = Raise (OpacityNotValid (second_arg_of m))).
  { apply remap_key_opacity_failure; [exact Hf|].
    apply (opacity_out_of_range _ v); assumption. }
  split; [exact H|]. intros text rest Ht.
  apply (replace_key_first_token colors text rest m); assumption.
Qed.

Lemma out_of_range_opacity_fails_witness :
  replace_key (sample_colors 10 20 30) "KEY(a, 150)" = Raise (OpacityNotValid "150").
Proof.
  refine (proj2 (out_of_range_opacity_fails (sample_colors 10 20 30)
           {| group1 := "a"; group2 := Some "150"; group3 := None;
              group4 := None; group5 := None |} 150%float _ _ _) "KEY(a, 150)" "" _).
  - vm_compute. reflexivity.
  - vm_compute. reflexivity.
  - right. vm_compute. reflexivity.
  - vm_compute. reflexivity.
Defined.

Example key_opacity_150 :
  try_replace_key_in_theme (sample_colors 10 20 30) ["c: KEY(a, 150);"] "theme.css" newline
  = (EmptyString, [ERROR 1 "theme.css" (OpacityNotValid "150")]).
Proof. vm_compute. reflexivity. Qed.

(** ** The wallpaper key *)

(** An opacity that is written but normalises to 1.0 raises no
    conflict: the token resolves, to the first three characters of the
    wallpaper path. *)
Lemma wallpaper_with_opacity :
  replace_key (sample_colors 10 20 30) "KEY(w, 1)" = Ok "rgba(/,h,o,1.0)" /\
  replace_key (sample_colors 10 20 30) "KEY(w, 1)" <> Raise WallpaperConflict /\
  replace_key (sample_colors 10 20 30) "KEY(wallpaper, 100)" = Ok "rgba(/,h,o,1.0)" /\
  try_replace_key_in_theme (sample_colors 10 20 30) ["KEY(Wallpaper, 1.0)"] "theme.css" newline
  = ("rgba(/,h,o,1.0)" +:+ newline, []).
Proof.
  assert (E : replace_key (sample_colors 10 20 30) "KEY(w, 1)" = Ok "rgba(/,h,o,1.0)")
    by (vm_compute; reflexivity).
  split; [exact E|]. split; [rewrite E; discriminate|].
  split; vm_compute; reflexivity.
Qed.

(** ** The arguments of the second modifiers *)


(** ** Strings *)

Lemma app_cons (c : ascii) (a b : string) : String c a +:+ b = String c (a +:+ b).
Proof. reflexivity. Qed.

Lemma app_nil_l (b : string) : EmptyString +:+ b = b.
Proof. reflexivity. Qed.

Lemma app_nil_r (a : string) : a +:+ EmptyString = a.
Proof. induction a as [|c a IH]; [reflexivity|]. rewrite app_cons, IH. reflexivity. Qed.

Lemma app_assoc (a b c : string) : (a +:+ b) +:+ c = a +:+ (b +:+ c).
Proof. induction a as [|d a IH]; [reflexivity|]. rewrite !app_cons, IH. reflexivity. Qed.

Lemma length_app (a b : string) :
  String.length (a +:+ b) = (String.length a + String.length b)%nat.
Proof.
  induction a as [|c a IH]; [reflexivity|]. rewrite app_cons. simpl. rewrite IH. reflexivity.
Qed.

(** ** What the pieces of the grammar consume *)

Lemma span_app (p : ascii -> bool) (s w r : string) :
  Re.span p s = (w, r) -> s = w +:+ r.
Proof.
  revert w r. induction s as [|c s IH]; simpl; intros w r.
  - intros [= <- <-]. reflexivity.
  - destruct (p c).
    + destruct (Re.span p s) as [w' r'] eqn:E. intros [= <- <-].
      rewrite app_cons, <- (IH w' r' eq_refl). reflexivity.
    + intros [= <- <-]. reflexivity.
Qed.

Lemma many1_app (p : ascii -> bool) (s w r : string) :
  Re.many1 p s = Some (w, r) -> s = w +:+ r /\ w <> EmptyString.
Proof.
  unfold Re.many1. destruct (Re.span p s) as [w' r'] eqn:E.
  destruct w' as [|c w']; [discriminate|]. intros [= <- <-].
  split; [exact (span_app _ _ _ _ E) | discriminate].
Qed.

Lemma char_app (c : ascii) (s r : string) : Re.char c s = Some r -> s = String c r.
Proof.
  destruct s as [|d s]; simpl; [discriminate|].
  destruct (Ascii.eqb_spec d c) as [->|]; [|discriminate]. intros [= <-]. reflexivity.
Qed.

Lemma number_app (s t r : string) :
  Re.number s = Some (t, r) -> s = t +:+ r /\ t <> EmptyString.
Proof.
  unfold Re.number. destruct (Re.many1 Py.isdigit s) as [[i r1]|] eqn:Ei; [|discriminate].
  destruct (many1_app _ _ _ _ Ei) as [-> Hi].
  destruct (Re.char "." r1) as [r2|] eqn:Ec.
  - destruct (Re.many1 Py.isdigit r2) as [[f r3]|] eqn:Ef.
    + intros [= <- <-]. apply char_app in Ec as ->.
      destruct (many1_app _ _ _ _ Ef) as [-> _].
      split; [|destruct i; [contradiction | discriminate]].
      rewrite !app_assoc. reflexivity.
    + intros [= <- <-]. auto.
  - intros [= <- <-]. auto.
Qed.

Lemma literal_length (lit s r : string) :
  Re.literal lit s = Some r ->
  String.length s = (String.length lit + String.length r)%nat.
Proof.
  revert s. induction lit as [|c lit IH]; intros s; simpl.
  - intros [= <-]. reflexivity.
  - destruct s as [|d s]; [discriminate|].
    destruct (Ascii.eqb _ _); [|discriminate]. intros H. simpl. rewrite (IH s H). reflexivity.
Qed.

Lemma opacity_and_close_app (s r : string) (g2 : option string) :
  Re.opacity_and_close s = Some (g2, r) -> exists pre, s = pre +:+ String ")" r.
Proof.
  unfold Re.opacity_and_close. destruct (Re.char "," s) as [r1|] eqn:Ec.
  - apply char_app in Ec as ->.
    destruct (Re.span Py.isspace r1) as [ws r2] eqn:Es. simpl.
    destruct (Re.number r2) as [[o r3]|] eqn:En; [|discriminate].
    destruct (Re.char ")" r3) as [r4|] eqn:Ep; [|discriminate].
    intros [= <- <-]. apply span_app in Es as ->.
    destruct (number_app _ _ _ En) as [-> _]. apply char_app in Ep as ->.
    exists (String "," (ws +:+ o)). rewrite app_cons, !app_assoc. reflexivity.
  - destruct (Re.char ")" s) as [r1|] eqn:Ep; [|discriminate].
    intros [= <- <-]. apply char_app in Ep as ->. exists EmptyString. reflexivity.
Qed.

Lemma dotted_app (s w r : string) :
  Re.dotted s = Some (w, r) -> s = w +:+ r /\ w <> EmptyString.
Proof.
  unfold Re.dotted. destruct (Re.char "." s) as [r1|] eqn:Ec; [|discriminate].
  destruct (Re.many1 Py.isword r1) as [[n r2]|] eqn:En; [|discriminate].
  intros [= <- <-]. apply char_app in Ec as ->.
  destruct (many1_app _ _ _ _ En) as [-> _]. split; [reflexivity | discriminate].
Qed.

Lemma arguments_app (s a r : string) : Re.arguments s = Some (a, r) -> s = a +:+ r.
Proof.
  unfold Re.arguments. destruct (Re.char "(" s) as [r0|] eqn:Ec; [|discriminate].
  apply char_app in Ec as ->.
  destruct (Re.number r0) as [[x r1]|] eqn:Ex; [|discriminate].
  destruct (number_app _ _ _ Ex) as [-> _].
  destruct (Re.char "," r1) as [r2|] eqn:Ecomma.
  - apply char_app in Ecomma as ->.
    destruct (Re.span Py.isspace r2) as [ws r3] eqn:Es. apply span_app in Es as ->.
    destruct (Re.number r3) as [[y r4]|] eqn:Ey.
    + destruct (number_app _ _ _ Ey) as [-> _].
      destruct (Re.char ")" r4) as [r5|] eqn:Ep; [|discriminate].
      apply char_app in Ep as ->. intros [= <- <-].
      rewrite !app_cons, !app_assoc, !app_cons, !app_assoc. reflexivity.
    + destruct (Re.char ")" _) as [r5|] eqn:Ep; [|discriminate].
      apply char_app in Ep. discriminate.
  - destruct (Re.char ")" r1) as [r5|] eqn:Ep; [|discriminate].
    apply char_app in Ep as ->. intros [= <- <-].
    rewrite !app_cons, !app_assoc. reflexivity.
Qed.

Lemma second_length (s r : string) (g4 g5 : option string) :
  Re.second s = (g4, g5, r) -> (String.length r <= String.length s)%nat.
Proof.
  unfold Re.second. destruct (Re.dotted s) as [[name r1]|] eqn:Ed.
  - destruct (dotted_app _ _ _ Ed) as [-> _].
    destruct (Re.arguments r1) as [[a r2]|] eqn:Ea.
    + apply arguments_app in Ea as ->. intros [= <- <- <-]. rewrite !length_app. lia.
    + intros [= <- <- <-]. rewrite length_app. lia.
  - intros [= <- <- <-]. lia.
Qed.

(** A match is not empty: what follows it is shorter than the text. *)
Lemma token_length (s rest : string) (m : Match) :
  Re.token s = Some (m, rest) -> (String.length rest < String.length s)%nat.
Proof.
  unfold Re.token. destruct (Re.literal "KEY(" s) as [r|] eqn:El; [|discriminate].
  apply literal_length in El.
  destruct (Re.many1 Py.isword r) as [[key r1]|] eqn:Ek; [|discriminate].
  destruct (many1_app _ _ _ _ Ek) as [-> _].
  destruct (Re.opacity_and_close r1) as [[g2 r2]|] eqn:Eo; [|discriminate].
  destruct (opacity_and_close_app _ _ _ Eo) as [pre ->].
  assert (H3 : forall g3 r3,
             match Re.dotted r2 with
             | Some (m', r') => (Some m', r')
             | None => (None, r2)
             end = (g3, r3) -> (String.length r3 <= String.length r2)%nat).
  { intros g3 r3. destruct (Re.dotted r2) as [[m' r']|] eqn:Ed.
    - destruct (dotted_app _ _ _ Ed) as [-> _]. intros [= <- <-]. rewrite length_app. lia.
    - intros [= <- <-]. lia. }
  destruct (match Re.dotted r2 with
            | Some (m', r') => (Some m', r')
            | None => (None, r2)
            end) as [g3 r3] eqn:E3.
  specialize (H3 g3 r3 eq_refl).
  destruct (Re.second r3) as [[g4 g5] r4] eqn:E4. apply second_length in E4.
  intros [= <- <-]. rewrite El, !length_app. simpl. lia.
Qed.

(** The result of [Re.sub] is the same for every [fuel] above the length
    of the text: the branch that runs out of fuel is never taken. *)
Lemma sub_fuel (repl : Match -> result string) (fuel fuel' : nat) (s : string) :
  (String.length s < fuel)%nat -> (String.length s < fuel')%nat ->
  Re.sub fuel repl s = Re.sub fuel' repl s.
Proof.
  revert fuel' s. induction fuel as [|fuel IH]; intros fuel' s H H'; [lia|].
  destruct fuel' as [|fuel']; [lia|]. cbn [Re.sub].
  destruct (Re.token s) as [[m rest]|] eqn:Et.
  - apply token_length in Et.
    rewrite (IH fuel' rest) by lia. reflexivity.
  - destruct s as [|c s]; [reflexivity|]. simpl in H, H'.
    rewrite (IH fuel' s) by lia. reflexivity.
Qed.

Lemma replace_key_fuel (colors : gmap string color_value) (text : string) (fuel : nat) :
  (String.length text < fuel)%nat ->
  Re.sub fuel (remap_key colors) text = replace_key colors text.
Proof. intros H. apply sub_fuel; [exact H | lia]. Qed.

(** ** A failing line has the shape that the rewriter looks for *)

Lemma closing_found (pre post : string) :
  exists c r, snd (Re.span (fun c => negb (Ascii.eqb c ")")) (pre +:+ String ")" post))
              = String c r.
Proof.
  induction pre as [|d pre IH].
  - rewrite app_nil_l. simpl. eauto.
  - rewrite app_cons. simpl. destruct (negb (Ascii.eqb d ")")).
    + destruct (Re.span _ _) as [w r] eqn:E. simpl in *. exact IH.
    + simpl. eauto.
Qed.

Lemma token_key_at (s rest : string) (m : Match) :
  Re.token s = Some (m, rest) -> Re.key_at s = true.
Proof.
  unfold Re.token, Re.key_at. destruct (Re.literal "KEY(" s) as [r|]; [|discriminate].
  destruct (Re.many1 Py.isword r) as [[key r1]|] eqn:Ek; [|discriminate].
  destruct (many1_app _ _ _ _ Ek) as [-> _].
  destruct (Re.opacity_and_close r1) as [[g2 r2]|] eqn:Eo; [|discriminate].
  destruct (opacity_and_close_app _ _ _ Eo) as [pre ->]. intros _.
  rewrite <- app_assoc.
  destruct (closing_found (key +:+ pre) r2) as (c & r' & ->). reflexivity.
Qed.

Lemma sub_Raise_search_key (repl : Match -> result string) (fuel : nat) (s : string) (e : exn) :
  Re.sub fuel repl s = Raise e -> Re.search_key s = true.
Proof.
  revert s e. induction fuel as [|fuel IH]; intros s e; [discriminate|]. cbn [Re.sub].
  destruct (Re.token s) as [[m rest]|] eqn:Et.
  - intros _. apply token_key_at in Et.
    destruct s; cbn [Re.search_key]; rewrite Et; reflexivity.
  - destruct s as [|c s]; [discriminate|].
    destruct (Re.sub fuel repl s) as [t|e'] eqn:E; [discriminate|]. intros _.
    cbn [Re.search_key]. rewrite (IH s e' E). apply orb_true_r.
Qed.

Lemma replace_key_Raise_search_key (colors : gmap string color_value) (text : string) (e : exn) :
  replace_key colors text = Raise e -> Re.search_key text = true.
Proof. apply sub_Raise_search_key. Qed.

(** ** The loop over the lines *)

Section Lines.

Variable colors : gmap string color_value.
Variables filename end_ : string.

Local Abbreviation loop := (rewrite_lines colors filename end_).

(** What the loop adds does not depend on what it has gathered. *)
Lemma rewrite_lines_acc (lines : list string) (n : nat) (output : string) (log : list log_record) :
  loop n lines output log
  = (output +:+ fst (loop n lines EmptyString []), log ++ snd (loop n lines EmptyString [])).
Proof.
  revert n output log.
  induction lines as [|i lines IH]; intros n output log; cbn [rewrite_lines].
  - simpl. rewrite app_nil_r, List.app_nil_r. reflexivity.
  - destruct (Re.search_key i).
    + destruct (replace_key colors i) as [r|e].
      * cbv zeta.
        rewrite (IH (S n) (output +:+ r +:+ end_)), (IH (S n) (EmptyString +:+ r +:+ end_)).
        cbn [fst snd]. rewrite app_nil_l, !app_assoc.
        destruct (String.eqb _ _); rewrite <- ?List.app_assoc; reflexivity.
      * rewrite (IH (S n) output), (IH (S n) EmptyString ([] ++ _)).
        cbn [fst snd]. rewrite app_nil_l, <- List.app_assoc. reflexivity.
    + rewrite (IH (S n) (output +:+ i +:+ end_)), (IH (S n) (EmptyString +:+ i +:+ end_)).
      cbn [fst snd]. rewrite app_nil_l, !app_assoc. reflexivity.
Qed.

Lemma rewrite_lines_app (before after : list string) (n : nat)
  (output : string) (log : list log_record) :
  loop n (before ++ after) output log
  = loop (n + length before) after
      (fst (loop n before output log)) (snd (loop n before output log)).
Proof.
  revert n output log.
  induction before as [|i before IH]; intros n output log.
  - simpl. rewrite Nat.add_0_r. reflexivity.
  - rewrite <- app_comm_cons. cbn [rewrite_lines length].
    replace (n + S (length before))%nat with (S n + length before)%nat by lia.
    destruct (Re.search_key i); [destruct (replace_key colors i)|]; apply IH.
Qed.

(** The line numbers only show in the log. *)
Lemma rewrite_lines_output (lines : list string) (n n' : nat)
  (output : string) (log log' : list log_record) :
  fst (loop n lines output log) = fst (loop n' lines output log').
Proof.
  revert n n' output log log'.
  induction lines as [|i lines IH]; intros n n' output log log'; cbn [rewrite_lines].
  - reflexivity.
  - destruct (Re.search_key i); [destruct (replace_key colors i)|]; apply IH.
Qed.

(** A line whose token fails: nothing is written, one error is logged. *)
Lemma rewrite_failing_line (n : nat) (line : string) (e : exn) :
  replace_key colors line = Raise e ->
  loop n [line] EmptyString [] = (EmptyString, [ERROR (n + 1) filename e]).
Proof.
  intros H. cbn [rewrite_lines].
  rewrite (replace_key_Raise_search_key _ _ _ H), H. reflexivity.
Qed.

(** The text and the log of a list of lines, split at one of them. *)
Lemma rewrite_lines_middle (before after : list string) (line : string) :
  loop 0 (before ++ line :: after) EmptyString []
  = (fst (loop 0 before EmptyString [])
       +:+ fst (loop 0 [line] EmptyString [])
       +:+ fst (loop 0 after EmptyString []),
     snd (loop 0 before EmptyString [])
       ++ snd (loop (length before) [line] EmptyString [])
       ++ snd (loop (S (length before)) after EmptyString [])).
Proof.
  rewrite rewrite_lines_app. simpl (0 + _)%nat.
  change (line :: after) with ([line] ++ after).
  rewrite rewrite_lines_app. simpl (length [line]).
  replace (length before + 1)%nat with (S (length before)) by lia.
  rewrite (rewrite_lines_acc after), (rewrite_lines_acc [line]). cbn [fst snd].
  rewrite app_assoc, <- List.app_assoc.
  rewrite (rewrite_lines_output [line] (length before) 0 EmptyString [] []).
  rewrite (rewrite_lines_output after (S (length before)) 0 EmptyString [] []).
  reflexivity.
Qed.

(** C4: the text returned for a list of lines is, in the order of the
    lines, the text that each line gives when it is rewritten alone, and
    the log is, in the same order, what each line logs at its own line
    number; so what a line gives does not depend on the lines around it,
    whether they fail or not. *)
Theorem lines_independent (before after : list string) (line : string) :
  fst (try_replace_key_in_theme colors (before ++ line :: after) filename end_)
  = fst (try_replace_key_in_theme colors before filename end_)
    +:+ fst (try_replace_key_in_theme colors [line] filename end_)
    +:+ fst (try_replace_key_in_theme colors after filename end_)
  /\
  snd (try_replace_key_in_theme colors (before ++ line :: after) filename end_)
  = snd (try_replace_key_in_theme colors before filename end_)
    ++ snd (rewrite_lines colors filename end_ (length before) [line] EmptyString [])
    ++ snd (rewrite_lines colors filename end_ (S (length before)) after EmptyString []).
Proof.
  unfold try_replace_key_in_theme.
  rewrite rewrite_lines_middle. cbn [fst snd]. split; reflexivity.
Qed.

(** C1, amended: a line whose token fails is logged as one error, with
    the number of the line counted from 1, the file name and the
    exception; the text returned holds nothing for that line, neither
    its content nor the line end: it is the text of the lines before it
    followed by the text of the lines after it. *)
Theorem failing_line_dropped (lines : list string) (n : nat) (line : string) (e : exn) :
  lines !! n = Some line ->
  replace_key colors line = Raise e ->
  fst (try_replace_key_in_theme colors lines filename end_)
  = fst (try_replace_key_in_theme colors (take n lines) filename end_)
    +:+ fst (try_replace_key_in_theme colors (drop (S n) lines) filename end_)
  /\
  snd (try_replace_key_in_theme colors lines filename end_)
  = snd (try_replace_key_in_theme colors (take n lines) filename end_)
    ++ [ERROR (n + 1) filename e]
    ++ snd (rewrite_lines colors filename end_ (S n) (drop (S n) lines) EmptyString []).
Proof.
  intros Hn He.
  assert (Hlen : length (take n lines) = n).
  { rewrite length_take. apply lookup_lt_Some in Hn. lia. }
  unfold try_replace_key_in_theme.
  rewrite <- (take_drop_middle lines n line Hn) at 1 4.
  rewrite rewrite_lines_middle, Hlen.
  rewrite !(rewrite_failing_line _ line e He). cbn [fst snd].
  rewrite app_nil_l. split; reflexivity.
Qed.

End Lines.

Lemma failing_line_dropped_witness :
  fst (try_replace_key_in_theme (sample_colors 10 20 30)
         ["a: KEY(a).rgb;"; "b: KEY(unknown).rgb;"; "c: KEY(a).hex;"] "theme.css" newline)
  = fst (try_replace_key_in_theme (sample_colors 10 20 30) ["a: KEY(a).rgb;"] "theme.css" newline)
    +:+ fst (try_replace_key_in_theme (sample_colors 10 20 30) ["c: KEY(a).hex;"]
               "theme.css" newline)
  /\
  snd (try_replace_key_in_theme (sample_colors 10 20 30)
         ["a: KEY(a).rgb;"; "b: KEY(unknown).rgb;"; "c: KEY(a).hex;"] "theme.css" newline)
  = snd (try_replace_key_in_theme (sample_colors 10 20 30) ["a: KEY(a).rgb;"] "theme.css" newline)
    ++ [ERROR (1 + 1) "theme.css" (ColorNotFound "unknown")]
    ++ snd (rewrite_lines (sample_colors 10 20 30) "theme.css" newline 2 ["c: KEY(a).hex;"]
              EmptyString []).
Proof.
  apply (failing_line_dropped (sample_colors 10 20 30) "theme.css" newline
           ["a: KEY(a).rgb;"; "b: KEY(unknown).rgb;"; "c: KEY(a).hex;"] 1
           "b: KEY(unknown).rgb;" (ColorNotFound "unknown")).
  - reflexivity.
  - vm_compute. reflexivity.
Defined.

(** The line of the specification with an unknown key: its token
    fails, the text returned is empty, and so the line does not occur
    in it. *)
Lemma unknown_key_line_lost :
  replace_key (sample_colors 10 20 30) "KEY(unknown).rgb" = Raise (ColorNotFound "unknown") /\
  try_replace_key_in_theme (sample_colors 10 20 30) ["KEY(unknown).rgb"] "theme.css" newline
  = (EmptyString, [ERROR 1 "theme.css" (ColorNotFound "unknown")]) /\
  ~ occurs_in "KEY(unknown).rgb"
      (fst (try_replace_key_in_theme (sample_colors 10 20 30) ["KEY(unknown).rgb"]
              "theme.css" newline)).
Proof.
  assert (E : try_replace_key_in_theme (sample_colors 10 20 30) ["KEY(unknown).rgb"]
                "theme.css" newline
              = (EmptyString, [ERROR 1 "theme.css" (ColorNotFound "unknown")]))
    by (vm_compute; reflexivity).
  split; [vm_compute; reflexivity|]. split; [exact E|].
  rewrite E. intros (before & after & H).
  apply (f_equal String.length) in H. rewrite !length_app in H. simpl in H. lia.
Qed.

Example three_lines :
  try_replace_key_in_theme (sample_colors 10 20 30)
    ["a: KEY(a).rgb;"; "b: KEY(unknown).rgb;"; "c: KEY(a, -5)"; "d"] "theme.css" newline
  = ("a: rgb(10,20,30);" +:+ newline +:+ "c: KEY(a, -5)" +:+ newline +:+ "d" +:+ newline,
     [ERROR 2 "theme.css" (ColorNotFound "unknown"); WARNING 3 "theme.css"]).
Proof. vm_compute. reflexivity. Qed.

(** * Further properties of the code *)

(** ** [map_colors] *)

Lemma of_option_Ok {A : Type} (e : exn) (o : option A) (a : A) :
  of_option e o = Ok a -> o = Some a.
Proof. destruct o; simpl; congruence. Qed.

Lemma Ok_inj {A : Type} (a b : A) : Ok a = Ok b -> a = b.
Proof. intros H. exact (f_equal (fun r => match r with Ok x => x | Raise _ => a end) H). Qed.

Ltac invert_bind H :=
  let x := fresh "x" in
  let E := fresh "E" in
  apply bind_Ok in H as (x & E & H); apply of_option_Ok in E.

(** X1: when [map_colors] succeeds, every alias holds the value of the
    entry it stands for: [border] and [br] the one of [color2], [text]
    and [t] the one of [color15], [accent] and [a] the one of [color13],
    [b] the background, [f] the foreground, [w] the wallpaper; and the
    dictionary has these 28 keys and no other. *)
Theorem map_colors_aliases (colors : pywal) (m : gmap string string) :
  map_colors colors = Ok m ->
  (m !! "wallpaper" = pywal_wallpaper colors /\ m !! "w" = m !! "wallpaper") /\
  (m !! "b" = m !! "background" /\ m !! "f" = m !! "foreground") /\
  (m !! "border" = m !! "2" /\ m !! "br" = m !! "2") /\
  (m !! "text" = m !! "15" /\ m !! "t" = m !! "15") /\
  (m !! "accent" = m !! "13" /\ m !! "a" = m !! "13") /\
  dom m = list_to_set
            ["wallpaper"; "background"; "foreground";
             "0"; "1"; "2"; "3"; "4"; "5"; "6"; "7"; "8"; "9";
             "10"; "11"; "12"; "13"; "14"; "15";
             "border"; "text"; "accent"; "b"; "f"; "br"; "t"; "a"; "w"].
Proof.
  unfold map_colors, getkey. intros H.
  do 21 invert_bind H. apply Ok_inj in H. subst m. rewrite E.
  repeat split; vm_compute; reflexivity.
Qed.

Lemma sample_pywal_mapped : map_colors sample_pywal = Ok sample_mapped.
Proof. vm_compute. reflexivity. Qed.

Lemma map_colors_aliases_witness :
  sample_mapped !! "br" = sample_mapped !! "2" /\
  sample_mapped !! "t" = sample_mapped !! "15" /\
  sample_mapped !! "a" = sample_mapped !! "13".
Proof.
  pose proof (map_colors_aliases sample_pywal sample_mapped sample_pywal_mapped) as H.
  split; [apply H | split; apply H].
Defined.

(** ** [hex_to_rgb_map] *)

(** X2: what [hex_to_rgb_map] holds under a key is decided by the
    string that [colors] holds under the same key: a string that reads as
    hexadecimal gives a tuple of exactly three channels; one that does
    not is kept as it is under [wallpaper] and [w] and is dropped under
    any other key; no key is added. *)
Theorem hex_to_rgb_map_lookup (colors : gmap string string) (color : string) :
  (forall v, hex_to_rgb_map colors !! color = Some v ->
     exists h, colors !! color = Some h /\
       ((exists r g b, v = Tuple [r; g; b] /\ hex_to_rgb h = Some [r; g; b]) \/
        (v = Str h /\ hex_to_rgb h = None /\ is_wallpaper color = true))) /\
  (hex_to_rgb_map colors !! color = None ->
     colors !! color = None \/
     exists h, colors !! color = Some h /\ hex_to_rgb h = None /\ is_wallpaper color = false).
Proof.
  unfold hex_to_rgb_map. rewrite map_lookup_imap.
  destruct (colors !! color) as [h|]; simpl; [|split; [discriminate | auto]].
  unfold hex_to_rgb_entry.
  destruct (hex_to_rgb h) as [t|] eqn:E.
  - split; [|discriminate]. intros v [= <-]. exists h. split; [reflexivity|]. left.
    assert (H3 : exists r g b, t = [r; g; b]).
    { unfold hex_to_rgb in E.
      destruct (Py.int 16 (Py.slice 0 2 (Py.lstrip "#" h))) as [r|]; [|discriminate].
      destruct (Py.int 16 (Py.slice 2 2 (Py.lstrip "#" h))) as [g|]; [|discriminate].
      destruct (Py.int 16 (Py.slice 4 2 (Py.lstrip "#" h))) as [b|]; [|discriminate].
      simpl in E. injection E as <-. eauto. }
    destruct H3 as (r & g & b & ->). exists r, g, b. split; [reflexivity|].
    first [exact E | reflexivity].
  - destruct (is_wallpaper color) eqn:W; split; try discriminate.
    + intros v [= <-]. exists h. auto.
    + intros _. right. exists h. auto.
Qed.

Lemma hex_to_rgb_map_lookup_witness :
  exists h, (<["wallpaper" := "/w.png"]> (<["a" := "#0a141e"]> ∅) : gmap string string)
              !! "wallpaper" = Some h /\
    ((exists r g b, Str "/w.png" = Tuple [r; g; b] /\ hex_to_rgb h = Some [r; g; b]) \/
     (Str "/w.png" = Str h /\ hex_to_rgb h = None /\ is_wallpaper "wallpaper" = true)).
Proof.
  apply (proj1 (hex_to_rgb_map_lookup
                  (<["wallpaper" := "/w.png"]> (<["a" := "#0a141e"]> ∅)) "wallpaper")).
  vm_compute. reflexivity.
Defined.

(** X3: through [map_colors] and [hex_to_rgb_map] the aliases still
    agree: the palette holds the same value under [b] and [background],
    [f] and [foreground], [br], [border] and [2], [t], [text] and [15],
    [a], [accent] and [13], [w] and [wallpaper]. *)
Theorem palette_aliases (colors : pywal) (m : gmap string string) :
  map_colors colors = Ok m ->
  hex_to_rgb_map m !! "b" = hex_to_rgb_map m !! "background" /\
  hex_to_rgb_map m !! "f" = hex_to_rgb_map m !! "foreground" /\
  hex_to_rgb_map m !! "br" = hex_to_rgb_map m !! "2" /\
  hex_to_rgb_map m !! "border" = hex_to_rgb_map m !! "2" /\
  hex_to_rgb_map m !! "t" = hex_to_rgb_map m !! "15" /\
  hex_to_rgb_map m !! "text" = hex_to_rgb_map m !! "15" /\
  hex_to_rgb_map m !! "a" = hex_to_rgb_map m !! "13" /\
  hex_to_rgb_map m !! "accent" = hex_to_rgb_map m !! "13" /\
  hex_to_rgb_map m !! "w" = hex_to_rgb_map m !! "wallpaper".
Proof.
  intros H.
  destruct (map_colors_aliases colors m H)
    as ((_ & Hw) & (Hb & Hf) & (Hbo & Hbr) & (Hte & Ht) & (Hac & Ha) & _).
  unfold hex_to_rgb_map. rewrite !map_lookup_imap.
  rewrite Hw, Hb, Hf, Hbo, Hbr, Hte, Ht, Hac, Ha.
  repeat split; destruct (m !! _); reflexivity.
Qed.

Lemma palette_aliases_witness :
  hex_to_rgb_map sample_mapped !! "br" = hex_to_rgb_map sample_mapped !! "2" /\
  hex_to_rgb_map sample_mapped !! "w" = hex_to_rgb_map sample_mapped !! "wallpaper".
Proof.
  pose proof (palette_aliases sample_pywal sample_mapped sample_pywal_mapped) as H.
  split; apply H.
Defined.

(** ** Well-formed colour strings *)

Lemma every_ascii (P : ascii -> bool) :
  forallb P (map ascii_of_nat (seq 0 256)) = true -> forall c, P c = true.
Proof.
  intros H c. rewrite forallb_forall in H. apply H.
  apply in_map_iff. exists (nat_of_ascii c). split; [apply ascii_nat_embedding|].
  apply in_seq. pose proof (nat_ascii_bounded c). lia.
Qed.

Lemma two_xdigits (a b : ascii) :
  isxdigit a = true -> isxdigit b = true ->
  exists v, Py.int 16 (String a (String b EmptyString)) = Some v /\ 0 <= v <= 255.
Proof.
  intros Ha Hb.
  set (Q := fun a b : ascii =>
              if isxdigit a && isxdigit b
              then match Py.int 16 (String a (String b EmptyString)) with
                   | Some v => (0 <=? v) && (v <=? 255)
                   | None => false
                   end
              else true).
  assert (Hall : forall a, forallb (Q a) (map ascii_of_nat (seq 0 256)) = true).
  { apply (every_ascii (fun a => forallb (Q a) (map ascii_of_nat (seq 0 256)))).
    vm_compute. reflexivity. }
  pose proof (every_ascii (Q a) (Hall a) b) as H. unfold Q in H.
  rewrite Ha, Hb in H. simpl in H.
  destruct (Py.int 16 (String a (String b EmptyString))) as [v|]; [|discriminate].
  exists v. split; [reflexivity|]. apply andb_true_iff in H as [H0 H1]. lia.
Qed.

Lemma xdigit_not_hash (c : ascii) : isxdigit c = true -> Ascii.eqb c "#" = false.
Proof.
  intros H.
  assert (E : implb (isxdigit c) (negb (Ascii.eqb c "#")) = true).
  { clear H. revert c.
    apply (every_ascii (fun c => implb (isxdigit c) (negb (Ascii.eqb c "#")))).
    vm_compute. reflexivity. }
  rewrite H in E. simpl in E. apply negb_true_iff in E. exact E.
Qed.

(** X4: a string of six hexadecimal digits, in either case, with or
    without the leading [#], reads as a triple whose channels are all in
    0..255. *)
Theorem wellformed_hex_in_range (c1 c2 c3 c4 c5 c6 : ascii) :
  forallb isxdigit [c1; c2; c3; c4; c5; c6] = true ->
  let h := String c1 (String c2 (String c3 (String c4 (String c5 (String c6 EmptyString))))) in
  exists r g b,
    hex_to_rgb (String "#" h) = Some [r; g; b] /\
    hex_to_rgb h = Some [r; g; b] /\
    0 <= r <= 255 /\ 0 <= g <= 255 /\ 0 <= b <= 255.
Proof.
  simpl. intros H.
  repeat (apply andb_true_iff in H as [? H]).
  destruct (two_xdigits c1 c2) as (r & Er & Hr); [assumption..|].
  destruct (two_xdigits c3 c4) as (g & Eg & Hg); [assumption..|].
  destruct (two_xdigits c5 c6) as (b & Eb & Hb); [assumption..|].
  exists r, g, b. unfold hex_to_rgb.
  rewrite lstrip_same, !lstrip_other by (apply xdigit_not_hash; assumption).
  change (Py.slice 0 2 (String c1 (String c2 (String c3 (String c4
            (String c5 (String c6 EmptyString)))))))
    with (String c1 (String c2 EmptyString)).
  change (Py.slice 2 2 (String c1 (String c2 (String c3 (String c4
            (String c5 (String c6 EmptyString)))))))
    with (String c3 (String c4 EmptyString)).
  change (Py.slice 4 2 (String c1 (String c2 (String c3 (String c4
            (String c5 (String c6 EmptyString)))))))
    with (String c5 (String c6 EmptyString)).
  rewrite Er, Eg, Eb. repeat split; try reflexivity; lia.
Qed.

Lemma wellformed_hex_in_range_witness :
  exists r g b,
    hex_to_rgb "#1A2b3C" = Some [r; g; b] /\
    hex_to_rgb "1A2b3C" = Some [r; g; b] /\
    0 <= r <= 255 /\ 0 <= g <= 255 /\ 0 <= b <= 255.
Proof.
  apply (wellformed_hex_in_range "1" "A" "2" "b" "3" "C"). vm_compute. reflexivity.
Defined.

(** A string that is not six digits can still be read, and then a
    channel may lie outside 0..255, or be the value of one digit. *)
Example hex_to_rgb_loose :
  hex_to_rgb "#-f0f00" = Some [-15; 15; 0] /\ hex_to_rgb "#abcde" = Some [171; 205; 14].
Proof. split; reflexivity. Qed.

(** ** [add_to_color_tuple] and [invert_color] *)

Lemma index_Some (len : nat) (p : Z) (i : nat) :
  index len p = Some i ->
  - Z.of_nat len <= p < Z.of_nat len /\ i = Z.to_nat (p mod Z.of_nat len) /\ (i < len)%nat.
Proof.
  unfold index.
  destruct ((0 <=? p) && (p <? Z.of_nat len)) eqn:E1.
  - apply andb_true_iff in E1 as [H0 H1]. apply Z.leb_le in H0. apply Z.ltb_lt in H1.
    intros [= <-]. rewrite Z.mod_small by lia. lia.
  - destruct ((- Z.of_nat len <=? p) && (p <? 0)) eqn:E2; [|discriminate].
    apply andb_true_iff in E2 as [H0 H1]. apply Z.leb_le in H0. apply Z.ltb_lt in H1.
    intros [= <-].
    replace (p mod Z.of_nat len) with (Z.of_nat len + p).
    + lia.
    + apply (Z.mod_unique _ _ (-1)); lia.
Qed.

Lemma index_None (len : nat) (p : Z) :
  index len p = None -> ~ (- Z.of_nat len <= p < Z.of_nat len).
Proof.
  unfold index.
  destruct ((0 <=? p) && (p <? Z.of_nat len)) eqn:E1; [discriminate|].
  destruct ((- Z.of_nat len <=? p) && (p <? 0)) eqn:E2; [discriminate|].
  intros _ H.
  apply andb_false_iff in E1. apply andb_false_iff in E2.
  rewrite !Z.leb_gt, !Z.ltb_ge in *. lia.
Qed.

Lemma add_to_color_tuple_Ok (t : list Z) (value p : Z) :
  - Z.of_nat (length t) <= p < Z.of_nat (length t) ->
  exists c, t !! Z.to_nat (p mod Z.of_nat (length t)) = Some c /\
    add_to_color_tuple (Tuple t) value p
    = Ok (Tuple (<[Z.to_nat (p mod Z.of_nat (length t)) := c + value]> t)).
Proof.
  intros Hp. unfold add_to_color_tuple.
  destruct (index (length t) p) as [k|] eqn:E.
  - destruct (index_Some _ _ _ E) as (_ & -> & Hlt).
    destruct (lookup_lt_is_Some_2 t _ Hlt) as [c Hc]. rewrite Hc. eauto.
  - apply index_None in E. contradiction.
Qed.

Lemma add_to_color_tuple_Raise (t : list Z) (value p : Z) :
  ~ (- Z.of_nat (length t) <= p < Z.of_nat (length t)) ->
  add_to_color_tuple (Tuple t) value p = Raise IndexError.
Proof.
  intros Hp. unfold add_to_color_tuple.
  destruct (index (length t) p) as [k|] eqn:E; [|reflexivity].
  destruct (index_Some _ _ _ E) as (H & _). contradiction.
Qed.

(** X5: on a tuple, [add_to_color_tuple] succeeds exactly when the
    position is a valid Python index, from minus the length up to the
    length excluded, and fails with [IndexError] otherwise.  When it
    succeeds the tuple keeps its length, the channel at the position
    (counted from the end when the position is negative) has grown by the
    value, and every other channel is as it was. *)
Theorem add_to_color_tuple_frame (t : list Z) (value p : Z) :
  let i := Z.to_nat (p mod Z.of_nat (length t)) in
  (- Z.of_nat (length t) <= p < Z.of_nat (length t) ->
     exists t', add_to_color_tuple (Tuple t) value p = Ok (Tuple t') /\
       length t' = length t /\
       t' !! i = (fun c => c + value) <$> t !! i /\
       forall j, j <> i -> t' !! j = t !! j) /\
  (~ (- Z.of_nat (length t) <= p < Z.of_nat (length t)) ->
     add_to_color_tuple (Tuple t) value p = Raise IndexError).
Proof.
  intros i. split; [|apply add_to_color_tuple_Raise].
  intros Hp. destruct (add_to_color_tuple_Ok t value p Hp) as (c & Hc & ->). fold i in Hc |- *.
  assert (Hlt : (i < length t)%nat) by (apply lookup_lt_is_Some_1; eauto).
  eexists. split; [reflexivity|].
  split; [apply length_insert|]. split.
  - rewrite list_lookup_insert_eq by exact Hlt. rewrite Hc. reflexivity.
  - intros j Hj. apply list_lookup_insert_ne. congruence.
Qed.

Lemma add_to_color_tuple_frame_witness :
  exists t', add_to_color_tuple (Tuple [10; 20; 30]) 5 (-1) = Ok (Tuple t') /\
    length t' = length [10; 20; 30] /\
    t' !! Z.to_nat (-1 mod Z.of_nat (length [10; 20; 30]))
    = (fun c => c + 5) <$> [10; 20; 30] !! Z.to_nat (-1 mod Z.of_nat (length [10; 20; 30])) /\
    forall j, j <> Z.to_nat (-1 mod Z.of_nat (length [10; 20; 30])) ->
      t' !! j = [10; 20; 30] !! j.
Proof.
  apply (proj1 (add_to_color_tuple_frame [10; 20; 30] 5 (-1))). simpl. lia.
Defined.

Example add_from_the_end :
  add_to_color_tuple (Tuple [10; 20; 30]) 5 (-1) = Ok (Tuple [10; 20; 35]) /\
  add_to_color_tuple (Tuple [10; 20; 30]) 5 3 = Raise IndexError /\
  add_to_color_tuple (Tuple [10; 20; 30]) 5 (-4) = Raise IndexError.
Proof. repeat split; reflexivity. Qed.

(** X6: adding and inverting can be exchanged if the sign of the value
    is turned: inverting after adding [value] is adding [- value] after
    inverting, failures included; and [invert_color] keeps the length of
    a tuple and the range 0..255 of its channels. *)
Theorem invert_add (t : list Z) (value p : Z) :
  (try! c := add_to_color_tuple (Tuple t) value p in invert_color c)
  = (try! c := invert_color (Tuple t) in add_to_color_tuple c (- value) p) /\
  exists t', invert_color (Tuple t) = Ok (Tuple t') /\
    length t' = length t /\
    (Forall (fun c => 0 <= c <= 255) t -> Forall (fun c => 0 <= c <= 255) t').
Proof.
  split.
  - cbn [invert_color bind].
    destruct (Z_le_dec (- Z.of_nat (length t)) p) as [H0|H0];
      [destruct (Z_lt_dec p (Z.of_nat (length t))) as [H1|H1]|].
    + destruct (add_to_color_tuple_Ok t value p) as (c & Hc & ->); [lia|].
      destruct (add_to_color_tuple_Ok (map (fun i => 255 - i) t) (- value) p)
        as (c' & Hc' & ->); [rewrite length_map; lia|].
      rewrite length_map in *. cbn [bind invert_color].
      rewrite list_lookup_fmap, Hc in Hc'. injection Hc' as <-.
      do 2 f_equal. rewrite list_fmap_insert. f_equal. lia.
    + rewrite !add_to_color_tuple_Raise by (rewrite ?length_map; lia). reflexivity.
    + rewrite !add_to_color_tuple_Raise by (rewrite ?length_map; lia). reflexivity.
  - eexists. split; [reflexivity|]. split; [apply length_map|].
    intros H. apply Forall_map. eapply Forall_impl; [exact H|]. simpl. intros c Hc. lia.
Qed.

(** X7: two additions to a tuple can be done in either order, failures
    included, and two additions at the same position are one addition of
    the sum. *)
Theorem add_add (t : list Z) (v1 v2 p1 p2 : Z) :
  (try! c := add_to_color_tuple (Tuple t) v1 p1 in add_to_color_tuple c v2 p2)
  = (try! c := add_to_color_tuple (Tuple t) v2 p2 in add_to_color_tuple c v1 p1) /\
  (try! c := add_to_color_tuple (Tuple t) v1 p1 in add_to_color_tuple c v2 p1)
  = add_to_color_tuple (Tuple t) (v1 + v2) p1.
Proof.
  assert (Hcases : forall p, {- Z.of_nat (length t) <= p < Z.of_nat (length t)}
                             + {~ (- Z.of_nat (length t) <= p < Z.of_nat (length t))}).
  { intros p. destruct (Z_le_dec (- Z.of_nat (length t)) p);
      [destruct (Z_lt_dec p (Z.of_nat (length t)))|]; [left | right | right]; lia. }
  split.
  - destruct (Hcases p1) as [H1|H1], (Hcases p2) as [H2|H2].
    + destruct (add_to_color_tuple_Ok t v1 p1 H1) as (c1 & Hc1 & ->).
      destruct (add_to_color_tuple_Ok t v2 p2 H2) as (c2 & Hc2 & ->). cbn [bind].
      set (i1 := Z.to_nat (p1 mod Z.of_nat (length t))) in *.
      set (i2 := Z.to_nat (p2 mod Z.of_nat (length t))) in *.
      destruct (add_to_color_tuple_Ok (<[i1 := c1 + v1]> t) v2 p2) as (c2' & Hc2' & ->);
        [rewrite length_insert; exact H2|].
      destruct (add_to_color_tuple_Ok (<[i2 := c2 + v2]> t) v1 p1) as (c1' & Hc1' & ->);
        [rewrite length_insert; exact H1|].
      rewrite !length_insert in *. fold i1 i2 in Hc1', Hc2' |- *.
      assert (L1 : (i1 < length t)%nat) by (apply lookup_lt_is_Some_1; eauto).
      assert (L2 : (i2 < length t)%nat) by (apply lookup_lt_is_Some_1; eauto).
      do 2 f_equal. destruct (decide (i1 = i2)) as [Heq|Hne].
      * rewrite <- Heq in *.
        rewrite list_lookup_insert_eq in Hc1', Hc2' by exact L1.
        injection Hc1' as <-. injection Hc2' as <-.
        rewrite !list_insert_insert_eq. f_equal.
        assert (c1 = c2) by congruence. lia.
      * rewrite list_lookup_insert_ne in Hc1', Hc2' by congruence.
        rewrite (list_insert_insert_ne _ i2 i1) by congruence. congruence.
    + destruct (add_to_color_tuple_Ok t v1 p1 H1) as (c1 & Hc1 & ->). cbn [bind].
      rewrite !add_to_color_tuple_Raise by (rewrite ?length_insert; exact H2). reflexivity.
    + destruct (add_to_color_tuple_Ok t v2 p2 H2) as (c2 & Hc2 & ->). cbn [bind].
      rewrite !add_to_color_tuple_Raise by (rewrite ?length_insert; exact H1). reflexivity.
    + rewrite !add_to_color_tuple_Raise by assumption. reflexivity.
  - destruct (Hcases p1) as [H1|H1].
    + destruct (add_to_color_tuple_Ok t v1 p1 H1) as (c1 & Hc1 & ->). cbn [bind].
      destruct (add_to_color_tuple_Ok t (v1 + v2) p1 H1) as (c & Hc & ->).
      set (i1 := Z.to_nat (p1 mod Z.of_nat (length t))) in *.
      destruct (add_to_color_tuple_Ok (<[i1 := c1 + v1]> t) v2 p1) as (c' & Hc' & ->);
        [rewrite length_insert; exact H1|].
      rewrite !length_insert in *. fold i1 in Hc' |- *.
      assert (L1 : (i1 < length t)%nat) by (apply lookup_lt_is_Some_1; eauto).
      rewrite list_lookup_insert_eq in Hc' by exact L1. injection Hc' as <-.
      rewrite list_insert_insert_eq. do 3 f_equal.
      assert (c = c1) by congruence. lia.
    + rewrite !add_to_color_tuple_Raise by assumption. reflexivity.
Qed.

Lemma invert_add_example :
  (try! c := add_to_color_tuple (Tuple [10; 20; 30]) 5 1 in invert_color c)
  = Ok (Tuple [245; 230; 225]).
Proof. reflexivity. Qed.

(** ** The parsers of the second modifiers *)

(** X9: [sub_modificator] is [add_modificator] with the amount negated
    and the type [sub]: on every argument text it fails exactly when
    [add_modificator] fails, with the same exception. *)
Theorem sub_is_negated_add (params : option string) :
  sub_modificator params
  = (try! m := add_modificator params in
     Ok {| pos := pos m; mod_ := -1 * mod_ m; type := Some sub |}).
Proof.
  unfold sub_modificator, add_modificator. destruct params as [ps|]; [|reflexivity].
  destruct (_ || _); [reflexivity|].
  destruct (int10 (nth 0 (split_params ps) EmptyString)) as [p0|]; [|reflexivity].
  destruct (int10 (nth 1 (split_params ps) EmptyString)) as [p1|]; reflexivity.
Qed.

Lemma count_char_remove (c d : ascii) (s : string) :
  c <> d -> count_char c (Py.remove d s) = count_char c s.
Proof.
  intros Hne. induction s as [|a s IH]; [reflexivity|]. simpl.
  destruct (Ascii.eqb_spec a d) as [->|Had].
  - rewrite IH. destruct (Ascii.eqb_spec d c); [congruence | reflexivity].
  - simpl. rewrite IH. reflexivity.
Qed.

Lemma count_dot_strip (s : string) :
  count_char "." (Re.strip_digits_commas s) = count_char "." s.
Proof.
  induction s as [|a s IH]; [reflexivity|]. simpl.
  destruct (Py.isdigit a || Ascii.eqb a ",") eqn:E.
  - rewrite IH. destruct (Ascii.eqb_spec a ".") as [->|]; [discriminate E | reflexivity].
  - simpl. rewrite IH. reflexivity.
Qed.

Lemma lower_char_dot (a : ascii) : Ascii.eqb (Py.lower_char a) "." = Ascii.eqb a ".".
Proof.
  revert a.
  assert (H : forall a, Bool.eqb (Ascii.eqb (Py.lower_char a) ".") (Ascii.eqb a ".") = true).
  { apply (every_ascii (fun a => Bool.eqb (Ascii.eqb (Py.lower_char a) ".") (Ascii.eqb a "."))).
    vm_compute. reflexivity. }
  intros a. apply eqb_prop, H.
Qed.

Lemma count_dot_lower (s : string) : count_char "." (Py.lower s) = count_char "." s.
Proof.
  induction s as [|a s IH]; [reflexivity|]. simpl. rewrite lower_char_dot, IH. reflexivity.
Qed.

Lemma count_dot_name (g4 : string) :
  count_char "." (second_modifer_name_of (Py.lower g4)) = count_char "." g4.
Proof.
  unfold second_modifer_name_of.
  rewrite count_char_remove, count_dot_strip, !count_char_remove, count_dot_lower
    by discriminate.
  reflexivity.
Qed.

Lemma SECOND_MODIFIERS_keys (name : string) (f : option string -> result second_mod) :
  SECOND_MODIFIERS !! name = Some f ->
  In name [".add"; ".sub"; ".invert"; ".a"; ".s"; ".i"].
Proof.
  intros H. apply elem_of_list_to_map_2 in H.
  repeat (apply elem_of_cons in H as [H|H]; [injection H as -> _; simpl; tauto|]).
  apply elem_of_nil in H. contradiction.
Qed.

(** X10: a second modifier whose text holds two dots or more, as it
    does when one of its arguments is written with a decimal point, is
    never recognised: the name that is looked up keeps both dots, and no
    key of [SECOND_MODIFIERS] has more than one.  The token then
    resolves as if groups 4 and 5 were absent. *)
Theorem decimal_arguments_pass_over (colors : gmap string color_value) (m : Match)
  (g4 : string) :
  group4 m = Some g4 ->
  (2 <= count_char "." g4)%nat ->
  SECOND_MODIFIERS !! second_modifer_name_of (Py.lower g4) = None /\
  second_modifer_params_of m = Ok no_second_mod /\
  remap_key colors m
  = remap_key colors {| group1 := group1 m; group2 := group2 m; group3 := group3 m;
                        group4 := None; group5 := None |}.
Proof.
  intros Hg Hdots.
  assert (Hnone : SECOND_MODIFIERS !! second_modifer_name_of (Py.lower g4) = None).
  { destruct (SECOND_MODIFIERS !! second_modifer_name_of (Py.lower g4)) as [f|] eqn:E;
      [|reflexivity].
    apply SECOND_MODIFIERS_keys in E. rewrite <- count_dot_name in Hdots.
    simpl in E. destruct E as [E|[E|[E|[E|[E|[E|[]]]]]]];
      rewrite <- E in Hdots; simpl in Hdots; lia. }
  assert (Hsm : second_modifer_params_of m = Ok no_second_mod).
  { unfold second_modifer_params_of. rewrite Hg.
    destruct g4 as [|c g4]; [reflexivity|]. cbn [truthy]. rewrite Hnone. reflexivity. }
  split; [exact Hnone|]. split; [exact Hsm|].
  unfold remap_key. rewrite Hsm. reflexivity.
Qed.

Lemma decimal_arguments_pass_over_witness :
  remap_key (sample_colors 10 20 30)
    {| group1 := "a"; group2 := None; group3 := Some ".rgb";
       group4 := Some ".add(1.5,2)"; group5 := Some "(1.5,2)" |}
  = remap_key (sample_colors 10 20 30)
      {| group1 := "a"; group2 := None; group3 := Some ".rgb";
         group4 := None; group5 := None |}.
Proof.
  apply (decimal_arguments_pass_over (sample_colors 10 20 30)
           {| group1 := "a"; group2 := None; group3 := Some ".rgb";
              group4 := Some ".add(1.5,2)"; group5 := Some "(1.5,2)" |} ".add(1.5,2)").
  - reflexivity.
  - simpl. lia.
Defined.

(** The name is compared after digits, commas, parentheses and blanks
    have been deleted wherever they stand in group 4: a digit inside the
    name itself goes too. *)
Example digits_in_the_name :
  replace_key (sample_colors 10 20 30) "KEY(a).rgb.a1d2d(0,5)" = Ok "rgb(15,20,30)".
Proof. vm_compute. reflexivity. Qed.

(** ** The formatters *)

(** X11: the formatters with function syntax wrap the ones without:
    [.rgb] is [rgb(] [.rgb_values] [)], [.rgba] is [rgba(] [.rgba_values]
    [)], [.hex] is [#] [.hex_values], and [.rgba_values] is [.rgb_values]
    followed by a comma and the opacity; each pair fails together, with
    the same exception. *)
Theorem formatters_wrap (color_tuple : color_value) (opacity : float) (scond_mod : second_mod) :
  return_rgb_string color_tuple opacity scond_mod
  = (try! v := return_values_without_opacity_string color_tuple opacity scond_mod in
     Ok ("rgb(" +:+ v +:+ ")")) /\
  return_rgba_string color_tuple opacity scond_mod
  = (try! v := return_values_string color_tuple opacity scond_mod in
     Ok ("rgba(" +:+ v +:+ ")")) /\
  return_hex_string color_tuple opacity scond_mod
  = (try! v := return_hex_values_string color_tuple opacity scond_mod in
     Ok ("#" +:+ v)) /\
  return_values_string color_tuple opacity scond_mod
  = (try! v := return_values_without_opacity_string color_tuple opacity scond_mod in
     Ok (v +:+ "," +:+ PyFloat.repr opacity)).
Proof.
  unfold return_rgb_string, return_rgba_string, return_hex_string, return_values_string,
    return_values_without_opacity_string, return_hex_values_string.
  destruct (check_and_apply_second_modificator color_tuple scond_mod) as [c|e];
    [|repeat split; reflexivity]. cbn [bind].
  repeat split.
  - destruct (getitem c 0), (getitem c 1), (getitem c 2); cbn [bind]; try reflexivity.
    rewrite !app_assoc. reflexivity.
  - destruct (getitem c 0), (getitem c 1), (getitem c 2); cbn [bind]; try reflexivity.
    rewrite !app_assoc. reflexivity.
  - destruct (getitem c 0) as [x0|]; cbn [bind]; [|reflexivity].
    destruct (hex_item x0); cbn [bind]; [|reflexivity].
    destruct (getitem c 1) as [x1|]; cbn [bind]; [|reflexivity].
    destruct (hex_item x1); cbn [bind]; [|reflexivity].
    destruct (getitem c 2) as [x2|]; cbn [bind]; [|reflexivity].
    destruct (hex_item x2); reflexivity.
  - destruct (getitem c 0), (getitem c 1), (getitem c 2); cbn [bind]; try reflexivity.
    rewrite !app_assoc. reflexivity.
Qed.

(** X12: [.rgb_values] is the three channels, as [.r], [.g] and [.b]
    print them, joined by commas. *)
Theorem values_are_channels (color_tuple : color_value) (opacity : float)
  (scond_mod : second_mod) (v : string) :
  return_values_without_opacity_string color_tuple opacity scond_mod = Ok v ->
  exists r g b,
    return_red_string color_tuple opacity scond_mod = Ok r /\
    return_green_string color_tuple opacity scond_mod = Ok g /\
    return_blue_string color_tuple opacity scond_mod = Ok b /\
    v = r +:+ "," +:+ g +:+ "," +:+ b.
Proof.
  unfold return_values_without_opacity_string, return_red_string, return_green_string,
    return_blue_string.
  destruct (check_and_apply_second_modificator color_tuple scond_mod) as [c|e];
    [|discriminate]. cbn [bind].
  destruct (getitem c 0) as [x0|]; [|discriminate].
  destruct (getitem c 1) as [x1|]; [|discriminate].
  destruct (getitem c 2) as [x2|]; [|discriminate]. cbn [bind].
  intros [= <-]. exists (str_item x0), (str_item x1), (str_item x2). repeat split.
Qed.

Lemma values_are_channels_witness :
  exists r g b,
    return_red_string (Tuple [10; 20; 30]) 1 no_second_mod = Ok r /\
    return_green_string (Tuple [10; 20; 30]) 1 no_second_mod = Ok g /\
    return_blue_string (Tuple [10; 20; 30]) 1 no_second_mod = Ok b /\
    "10,20,30" = r +:+ "," +:+ g +:+ "," +:+ b.
Proof.
  apply (values_are_channels (Tuple [10; 20; 30]) 1 no_second_mod "10,20,30"). reflexivity.
Defined.

(** The nine formatters that do not go through [rgb_to_hls]. *)
Lemma check_and_apply_triple (r g b : Z) (scond_mod : second_mod) :
  (type scond_mod = Some add \/ type scond_mod = Some sub -> -3 <= pos scond_mod < 3) ->
  exists r' g' b',
    check_and_apply_second_modificator (Tuple [r; g; b]) scond_mod = Ok (Tuple [r'; g'; b']).
Proof.
  intros Hp. unfold check_and_apply_second_modificator.
  destruct (type scond_mod) as [[| |]|].
  - destruct (add_to_color_tuple_Ok [r; g; b] (mod_ scond_mod) (pos scond_mod))
      as (c & Hc & ->); [simpl; apply Hp; auto|].
    simpl length. destruct (Z.to_nat (pos scond_mod mod Z.of_nat 3)) as [|[|[|n]]];
      simpl; eauto.
  - destruct (add_to_color_tuple_Ok [r; g; b] (mod_ scond_mod) (pos scond_mod))
      as (c & Hc & ->); [simpl; apply Hp; auto|].
    simpl length. destruct (Z.to_nat (pos scond_mod mod Z.of_nat 3)) as [|[|[|n]]];
      simpl; eauto.
  - simpl. eauto.
  - eauto.
Qed.

(** X13: on a colour of three channels, each of the ten formatters
    outside the [.hsl] family returns a string, with no second modifier,
    with [invert], and with [add] or [sub] at a position from -3 to 2;
    with [add] or [sub] at any other position each of them fails with
    [IndexError]. *)
Theorem rgb_formatters_total (f : formatter) (r g b : Z) (opacity : float)
  (scond_mod : second_mod) :
  In f [return_rgba_string; return_rgb_string; return_values_string;
        return_values_without_opacity_string; return_red_string; return_green_string;
        return_blue_string; return_opacity_string; return_hex_string;
        return_hex_values_string] ->
  ((type scond_mod = Some add \/ type scond_mod = Some sub -> -3 <= pos scond_mod < 3) ->
     exists s, f (Tuple [r; g; b]) opacity scond_mod = Ok s) /\
  ((type scond_mod = Some add \/ type scond_mod = Some sub) ->
     ~ (-3 <= pos scond_mod < 3) ->
     f (Tuple [r; g; b]) opacity scond_mod = Raise IndexError).
Proof.
  intros Hf. split.
  - intros Hp. destruct (check_and_apply_triple r g b scond_mod Hp) as (r' & g' & b' & E).
    simpl in Hf.
    destruct Hf as [<-|[<-|[<-|[<-|[<-|[<-|[<-|[<-|[<-|[<-|[]]]]]]]]]]];
      unfold return_rgba_string, return_rgb_string, return_values_string,
        return_values_without_opacity_string, return_red_string, return_green_string,
        return_blue_string, return_opacity_string, return_hex_string,
        return_hex_values_string;
      rewrite E; simpl; eauto.
  - intros Ht Hp.
    assert (E : check_and_apply_second_modificator (Tuple [r; g; b]) scond_mod
                = Raise IndexError).
    { unfold check_and_apply_second_modificator.
      destruct Ht as [-> | ->]; apply add_to_color_tuple_Raise; simpl; lia. }
    simpl in Hf.
    destruct Hf as [<-|[<-|[<-|[<-|[<-|[<-|[<-|[<-|[<-|[<-|[]]]]]]]]]]];
      unfold return_rgba_string, return_rgb_string, return_values_string,
        return_values_without_opacity_string, return_red_string, return_green_string,
        return_blue_string, return_opacity_string, return_hex_string,
        return_hex_values_string;
      rewrite E; reflexivity.
Qed.

Lemma rgb_formatters_total_witness :
  exists s, return_hex_string (Tuple [10; 20; 30]) 1
              {| pos := -1; mod_ := 300; type := Some add |} = Ok s.
Proof.
  apply (proj1 (rgb_formatters_total return_hex_string 10 20 30 1
                  {| pos := -1; mod_ := 300; type := Some add |}
                  ltac:(simpl; tauto))).
  simpl. intros _. lia.
Defined.

(** ** [remap_key] *)

Lemma lower_char_idempotent (a : ascii) : Py.lower_char (Py.lower_char a) = Py.lower_char a.
Proof.
  assert (H : forall a, Ascii.eqb (Py.lower_char (Py.lower_char a)) (Py.lower_char a) = true).
  { apply (every_ascii
             (fun a => Ascii.eqb (Py.lower_char (Py.lower_char a)) (Py.lower_char a))).
    vm_compute. reflexivity. }
  apply Ascii.eqb_eq, H.
Qed.

Lemma lower_idempotent (s : string) : Py.lower (Py.lower s) = Py.lower s.
Proof.
  induction s as [|a s IH]; [reflexivity|]. simpl. rewrite lower_char_idempotent, IH.
  reflexivity.
Qed.

Lemma truthy_fmap_lower (g : option string) :
  truthy (Py.lower <$> g) = Py.lower <$> truthy g.
Proof. destruct g as [[|c s]|]; reflexivity. Qed.

(** X14: the key and the two modifiers are read without regard to case:
    a token resolves, or fails, in the same way when groups 1, 3 and 4
    are put in lower case. *)
Theorem remap_key_ignores_case (colors : gmap string color_value) (m : Match) :
  remap_key colors (lower_match m) = remap_key colors m.
Proof.
  assert (Hs : second_modifer_params_of (lower_match m) = second_modifer_params_of m).
  { unfold second_modifer_params_of, lower_match. cbn [group4 group5].
    rewrite truthy_fmap_lower. destruct (truthy (group4 m)) as [g|]; [|reflexivity].
    cbn [fmap option_fmap option_map]. rewrite lower_idempotent. reflexivity. }
  assert (Hf : first_modifier_of (lower_match m) = first_modifier_of m).
  { unfold first_modifier_of, lower_match. cbn [group3].
    rewrite truthy_fmap_lower. destruct (truthy (group3 m)) as [g|]; [|reflexivity].
    cbn [fmap option_fmap option_map]. rewrite lower_idempotent. reflexivity. }
  unfold remap_key. rewrite Hs, Hf.
  unfold second_arg_of, lower_match. cbn [group1 group2].
  rewrite lower_idempotent. reflexivity.
Qed.

Example key_in_any_case :
  replace_key (sample_colors 10 20 30) "key(A).RGB.Add(0,5)" = Ok "rgb(15,20,30)" /\
  replace_key (sample_colors 10 20 30) "Key(a).Rgb.ADD(0,5)" = Ok "rgb(15,20,30)".
Proof. split; vm_compute; reflexivity. Qed.

(** X15: an opacity that normalises to 1.0 cannot be told from no
    opacity at all: the token resolves, or fails, as the same token
    without group 2. *)
Theorem opacity_one_is_default (colors : gmap string color_value) (m : Match) (g2 : string) :
  group2 m = Some g2 ->
  opacity_of g2 = Ok 1%float ->
  remap_key colors m
  = remap_key colors {| group1 := group1 m; group2 := None; group3 := group3 m;
                        group4 := group4 m; group5 := group5 m |}.
Proof.
  intros Hg Hop.
  assert (H1 : opacity_of "1.0" = Ok 1%float) by (vm_compute; reflexivity).
  assert (Ho : opacity_of (second_arg_of m) = Ok 1%float).
  { unfold second_arg_of. rewrite Hg. destruct g2; [exact H1 | exact Hop]. }
  unfold remap_key. rewrite Ho.
  unfold second_arg_of at 1. cbn [group2 truthy]. rewrite H1. reflexivity.
Qed.

Lemma opacity_one_is_default_witness :
  remap_key (sample_colors 10 20 30)
    {| group1 := "w"; group2 := Some "100"; group3 := None; group4 := None; group5 := None |}
  = remap_key (sample_colors 10 20 30)
      {| group1 := "w"; group2 := None; group3 := None; group4 := None; group5 := None |}.
Proof.
  apply (opacity_one_is_default (sample_colors 10 20 30)
           {| group1 := "w"; group2 := Some "100"; group3 := None;
              group4 := None; group5 := None |} "100").
  - reflexivity.
  - vm_compute. reflexivity.
Defined.

(** X16: the checks of [remap_key] come in a fixed order.  A key that
    the palette lacks fails first, whatever the rest of the token; then
    an invalid opacity; then the arguments of a recognised second
    modifier, even when the first modifier is absent or unknown and the
    second modifier would never be applied. *)
Theorem remap_key_failure_order (colors : gmap string color_value) (m : Match) :
  (falsy (colors !! Py.lower (group1 m)) = true ->
     remap_key colors m = Raise (ColorNotFound (Py.lower (group1 m)))) /\
  (falsy (colors !! Py.lower (group1 m)) = false ->
     forall e, opacity_of (second_arg_of m) = Raise e -> remap_key colors m = Raise e) /\
  (falsy (colors !! Py.lower (group1 m)) = false ->
     forall opacity e,
       opacity_of (second_arg_of m) = Ok opacity ->
       second_modifer_params_of m = Raise e ->
       remap_key colors m = Raise e).
Proof.
  unfold remap_key. repeat split.
  - intros ->. reflexivity.
  - intros Hf e He. rewrite Hf.
    destruct (colors !! Py.lower (group1 m)); [|discriminate]. rewrite He. reflexivity.
  - intros Hf opacity e Ho He. rewrite Hf.
    destruct (colors !! Py.lower (group1 m)); [|discriminate]. rewrite Ho. cbn [bind].
    rewrite He. reflexivity.
Qed.

Example failure_order :
  replace_key (sample_colors 10 20 30) "KEY(zz, 150).rgb.add(5)" = Raise (ColorNotFound "zz") /\
  replace_key (sample_colors 10 20 30) "KEY(a, 150).rgb.add(5)" = Raise (OpacityNotValid "150") /\
  replace_key (sample_colors 10 20 30) "KEY(a).foo.add(5)" = Raise (TakesTwoParameters 1) /\
  replace_key (sample_colors 10 20 30) "KEY(w, 50).foo.add(5)" = Raise (TakesTwoParameters 1).
Proof. repeat split; vm_compute; reflexivity. Qed.

(** ** [replace_key] on a text without token *)

Lemma key_at_false_token (s : string) : Re.key_at s = false -> Re.token s = None.
Proof.
  intros H. destruct (Re.token s) as [[m rest]|] eqn:E; [|reflexivity].
  apply token_key_at in E. congruence.
Qed.

Lemma sub_without_key (repl : Match -> result string) (fuel : nat) (s : string) :
  Re.search_key s = false -> Re.sub fuel repl s = Ok s.
Proof.
  revert s. induction fuel as [|fuel IH]; intros s H; [reflexivity|].
  cbn [Re.sub]. destruct s as [|c s].
  - cbn [Re.search_key] in H. apply orb_false_iff in H as [H _].
    rewrite (key_at_false_token _ H). reflexivity.
  - cbn [Re.search_key] in H. apply orb_false_iff in H as [H H'].
    rewrite (key_at_false_token _ H), (IH s H'). reflexivity.
Qed.

(** X17: a text in which [KEY(] followed somewhere by [)] does not
    occur is returned as it is by [replace_key], which calls [remap_key]
    on nothing.  So the test that [try_replace_key_in_theme] makes before
    it calls [replace_key] changes no output: whenever [replace_key]
    returns a text for a line, that text and the line end is what the
    line gives. *)
Theorem replace_key_without_key (colors : gmap string color_value) (text : string) :
  (Re.search_key text = false -> replace_key colors text = Ok text) /\
  (forall r filename end_ n,
     replace_key colors text = Ok r ->
     fst (rewrite_lines colors filename end_ n [text] EmptyString []) = r +:+ end_).
Proof.
  assert (E : Re.search_key text = false -> replace_key colors text = Ok text)
    by (intros H; apply sub_without_key, H).
  split; [exact E|]. intros r filename end_ n Hr. cbn [rewrite_lines].
  destruct (Re.search_key text) eqn:Hs.
  - rewrite Hr. reflexivity.
  - rewrite (E eq_refl) in Hr. injection Hr as <-. reflexivity.
Qed.

Lemma replace_key_without_key_witness :
  replace_key (sample_colors 10 20 30) "  --successcolor: 59,165,92; /* key ( */"
  = Ok "  --successcolor: 59,165,92; /* key ( */".
Proof.
  apply (proj1 (replace_key_without_key (sample_colors 10 20 30)
                  "  --successcolor: 59,165,92; /* key ( */")).
  vm_compute. reflexivity.
Defined.

(** ** [try_replace_key_in_theme] *)

Section MoreLines.

Variable colors : gmap string color_value.
Variables filename end_ : string.

Local Abbreviation loop := (rewrite_lines colors filename end_).

Lemma rewrite_lines_cons (n : nat) (line : string) (lines : list string) :
  loop n (line :: lines) EmptyString []
  = (fst (loop n [line] EmptyString []) +:+ fst (loop (S n) lines EmptyString []),
     snd (loop n [line] EmptyString []) ++ snd (loop (S n) lines EmptyString [])).
Proof.
  change (line :: lines) with ([line] ++ lines).
  rewrite rewrite_lines_app. simpl (length [line]).
  replace (n + 1)%nat with (S n) by lia.
  rewrite (rewrite_lines_acc colors filename end_ lines). reflexivity.
Qed.

(** What one line logs: nothing, or one record with its own number. *)
Lemma rewrite_line_log (n : nat) (line : string) :
  snd (loop n [line] EmptyString []) = []
  \/ snd (loop n [line] EmptyString []) = [WARNING (n + 1) filename]
  \/ exists e, snd (loop n [line] EmptyString []) = [ERROR (n + 1) filename e].
Proof.
  cbn [rewrite_lines]. destruct (Re.search_key line); [|left; reflexivity].
  destruct (replace_key colors line) as [r|e].
  - destruct (String.eqb _ _); [right; left | left]; reflexivity.
  - right; right. exists e. reflexivity.
Qed.

Lemma rewrite_lines_log (lines : list string) (n : nat) :
  let log := snd (loop n lines EmptyString []) in
  (length log <= length lines)%nat /\
  Forall (fun r => (n < log_line r <= n + length lines)%nat /\ log_filename r = filename) log /\
  StronglySorted lt (map log_line log).
Proof.
  revert n. induction lines as [|line lines IH]; intros n.
  - simpl. repeat split; constructor.
  - cbv zeta. rewrite rewrite_lines_cons. cbn [snd].
    destruct (IH (S n)) as (Hlen & Hall & Hsort).
    assert (Hall' : Forall (fun r => (n + 1 < log_line r <= n + length (line :: lines))%nat
                                     /\ log_filename r = filename)
                      (snd (loop (S n) lines EmptyString []))).
    { eapply Forall_impl; [exact Hall|]. simpl. intros r [H1 H2]. split; [lia | exact H2]. }
    assert (Hgt : Forall (lt (n + 1)) (map log_line (snd (loop (S n) lines EmptyString [])))).
    { apply Forall_map. eapply Forall_impl; [exact Hall'|]. simpl. intros r [H1 _]. lia. }
    assert (Hweak : Forall (fun r => (n < log_line r <= n + length (line :: lines))%nat
                                     /\ log_filename r = filename)
                      (snd (loop (S n) lines EmptyString []))).
    { eapply Forall_impl; [exact Hall'|]. simpl. intros r [H1 H2]. split; [lia | exact H2]. }
    destruct (rewrite_line_log n line) as [-> | [-> | [e ->]]].
    + simpl. repeat split; [lia | exact Hweak | exact Hsort].
    + simpl. repeat split; [lia | | ].
      * constructor; [simpl; split; [lia | reflexivity] | exact Hweak].
      * constructor; [exact Hsort | exact Hgt].
    + simpl. repeat split; [lia | | ].
      * constructor; [simpl; split; [lia | reflexivity] | exact Hweak].
      * constructor; [exact Hsort | exact Hgt].
Qed.

(** X18: the log of [try_replace_key_in_theme] has at most one record
    for a line; every record bears the file name that was given and a
    line number from 1 to the number of lines; and the records come in
    the order of the lines, with strictly growing line numbers. *)
Theorem log_is_ordered (lines : list string) :
  let log := snd (try_replace_key_in_theme colors lines filename end_) in
  (length log <= length lines)%nat /\
  Forall (fun r => (1 <= log_line r <= length lines)%nat /\ log_filename r = filename) log /\
  StronglySorted lt (map log_line log).
Proof.
  unfold try_replace_key_in_theme.
  destruct (rewrite_lines_log lines 0) as (Hlen & Hall & Hsort).
  split; [exact Hlen|]. split; [|exact Hsort].
  eapply Forall_impl; [exact Hall|]. simpl. intros r [H1 H2]. split; [lia | exact H2].
Qed.

Lemma rewrite_plain_line (n : nat) (line : string) :
  Re.search_key line = false ->
  loop n [line] EmptyString [] = (line +:+ end_, []).
Proof. intros H. cbn [rewrite_lines]. rewrite H. reflexivity. Qed.

(** The lines with their line ends, one after the other. *)
Lemma rewrite_plain_lines (lines : list string) (n : nat) :
  Forall (fun line => Re.search_key line = false) lines ->
  loop n lines EmptyString [] = (String.concat EmptyString (map (fun l => l +:+ end_) lines), []).
Proof.
  revert n. induction lines as [|line lines IH]; intros n H; [reflexivity|].
  apply Forall_cons in H as [H1 H2].
  rewrite rewrite_lines_cons, (rewrite_plain_line n line H1), (IH (S n) H2). cbn [fst snd].
  f_equal. destruct lines as [|l2 lines]; [apply app_nil_r | reflexivity].
Qed.

(** X19: lines in none of which [KEY(] followed by [)] occurs pass
    through: the text returned is the lines in their order, each
    followed by the line end, and nothing is logged. *)
Theorem plain_lines_pass_through (lines : list string) :
  Forall (fun line => Re.search_key line = false) lines ->
  try_replace_key_in_theme colors lines filename end_
  = (String.concat EmptyString (map (fun l => l +:+ end_) lines), []).
Proof. intros H. unfold try_replace_key_in_theme. apply rewrite_plain_lines, H. Qed.

End MoreLines.

Lemma plain_lines_pass_through_witness :
  try_replace_key_in_theme (sample_colors 10 20 30) [":root {"; "  --font: 1;"; "}"]
    "theme.css" newline
  = (String.concat EmptyString (map (fun l => l +:+ newline) [":root {"; "  --font: 1;"; "}"]),
     []).
Proof.
  apply (plain_lines_pass_through (sample_colors 10 20 30) "theme.css" newline).
  repeat constructor.
Defined.

(** ** The steps of [main] *)

Lemma main_set_description_none (theme_lines : list string) :
  Forall (fun line => PyStr.contains "@description" line = false) theme_lines ->
  main_set_description theme_lines = theme_lines.
Proof.
  induction theme_lines as [|line rest IH]; [reflexivity|].
  intros H. apply Forall_cons in H as [H1 H2]. simpl. rewrite H1, (IH H2). reflexivity.
Qed.

(** X20: the description step of [main] keeps the number of lines;
    it changes the first line in which [@description] occurs, and only
    that one, into the generated description; it leaves lines without
    such a line as they are; and doing it twice is doing it once. *)
Theorem main_set_description_first (theme_lines : list string) :
  length (main_set_description theme_lines) = length theme_lines /\
  main_set_description (main_set_description theme_lines) = main_set_description theme_lines /\
  (Forall (fun line => PyStr.contains "@description" line = false) theme_lines ->
     main_set_description theme_lines = theme_lines) /\
  (forall before line after,
     theme_lines = before ++ line :: after ->
     Forall (fun l => PyStr.contains "@description" l = false) before ->
     PyStr.contains "@description" line = true ->
     main_set_description theme_lines = before ++ generated_description :: after).
Proof.
  assert (Hgen : PyStr.contains "@description" generated_description = true)
    by (vm_compute; reflexivity).
  split; [|split; [|split]].
  - induction theme_lines as [|line rest IH]; [reflexivity|]. simpl.
    destruct (PyStr.contains "@description" line); simpl; [reflexivity | rewrite IH; reflexivity].
  - induction theme_lines as [|line rest IH]; [reflexivity|]. cbn [main_set_description].
    destruct (PyStr.contains "@description" line) eqn:E; cbn [main_set_description].
    + rewrite Hgen. reflexivity.
    + rewrite E, IH. reflexivity.
  - apply main_set_description_none.
  - intros before line after -> Hb Hl.
    induction before as [|l before IH]; simpl.
    + rewrite Hl. reflexivity.
    + apply Forall_cons in Hb as [H1 H2]. rewrite H1, (IH H2). reflexivity.
Qed.



(** The generated description ends with a line end of its own: where
    the lines have none and [main] adds one, as for the default theme and
    the standard input, an empty line follows it. *)
Example description_then_empty_line :
  fst (main_theme_text (sample_colors 10 20 30) false
         ["/**"; " * @description Hello"; "**/"] "DEFAULT_THEME")
  = "/**" +:+ newline +:+ " * @description Generated by Walcord" +:+ newline +:+ newline
      +:+ "**/" +:+ newline.
Proof. vm_compute. reflexivity. Qed.

(** ** What a match of the grammar holds *)

Lemma span_all (p : ascii -> bool) (s w r : string) :
  Re.span p s = (w, r) -> all_chars p w = true.
Proof.
  revert w r. induction s as [|c s IH]; simpl; intros w r.
  - intros [= <- <-]. reflexivity.
  - destruct (p c) eqn:Ep.
    + destruct (Re.span p s) as [w' r'] eqn:E. intros [= <- <-]. simpl.
      rewrite Ep. exact (IH w' r' eq_refl).
    + intros [= <- <-]. reflexivity.
Qed.

Lemma many1_all (p : ascii -> bool) (s w r : string) :
  Re.many1 p s = Some (w, r) -> all_chars p w = true.
Proof.
  unfold Re.many1. destruct (Re.span p s) as [w' r'] eqn:E.
  destruct w' as [|c w']; [discriminate|]. intros [= <- <-]. exact (span_all _ _ _ _ E).
Qed.

Lemma literal_lower (lit s r : string) :
  Re.literal lit s = Some r -> exists pre, s = pre +:+ r /\ Py.lower pre = Py.lower lit.
Proof.
  revert s. induction lit as [|c lit IH]; intros s; simpl.
  - intros [= <-]. exists EmptyString. split; reflexivity.
  - destruct s as [|d s]; [discriminate|].
    destruct (Ascii.eqb_spec (Py.lower_char d) (Py.lower_char c)) as [E|]; [|discriminate].
    intros H. destruct (IH s H) as (pre & -> & Hpre).
    exists (String d pre). split; [reflexivity|]. simpl. rewrite E, Hpre. reflexivity.
Qed.

(** The text of a number: digits, or digits, a point and digits. *)
Lemma number_shape (s t r : string) :
  Re.number s = Some (t, r) ->
  exists i, all_chars Py.isdigit i = true /\ i <> EmptyString /\
    (t = i \/ exists f, all_chars Py.isdigit f = true /\ f <> EmptyString /\
                        t = i +:+ String "." f).
Proof.
  unfold Re.number. destruct (Re.many1 Py.isdigit s) as [[i r1]|] eqn:Ei; [|discriminate].
  pose proof (many1_all _ _ _ _ Ei) as Hi.
  destruct (many1_app _ _ _ _ Ei) as [_ Hne].
  destruct (Re.char "." r1) as [r2|] eqn:Ec.
  - destruct (Re.many1 Py.isdigit r2) as [[f r3]|] eqn:Ef.
    + intros [= <- <-]. exists i. repeat split; try assumption. right. exists f.
      split; [exact (many1_all _ _ _ _ Ef)|]. split; [apply (many1_app _ _ _ _ Ef)|].
      reflexivity.
    + intros [= <- <-]. exists i. auto.
  - intros [= <- <-]. exists i. auto.
Qed.

(** X22: a match is made of the text it stands on.  The text is
    [KEY(] in any case, group 1, the opacity part, the closing
    parenthesis, group 3, group 4 and what follows the match; group 1 is
    a non-empty word; the opacity part is empty without group 2 and is
    otherwise a comma, white space and group 2; group 5 is the end of
    group 4; and there is no group 4 without group 3. *)
Theorem token_reconstruct (s rest : string) (m : Match) :
  Re.token s = Some (m, rest) ->
  exists lit mid,
    s = lit +:+ group1 m +:+ mid +:+ ")" +:+ default EmptyString (group3 m)
          +:+ default EmptyString (group4 m) +:+ rest /\
    Py.lower lit = "key(" /\
    all_chars Py.isword (group1 m) = true /\ group1 m <> EmptyString /\
    match group2 m with
    | None => mid = EmptyString
    | Some o => exists ws, mid = "," +:+ ws +:+ o /\ all_chars Py.isspace ws = true
    end /\
    match group5 m with
    | None => True
    | Some a => exists name, group4 m = Some (name +:+ a)
    end /\
    (group3 m = None -> group4 m = None).
Proof.
  unfold Re.token. destruct (Re.literal "KEY(" s) as [r|] eqn:El; [|discriminate].
  destruct (literal_lower _ _ _ El) as (lit & -> & Hlit).
  destruct (Re.many1 Py.isword r) as [[key r1]|] eqn:Ek; [|discriminate].
  pose proof (many1_all _ _ _ _ Ek) as Hall.
  destruct (many1_app _ _ _ _ Ek) as [-> Hne].
  destruct (Re.opacity_and_close r1) as [[g2 r2]|] eqn:Eo; [|discriminate].
  assert (Hmid : exists mid, r1 = mid +:+ ")" +:+ r2 /\
            match g2 with
            | None => mid = EmptyString
            | Some o => exists ws, mid = "," +:+ ws +:+ o /\ all_chars Py.isspace ws = true
            end).
  { unfold Re.opacity_and_close in Eo. destruct (Re.char "," r1) as [t1|] eqn:Ec.
    - apply char_app in Ec as ->.
      destruct (Re.span Py.isspace t1) as [ws t2] eqn:Es. simpl in Eo.
      destruct (Re.number t2) as [[o t3]|] eqn:En; [|discriminate].
      destruct (Re.char ")" t3) as [t4|] eqn:Ep; [|discriminate].
      injection Eo as <- <-. pose proof (span_all _ _ _ _ Es) as Hws.
      apply span_app in Es as ->. destruct (number_app _ _ _ En) as [-> _].
      apply char_app in Ep as ->.
      exists ("," +:+ ws +:+ o). split; [|eauto].
      rewrite !app_assoc. reflexivity.
    - destruct (Re.char ")" r1) as [t1|] eqn:Ep; [|discriminate].
      injection Eo as <- <-. apply char_app in Ep as ->. exists EmptyString. auto. }
  destruct Hmid as (mid & -> & Hg2).
  destruct (Re.dotted r2) as [[g3 r3]|] eqn:E3.
  - destruct (dotted_app _ _ _ E3) as [-> _].
    unfold Re.second. destruct (Re.dotted r3) as [[name r4]|] eqn:E4.
    + destruct (dotted_app _ _ _ E4) as [-> _].
      destruct (Re.arguments r4) as [[a r5]|] eqn:E5.
      * apply arguments_app in E5 as ->. intros [= <- <-]. exists lit, mid. simpl.
        repeat split; try assumption; try exact Hlit; try discriminate;
          try (rewrite !app_assoc; reflexivity); eauto.
      * intros [= <- <-]. exists lit, mid. simpl.
        repeat split; try assumption; try exact Hlit; try discriminate;
          try (rewrite !app_assoc; reflexivity).
    + intros [= <- <-]. exists lit, mid. simpl.
      repeat split; try assumption; try exact Hlit; try discriminate;
        try (rewrite !app_assoc; reflexivity).
  - unfold Re.second. rewrite E3. intros [= <- <-]. exists lit, mid. simpl.
    repeat split; try assumption; try exact Hlit;
      try (rewrite !app_assoc; reflexivity).
Qed.

Lemma token_reconstruct_witness :
  exists lit mid,
    "Key(B,  0.6).rgb_values.add(0, 5);"
    = lit +:+ "B" +:+ mid +:+ ")" +:+ ".rgb_values" +:+ ".add(0, 5)" +:+ ";" /\
    Py.lower lit = "key(" /\
    all_chars Py.isword "B" = true /\ "B" <> EmptyString /\
    (exists ws, mid = "," +:+ ws +:+ "0.6" /\ all_chars Py.isspace ws = true) /\
    (exists name, Some ".add(0, 5)" = Some (name +:+ "(0, 5)")) /\
    (Some ".rgb_values" = None -> Some ".add(0, 5)" = None).
Proof.
  apply (token_reconstruct "Key(B,  0.6).rgb_values.add(0, 5);" ";"
           {| group1 := "B"; group2 := Some "0.6"; group3 := Some ".rgb_values";
              group4 := Some ".add(0, 5)"; group5 := Some "(0, 5)" |}).
  vm_compute. reflexivity.
Defined.

(** ** The opacity of a match *)

Lemma binary_round_aux_sign (mx ex : Z) (lx : location) :
  sign_clear (binary_round_aux prec emax false mx ex lx).
Proof.
  unfold binary_round_aux.
  destruct (shr_fexp prec emax mx ex lx) as [mrs' e'].
  destruct (shr_fexp prec emax _ e' loc_Exact) as [mrs'' e''].
  destruct (shr_m mrs''); simpl; try exact I.
  destruct (e'' <=? emax - prec); exact I.
Qed.

Lemma binary_round_sign (mx : positive) (ex : Z) :
  sign_clear (binary_round prec emax false mx ex).
Proof.
  unfold binary_round. destruct (shl_align mx ex _) as [mz ez]. apply binary_round_aux_sign.
Qed.

Lemma SFldexp_sign (x : spec_float) (e : Z) : sign_clear x -> sign_clear (SFldexp prec emax x e).
Proof.
  destruct x as [s|s| |s m ex]; simpl; try (intros H; exact H).
  destruct s; [intros []|]. intros _. apply binary_round_sign.
Qed.

Lemma of_uint63_sign (n : PrimInt63.int) : sign_clear (Prim2SF (of_uint63 n)).
Proof.
  rewrite of_uint63_spec. unfold binary_normalize.
  pose proof (Uint63.to_Z_bounded n) as Hn.
  destruct (Uint63.to_Z n) as [|p|p]; [exact I | apply binary_round_sign | lia].
Qed.

Lemma SF2Prim_sign (x : spec_float) : sign_clear x -> sign_clear (Prim2SF (SF2Prim x)).
Proof.
  destruct x as [s|s| |s m e]; simpl.
  - intros _. destruct s; vm_compute; exact I.
  - destruct s; [intros [] | intros _; vm_compute; exact I].
  - intros _. vm_compute. exact I.
  - destruct s; [intros []|]. intros _. unfold Z.ldexp.
    rewrite ldshiftexp_spec. apply SFldexp_sign, of_uint63_sign.
Qed.

Lemma sign_clear_not_below_0 (f : float) :
  sign_clear (Prim2SF f) -> PrimFloat.ltb f 0 = false.
Proof.
  rewrite ltb_spec, Prim2SF_0. unfold SFltb, SFcompare.
  destruct (Prim2SF f) as [s|s| |s m e]; simpl; try reflexivity;
    destruct s; simpl; try reflexivity; intros [].
Qed.

Lemma nearest_not_below_0 (n d : Z) : PrimFloat.ltb (PyFloat.nearest n d) 0 = false.
Proof.
  unfold PyFloat.nearest.
  destruct n as [|p|p]; try (vm_compute; reflexivity).
  destruct d as [|q|q]; try (vm_compute; reflexivity).
  apply sign_clear_not_below_0, SF2Prim_sign.
  unfold SFdiv. destruct (SFdiv_core_binary prec emax _ _ _ _) as [[mz ez] lz].
  apply binary_round_aux_sign.
Qed.

Lemma isdigit_not_dot (c : ascii) : Py.isdigit c = true -> Ascii.eqb c "." = false.
Proof.
  intros H.
  assert (E : implb (Py.isdigit c) (negb (Ascii.eqb c ".")) = true).
  { clear H. revert c.
    apply (every_ascii (fun c => implb (Py.isdigit c) (negb (Ascii.eqb c ".")))).
    vm_compute. reflexivity. }
  rewrite H in E. simpl in E. apply negb_true_iff in E. exact E.
Qed.

Lemma split_digits (i : string) :
  all_chars Py.isdigit i = true -> Py.split "." i = [i].
Proof.
  induction i as [|c i IH]; [reflexivity|]. simpl.
  intros [Hc Hi]%andb_true_iff. rewrite (isdigit_not_dot c Hc), (IH Hi). reflexivity.
Qed.

Lemma split_digits_point (i f : string) :
  all_chars Py.isdigit i = true ->
  Py.split "." (i +:+ String "." f) = i :: Py.split "." f.
Proof.
  induction i as [|c i IH]; [reflexivity|]. rewrite app_cons. simpl.
  intros [Hc Hi]%andb_true_iff. rewrite (isdigit_not_dot c Hc), (IH Hi). reflexivity.
Qed.

Lemma decimal_digits (s : string) (acc : Z) :
  all_chars Py.isdigit s = true -> exists n, PyFloat.decimal acc s = Some n.
Proof.
  revert acc. induction s as [|c s IH]; intros acc; simpl; [eauto|].
  intros [Hc Hs]%andb_true_iff. rewrite Hc. apply IH, Hs.
Qed.

Lemma all_chars_app (p : ascii -> bool) (a b : string) :
  all_chars p a = true -> all_chars p b = true -> all_chars p (a +:+ b) = true.
Proof.
  induction a as [|c a IH]; [intros _ H; exact H|]. rewrite app_cons. simpl.
  intros [Hc Ha]%andb_true_iff Hb. rewrite Hc. exact (IH Ha Hb).
Qed.

(** [float()] reads every text that the grammar takes for a number, and
    gives a float that is not below zero. *)
Lemma of_string_number (s t r : string) :
  Re.number s = Some (t, r) ->
  exists v, PyFloat.of_string t = Some v /\ PrimFloat.ltb v 0 = false.
Proof.
  intros H. destruct (number_shape _ _ _ H) as (i & Hi & Hne & [-> | (f & Hf & Hfne & ->)]).
  - unfold PyFloat.of_string. rewrite (split_digits i Hi).
    destruct i as [|c i]; [contradiction|].
    destruct (decimal_digits (String c i) 0 Hi) as [n ->]. cbn [option_map].
    eexists. split; [reflexivity | apply nearest_not_below_0].
  - unfold PyFloat.of_string. rewrite (split_digits_point i f Hi), (split_digits f Hf).
    destruct (decimal_digits (i +:+ f) 0 (all_chars_app _ _ _ Hi Hf)) as [n Hn].
    destruct i as [|c i]; [contradiction|].
    rewrite app_cons in Hn |- *. rewrite Hn. cbn [option_map].
    eexists. split; [reflexivity | apply nearest_not_below_0].
Qed.

(** X23: for every match of the grammar, [float()] reads the opacity
    and gives a value that is not below zero: in [remap_key] the failure
    of [float()] and the test [second_arg < 0.0] never happen, and the
    only opacity that fails is one above 100. *)
Theorem token_opacity (s rest : string) (m : Match) :
  Re.token s = Some (m, rest) ->
  exists v,
    PyFloat.of_string (second_arg_of m) = Some v /\
    PrimFloat.ltb v 0 = false /\
    forall e, opacity_of (second_arg_of m) = Raise e ->
      PrimFloat.ltb 100 v = true /\ e = OpacityNotValid (second_arg_of m).
Proof.
  intros Ht.
  assert (H : exists v, PyFloat.of_string (second_arg_of m) = Some v
                        /\ PrimFloat.ltb v 0 = false).
  { unfold Re.token in Ht. destruct (Re.literal "KEY(" s) as [r|]; [|discriminate].
    destruct (Re.many1 Py.isword r) as [[key r1]|]; [|discriminate].
    destruct (Re.opacity_and_close r1) as [[g2 r2]|] eqn:Eo; [|discriminate].
    destruct (match Re.dotted r2 with
              | Some (m', r') => (Some m', r')
              | None => (None, r2)
              end) as [g3 r3].
    destruct (Re.second r3) as [[g4 g5] r4]. injection Ht as <- _.
    unfold second_arg_of. cbn [group2].
    unfold Re.opacity_and_close in Eo. destruct (Re.char "," r1) as [t1|].
    - destruct (Re.number (snd (Re.span Py.isspace t1))) as [[o t3]|] eqn:En; [|discriminate].
      destruct (Re.char ")" t3); [|discriminate]. injection Eo as <- _.
      destruct (number_app _ _ _ En) as [_ Hne].
      destruct o as [|c o]; [contradiction|]. cbn [truthy].
      exact (of_string_number _ _ _ En).
    - destruct (Re.char ")" r1); [|discriminate]. injection Eo as <- _. cbn [truthy].
      exists 1%float. split; vm_compute; reflexivity. }
  destruct H as (v & Hv & H0). exists v. split; [exact Hv|]. split; [exact H0|].
  intros e. unfold opacity_of. rewrite Hv, H0.
  destruct (PrimFloat.ltb 1 v && PrimFloat.leb v 100); [discriminate|].
  destruct (PrimFloat.ltb 100 v); [|discriminate]. intros [= <-]. auto.
Qed.

Lemma token_opacity_witness :
  exists v,
    PyFloat.of_string "150" = Some v /\
    PrimFloat.ltb v 0 = false /\
    forall e, opacity_of "150" = Raise e ->
      PrimFloat.ltb 100 v = true /\ e = OpacityNotValid "150".
Proof.
  apply (token_opacity "KEY(a, 150)" ""
           {| group1 := "a"; group2 := Some "150"; group3 := None;
              group4 := None; group5 := None |}).
  vm_compute. reflexivity.
Defined.

(** ** The name of the file for a theme read from the standard input *)

Lemma split_not_nil (c : ascii) (s : string) : Py.split c s <> [].
Proof.
  destruct s as [|d s]; simpl; [discriminate|].
  destruct (Ascii.eqb d c); [discriminate|]. destruct (Py.split c s); discriminate.
Qed.

(** The last piece of [s.split(c)] holds no [c]. *)
Lemma last_split_free (c : ascii) (s : string) :
  all_chars (fun d => negb (Ascii.eqb d c)) (List.last (Py.split c s) EmptyString) = true.
Proof.
  induction s as [|d s IH]; [reflexivity|]. cbn [Py.split].
  destruct (Ascii.eqb d c) eqn:Ed.
  - pose proof (split_not_nil c s) as Hne.
    destruct (Py.split c s) as [|h t]; [contradiction|]. exact IH.
  - destruct (Py.split c s) as [|h [|h' t]]; cbn [List.last all_chars] in *.
    + rewrite Ed. reflexivity.
    + rewrite Ed, IH. reflexivity.
    + exact IH.
Qed.

Lemma all_chars_lstrip (q p : ascii -> bool) (s : string) :
  all_chars q s = true -> all_chars q (Py.lstrip_class p s) = true.
Proof.
  induction s as [|d s IH]; [intros H; exact H|]. cbn [Py.lstrip_class].
  destruct (p d); [|intros H; exact H]. cbn [all_chars].
  intros [_ H]%andb_true_iff. exact (IH H).
Qed.

Lemma all_chars_rstrip (q p : ascii -> bool) (s : string) :
  all_chars q s = true -> all_chars q (Py.rstrip_class p s) = true.
Proof.
  induction s as [|d s IH]; [intros H; exact H|]. cbn [Py.rstrip_class all_chars].
  intros [Hd Hs]%andb_true_iff. specialize (IH Hs).
  destruct (Py.rstrip_class p s) as [|e r].
  - destruct (p d); [reflexivity|]. cbn [all_chars]. rewrite Hd. reflexivity.
  - cbn [all_chars] in *. rewrite Hd. exact IH.
Qed.

Lemma stdin_name_skip (extention : option string) (post : list string) (init : string) :
  Forall (fun l => PyStr.contains "@name" l = false) post ->
  fold_left
    (fun theme_file_name line =>
       if PyStr.contains "@name" line
       then PyStr.strip (List.last (Py.split " " line) EmptyString) +:+ main_extention extention
       else theme_file_name)
    post init = init.
Proof.
  intros H. revert init. induction H as [|l post Hl _ IH]; intros init; [reflexivity|].
  cbn [fold_left]. rewrite Hl. apply IH.
Qed.

(** X24: the name of the file for a theme read from the standard input.
    With no line in which [@name] occurs the name is
    [stdin.walcord.theme.css], whatever [--extention] says.  Otherwise
    the last such line decides: the name is the last piece of that line
    after a blank, stripped, followed by the extension; it holds no
    blank, so of a name of several words only the last word is used. *)
Theorem stdin_file_name (extention : option string) (post : list string) :
  Forall (fun l => PyStr.contains "@name" l = false) post ->
  main_stdin_file_name extention post = "stdin.walcord.theme.css" /\
  forall (pre : list string) (line : string),
    PyStr.contains "@name" line = true ->
    main_stdin_file_name extention (pre ++ line :: post)
    = PyStr.strip (List.last (Py.split " " line) EmptyString) +:+ main_extention extention /\
    all_chars (fun c => negb (Ascii.eqb c " "))
      (PyStr.strip (List.last (Py.split " " line) EmptyString)) = true.
Proof.
  intros Hpost. unfold main_stdin_file_name. split; [apply stdin_name_skip, Hpost|].
  intros pre line Hline. split.
  - rewrite fold_left_app. cbn [fold_left]. rewrite Hline. apply stdin_name_skip, Hpost.
  - unfold PyStr.strip. apply all_chars_rstrip, all_chars_lstrip, last_split_free.
Qed.

Lemma stdin_file_name_witness :
  main_stdin_file_name (Some ".txt") [" */"] = "stdin.walcord.theme.css" /\
  forall (pre : list string) (line : string),
    PyStr.contains "@name" line = true ->
    main_stdin_file_name (Some ".txt") (pre ++ line :: [" */"])
    = PyStr.strip (List.last (Py.split " " line) EmptyString) +:+ main_extention (Some ".txt") /\
    all_chars (fun c => negb (Ascii.eqb c " "))
      (PyStr.strip (List.last (Py.split " " line) EmptyString)) = true.
Proof.
  apply (stdin_file_name (Some ".txt") [" */"]).
  constructor; [vm_compute; reflexivity | constructor].
Defined.

(** Of [My Theme] the file gets the name [Theme.css]. *)
Example name_of_two_words :
  main_stdin_file_name None
    ["/**"; " * @name My Theme" +:+ String (ascii_of_nat 10) EmptyString; " */"]
  = "Theme.css".
Proof. vm_compute. reflexivity. Qed.

(** ** Lightness and saturation *)

Lemma forall_channels2 (P : Z -> Z -> bool) :
  forallb (fun m => forallb (P m) (map Z.of_nat (seq 0 256))) (map Z.of_nat (seq 0 256)) = true ->
  forall m n, 0 <= m <= 255 -> 0 <= n <= 255 -> P m n = true.
Proof.
  intros H m n Hm Hn. revert n Hn. apply forall_channel. revert m Hm.
  apply (forall_channel (fun m => forallb (P m) (map Z.of_nat (seq 0 256)))). exact H.
Qed.

(** Scaling to the unit interval keeps the order of the channels. *)
Lemma unit_channel_order (m n : Z) :
  0 <= m <= 255 -> 0 <= n <= 255 ->
  PrimFloat.ltb (unit_channel m) (unit_channel n) = (m <? n) /\
  PrimFloat.eqb (unit_channel m) (unit_channel n) = (m =? n).
Proof.
  intros Hm Hn.
  assert (H : Bool.eqb (PrimFloat.ltb (unit_channel m) (unit_channel n)) (m <? n)
              && Bool.eqb (PrimFloat.eqb (unit_channel m) (unit_channel n)) (m =? n) = true).
  { revert m n Hm Hn.
    apply (forall_channels2 (fun m n =>
             Bool.eqb (PrimFloat.ltb (unit_channel m) (unit_channel n)) (m <? n)
             && Bool.eqb (PrimFloat.eqb (unit_channel m) (unit_channel n)) (m =? n))).
    vm_compute. reflexivity. }
  apply andb_true_iff in H as [H1 H2]. split; apply eqb_prop; assumption.
Qed.

Lemma max3_channels (r g b : Z) :
  0 <= r <= 255 -> 0 <= g <= 255 -> 0 <= b <= 255 ->
  colorsys.max3 (unit_channel r) (unit_channel g) (unit_channel b)
  = unit_channel (Z.max (Z.max r g) b).
Proof.
  intros Hr Hg Hb. unfold colorsys.max3.
  rewrite (proj1 (unit_channel_order r g Hr Hg)).
  destruct (Z.ltb_spec r g).
  - rewrite (proj1 (unit_channel_order g b Hg Hb)).
    destruct (Z.ltb_spec g b); f_equal; lia.
  - rewrite (proj1 (unit_channel_order r b Hr Hb)).
    destruct (Z.ltb_spec r b); f_equal; lia.
Qed.

Lemma min3_channels (r g b : Z) :
  0 <= r <= 255 -> 0 <= g <= 255 -> 0 <= b <= 255 ->
  colorsys.min3 (unit_channel r) (unit_channel g) (unit_channel b)
  = unit_channel (Z.min (Z.min r g) b).
Proof.
  intros Hr Hg Hb. unfold colorsys.min3.
  rewrite (proj1 (unit_channel_order g r Hg Hr)).
  destruct (Z.ltb_spec g r).
  - rewrite (proj1 (unit_channel_order b g Hb Hg)).
    destruct (Z.ltb_spec b g); f_equal; lia.
  - rewrite (proj1 (unit_channel_order b r Hb Hr)).
    destruct (Z.ltb_spec b r); f_equal; lia.
Qed.

(** What [colorsys.rgb_to_hls] returns for lightness and saturation. *)
Lemma rgb_to_hls_ls (r g b h l s : float) :
  colorsys.rgb_to_hls r g b = Ok (h, l, s) ->
  (l, s) = lightness_saturation (colorsys.max3 r g b) (colorsys.min3 r g b) /\
  (PrimFloat.eqb (colorsys.min3 r g b) (colorsys.max3 r g b) = true -> h = 0%float).
Proof.
  unfold colorsys.rgb_to_hls, lightness_saturation.
  set (maxc := colorsys.max3 r g b). set (minc := colorsys.min3 r g b).
  destruct (PrimFloat.eqb minc maxc).
  - intros [= <- <- <-]. auto.
  - unfold float_div.
    destruct (PrimFloat.leb _ _);
      (destruct (PrimFloat.eqb _ 0); cbn [bind]; [discriminate|]);
      (destruct (PrimFloat.eqb (PrimFloat.sub maxc minc) 0); cbn [bind]; [discriminate|]);
      intros [= <- <- <-]; (split; [reflexivity | discriminate]).
Qed.

Lemma channels_lightness_saturation (m n : Z) :
  0 <= m <= 255 -> 0 <= n <= 255 -> n <= m ->
  in_bounds (lightness_saturation (unit_channel m) (unit_channel n)) = true /\
  PrimFloat.eqb (snd (lightness_saturation (unit_channel m) (unit_channel n))) 0 = (n =? m) /\
  (n = m ->
   PrimFloat.eqb (fst (lightness_saturation (unit_channel m) (unit_channel n)))
     (unit_channel m) = true).
Proof.
  intros Hm Hn Hle.
  assert (H : implb (n <=? m)
                (in_bounds (lightness_saturation (unit_channel m) (unit_channel n))
                 && Bool.eqb (PrimFloat.eqb
                      (snd (lightness_saturation (unit_channel m) (unit_channel n))) 0)
                      (n =? m)
                 && implb (n =? m)
                      (PrimFloat.eqb
                         (fst (lightness_saturation (unit_channel m) (unit_channel n)))
                         (unit_channel m))) = true).
  { clear Hle. revert m n Hm Hn.
    apply (forall_channels2 (fun m n =>
             implb (n <=? m)
                (in_bounds (lightness_saturation (unit_channel m) (unit_channel n))
                 && Bool.eqb (PrimFloat.eqb
                      (snd (lightness_saturation (unit_channel m) (unit_channel n))) 0)
                      (n =? m)
                 && implb (n =? m)
                      (PrimFloat.eqb
                         (fst (lightness_saturation (unit_channel m) (unit_channel n)))
                         (unit_channel m))))).
    vm_compute. reflexivity. }
  apply Z.leb_le in Hle. rewrite Hle in H. cbn [implb] in H.
  apply andb_true_iff in H as [H H3]. apply andb_true_iff in H as [H1 H2].
  split; [exact H1|]. split; [apply eqb_prop, H2|].
  intros E. apply Z.eqb_eq in E. rewrite E in H3. exact H3.
Qed.

(** X25: for a colour with its three channels in 0..255 [rgb_to_hls]
    returns; the lightness lies between 0 and 1 and the saturation is
    not below 0; the saturation is 0 exactly for a grey (three equal
    channels), whose hue is 0 and whose lightness is the channel over
    255. *)
Theorem rgb_to_hls_bounds (r g b : Z) :
  0 <= r <= 255 -> 0 <= g <= 255 -> 0 <= b <= 255 ->
  exists h l s,
    rgb_to_hls (Tuple [r; g; b]) = Ok (h, l, s) /\
    PrimFloat.leb 0 l = true /\ PrimFloat.leb l 1 = true /\
    PrimFloat.leb 0 s = true /\
    (PrimFloat.eqb s 0 = true <-> r = g /\ g = b) /\
    (r = g /\ g = b -> h = 0%float /\ PrimFloat.eqb l (unit_channel r) = true).
Proof.
  intros Hr Hg Hb.
  destruct (rgb_to_hls_channels r g b Hr Hg Hb) as [[[h l] s] E].
  exists h, l, s. split; [exact E|].
  unfold rgb_to_hls in E.
  destruct (bind_Ok _ _ _ (channel_scaled r Hr)) as (fr & Er & Er').
  destruct (bind_Ok _ _ _ (channel_scaled g Hg)) as (fg & Eg & Eg').
  destruct (bind_Ok _ _ _ (channel_scaled b Hb)) as (fb & Eb & Eb').
  rewrite Er in E; cbn [bind] in E; rewrite Er' in E; cbn [bind] in E.
  rewrite Eg in E; cbn [bind] in E; rewrite Eg' in E; cbn [bind] in E.
  rewrite Eb in E; cbn [bind] in E; rewrite Eb' in E; cbn [bind] in E.
  fold (unit_channel r) (unit_channel g) (unit_channel b) in E.
  apply rgb_to_hls_ls in E as [Els Eh].
  rewrite (max3_channels r g b Hr Hg Hb), (min3_channels r g b Hr Hg Hb) in Els, Eh.
  remember (Z.max (Z.max r g) b) as M eqn:EM.
  remember (Z.min (Z.min r g) b) as m eqn:Em.
  assert (HM : 0 <= M <= 255) by lia.
  assert (Hm : 0 <= m <= 255) by lia.
  assert (Hle : m <= M) by lia.
  destruct (channels_lightness_saturation M m HM Hm Hle) as (Hin & Hgrey & Hl).
  rewrite <- Els in Hin, Hgrey, Hl. cbn [fst snd] in Hgrey, Hl.
  unfold in_bounds in Hin. cbn [fst snd] in Hin.
  apply andb_true_iff in Hin as [Hin Hs0]. apply andb_true_iff in Hin as [Hl0 Hl1].
  repeat (split; [assumption|]).
  rewrite (proj2 (unit_channel_order m M Hm HM)) in Eh.
  split.
  - rewrite Hgrey, Z.eqb_eq. lia.
  - intros [Erg Egb]. assert (E : m = M) by lia.
    split; [apply Eh, Z.eqb_eq, E|].
    replace r with M by lia. apply Hl, E.
Qed.

Lemma rgb_to_hls_bounds_witness :
  exists h l s,
    rgb_to_hls (Tuple [128; 128; 128]) = Ok (h, l, s) /\
    PrimFloat.leb 0 l = true /\ PrimFloat.leb l 1 = true /\
    PrimFloat.leb 0 s = true /\
    (PrimFloat.eqb s 0 = true <-> 128 = 128 /\ 128 = 128) /\
    (128 = 128 /\ 128 = 128 -> h = 0%float /\ PrimFloat.eqb l (unit_channel 128) = true).
Proof. apply (rgb_to_hls_bounds 128 128 128); lia. Defined.

(** ** The properties above at concrete inputs *)

Lemma invert_add_witness :
  exists t', invert_color (Tuple [10; 20; 30]) = Ok (Tuple t') /\
    length t' = length [10; 20; 30] /\ Forall (fun c => 0 <= c <= 255) t'.
Proof.
  destruct (proj2 (invert_add [10; 20; 30] 5 0)) as (t' & E & L & F).
  exists t'. split; [exact E|]. split; [exact L|].
  apply F. repeat constructor; lia.
Defined.

Lemma remap_key_failure_order_witness :
  remap_key (sample_colors 10 20 30)
    {| group1 := "a"; group2 := Some "150"; group3 := Some ".rgb";
       group4 := Some ".add(5)"; group5 := Some "(5)" |}
  = Raise (OpacityNotValid "150").
Proof.
  apply (proj1 (proj2 (remap_key_failure_order (sample_colors 10 20 30)
           {| group1 := "a"; group2 := Some "150"; group3 := Some ".rgb";
              group4 := Some ".add(5)"; group5 := Some "(5)" |})));
    vm_compute; reflexivity.
Defined.

Lemma main_set_description_first_witness :
  main_set_description ["/**"; " * @description Hello"; "**/"]
  = ["/**"] ++ generated_description :: ["**/"].
Proof.
  apply (proj2 (proj2 (proj2 (main_set_description_first
           ["/**"; " * @description Hello"; "**/"]))) ["/**"] " * @description Hello" ["**/"]).
  - reflexivity.
  - repeat constructor.
  - vm_compute. reflexivity.
Defined.

(** ** Tokens from left to right *)

Lemma sub_without_token (repl : Match -> result string) (fuel : nat) (s : string) :
  has_token s = false -> Re.sub fuel repl s = Ok s.
Proof.
  revert s. induction fuel as [|fuel IH]; intros s H; [reflexivity|].
  cbn [Re.sub]. destruct s as [|c s]; cbn [has_token] in H.
  - destruct (Re.token EmptyString) as [[m rest]|]; [discriminate | reflexivity].
  - destruct (Re.token (String c s)) as [[m rest]|]; [discriminate|].
    rewrite (IH s H). reflexivity.
Qed.

(** X26: a line in which [KEY(] followed by [)] occurs but which the
    grammar of [replace_key] matches nowhere, a misspelt token, is
    written as it is, with the line end, and one warning is logged with
    the number of the line counted from 1. *)
Theorem malformed_key_warns (colors : gmap string color_value) (filename end_ : string)
  (n : nat) (line : string) :
  Re.search_key line = true ->
  has_token line = false ->
  replace_key colors line = Ok line /\
  rewrite_lines colors filename end_ n [line] EmptyString []
  = (line +:+ end_, [WARNING (n + 1) filename]).
Proof.
  intros Hs Ht.
  assert (E : replace_key colors line = Ok line) by (apply sub_without_token, Ht).
  split; [exact E|]. cbn [rewrite_lines]. rewrite Hs, E. cbv zeta.
  rewrite String.eqb_refl. reflexivity.
Qed.

Lemma malformed_key_warns_witness :
  replace_key (sample_colors 10 20 30) "  color: KEY(a-b).rgb;" = Ok "  color: KEY(a-b).rgb;" /\
  rewrite_lines (sample_colors 10 20 30) "theme.css" newline 4
    ["  color: KEY(a-b).rgb;"] EmptyString []
  = ("  color: KEY(a-b).rgb;" +:+ newline, [WARNING (4 + 1) "theme.css"]).
Proof.
  apply (malformed_key_warns (sample_colors 10 20 30) "theme.css" newline 4
           "  color: KEY(a-b).rgb;"); vm_compute; reflexivity.
Defined.

(** Two tokens on a line, and a token that fails after one that does not. *)
Example two_tokens :
  replace_key (sample_colors 10 20 30) "a: KEY(a).r; b: KEY(A, 50).rgba;"
  = Ok "a: 10; b: rgba(10,20,30,0.5);" /\
  replace_key (sample_colors 10 20 30) "a: KEY(a).r; b: KEY(zz); c: KEY(a, 200);"
  = Raise (ColorNotFound "zz").
Proof. split; vm_compute; reflexivity. Qed.

(** * A failing token and its line *)

(** ** The matches of a line *)


(** The first match that fails decides. *)
Lemma sub_first_failure (repl : Match -> result string) (fuel : nat) (s : string)
  (before after : list Match) (m : Match) (e : exn) :
  matches fuel s = before ++ m :: after ->
  Forall (fun m' => exists r, repl m' = Ok r) before ->
  repl m = Raise e ->
  Re.sub fuel repl s = Raise e.
Proof.
  intros Hm Hb He. revert s before Hm Hb.
  induction fuel as [|fuel IH]; intros s before Hm Hb.
  - destruct before; discriminate.
  - cbn [matches] in Hm. cbn [Re.sub].
    destruct (Re.token s) as [[m0 rest]|].
    + destruct before as [|b before]; simpl in Hm.
      * injection Hm as -> _. rewrite He. reflexivity.
      * injection Hm as -> Hm. inversion Hb as [|? ? [r Hr] Hb']; subst.
        rewrite Hr. cbn [bind]. rewrite (IH rest before Hm Hb'). reflexivity.
    + destruct s as [|c s'].
      * destruct before; discriminate.
      * rewrite (IH s' before Hm Hb). reflexivity.
Qed.

(** A match that fails makes the whole text fail, if not with its own
    failure then with the one of a match before it. *)
Lemma sub_some_failure (repl : Match -> result string) (fuel : nat) (s : string)
  (m : Match) (e : exn) :
  In m (matches fuel s) -> repl m = Raise e -> exists e', Re.sub fuel repl s = Raise e'.
Proof.
  intros Hin He. revert s Hin. induction fuel as [|fuel IH]; intros s Hin; [destruct Hin|].
  cbn [matches] in Hin. cbn [Re.sub]. destruct (Re.token s) as [[m0 rest]|].
  - destruct (repl m0) as [r|e0] eqn:E0; [|cbn [bind]; eauto].
    destruct Hin as [->|Hin]; [congruence|].
    destruct (IH rest Hin) as [e' ->]. cbn [bind]. eauto.
  - destruct s as [|c s']; [destruct Hin|].
    destruct (IH s' Hin) as [e' ->]. cbn [bind]. eauto.
Qed.

Lemma failure_fatal_to_line (colors : gmap string color_value) (text : string) (e : exn) :
  replace_key colors text = Raise e -> fatal_to_line colors text e.
Proof.
  intros H. split; [exact H|]. intros filename end_ n.
  apply rewrite_failing_line, H.
Qed.

Lemma first_failure_fatal (colors : gmap string color_value) (text : string)
  (before after : list Match) (m : Match) (e : exn) :
  matches_of text = before ++ m :: after ->
  Forall (fun m' => exists r, remap_key colors m' = Ok r) before ->
  remap_key colors m = Raise e ->
  fatal_to_line colors text e.
Proof.
  intros Hm Hb He. apply failure_fatal_to_line.
  exact (sub_first_failure _ _ _ _ _ _ _ Hm Hb He).
Qed.

Lemma some_failure_fatal (colors : gmap string color_value) (text : string)
  (m : Match) (e : exn) :
  In m (matches_of text) -> remap_key colors m = Raise e ->
  exists e', fatal_to_line colors text e'.
Proof.
  intros Hin He. destruct (sub_some_failure _ _ _ _ _ Hin He) as [e' H].
  exists e'. apply failure_fatal_to_line, H.
Qed.

(** ** The wallpaper conflict *)

(** The default formatter never raises the wallpaper conflict. *)
Lemma default_not_conflict (v : color_value) (opacity : float) :
  return_rgba_string v opacity no_second_mod <> Raise WallpaperConflict.
Proof.
  unfold return_rgba_string, check_and_apply_second_modificator. cbn [type no_second_mod bind].
  destruct (getitem v 0) as [c0|e0] eqn:E0; cbn [bind];
    [|unfold getitem in E0; destruct v; destruct (_ <$> _) in E0; simpl in E0; congruence].
  destruct (getitem v 1) as [c1|e1] eqn:E1; cbn [bind];
    [|unfold getitem in E1; destruct v; destruct (_ <$> _) in E1; simpl in E1; congruence].
  destruct (getitem v 2) as [c2|e2] eqn:E2; cbn [bind];
    [|unfold getitem in E2; destruct v; destruct (_ <$> _) in E2; simpl in E2; congruence].
  discriminate.
Qed.

(** C5, amended: for a token with the key [wallpaper] or [w] (in any
    case) that the palette holds, and whose opacity and second modifier
    have not failed before, the wallpaper conflict is raised exactly
    when the opacity, once normalised, differs from 1.0 or a first
    modifier is present.  The conflict is fatal to the line of the
    token, wherever the token stands on it: the line fails, nothing is
    written for it and the failure is logged; the failure is the
    conflict itself when the matches before the token on the line
    resolve.  With an opacity that normalises to 1.0 and no first
    modifier there is no conflict: the token is handed to the default
    formatter, which gives [rgba(] the first three characters of the
    path and the opacity [)], or fails with [IndexError] when the path
    has fewer than three characters. *)
Theorem wallpaper_conflict (colors : gmap string color_value) (m : Match)
  (v : color_value) (opacity : float) (scond_mod : second_mod) :
  is_wallpaper (Py.lower (group1 m)) = true ->
  colors !! Py.lower (group1 m) = Some v ->
  falsy (Some v) = false ->
  opacity_of (second_arg_of m) = Ok opacity ->
  second_modifer_params_of m = Ok scond_mod ->
  (remap_key colors m = Raise WallpaperConflict <->
   PrimFloat.eqb opacity 1 = false \/ is_Some (first_modifier_of m)) /\
  (PrimFloat.eqb opacity 1 = false \/ is_Some (first_modifier_of m) ->
   forall text,
     (In m (matches_of text) -> exists e, fatal_to_line colors text e) /\
     (forall before after,
        matches_of text = before ++ m :: after ->
        Forall (fun m' => exists r, remap_key colors m' = Ok r) before ->
        fatal_to_line colors text WallpaperConflict)) /\
  (PrimFloat.eqb opacity 1 = true -> first_modifier_of m = None ->
   remap_key colors m = return_rgba_string v opacity no_second_mod /\
   (forall c0 c1 c2 s,
      v = Str (String c0 (String c1 (String c2 s))) ->
      remap_key colors m
      = Ok ("rgba(" +:+ String c0 "," +:+ String c1 "," +:+ String c2 ","
              +:+ PyFloat.repr opacity +:+ ")")) /\
   (forall s, v = Str s -> (String.length s < 3)%nat ->
      remap_key colors m = Raise IndexError)).
Proof.
  intros Hw Hv Hf Hop Hsm.
  assert (E : remap_key colors m
              = if negb (PrimFloat.eqb opacity 1) || bool_decide (is_Some (first_modifier_of m))
                then Raise WallpaperConflict
                else match first_modifier_of m ≫= (FIRST_MODIFIERS !!.) with
                     | Some f => f v opacity scond_mod
                     | None => return_rgba_string v opacity no_second_mod
                     end).
  { unfold remap_key. rewrite Hv, Hf, Hop. cbn [bind]. rewrite Hsm. cbn [bind].
    rewrite Hw, FIRST_MODIFIERS_DEFAULT. reflexivity. }
  assert (Hplain : PrimFloat.eqb opacity 1 = true -> first_modifier_of m = None ->
                   remap_key colors m = return_rgba_string v opacity no_second_mod).
  { intros H1 Hfm. rewrite E, H1, Hfm.
    rewrite bool_decide_eq_false_2 by (intros [x Hx]; discriminate). reflexivity. }
  assert (Hraise : PrimFloat.eqb opacity 1 = false \/ is_Some (first_modifier_of m) ->
                   remap_key colors m = Raise WallpaperConflict).
  { intros Hc. rewrite E. destruct Hc as [Hc|Hc].
    - rewrite Hc. reflexivity.
    - rewrite (bool_decide_eq_true_2 _ Hc), orb_true_r. reflexivity. }
  split; [|split].
  - split; [|exact Hraise]. intros Hr.
    destruct (PrimFloat.eqb opacity 1) eqn:H1; [|auto].
    destruct (first_modifier_of m) as [fm|] eqn:Hfm; [right; eauto|].
    exfalso. rewrite (Hplain eq_refl eq_refl) in Hr.
    exact (default_not_conflict _ _ Hr).
  - intros Hc text. split.
    + intros Hin. exact (some_failure_fatal colors text m _ Hin (Hraise Hc)).
    + intros before after Hm Hb.
      exact (first_failure_fatal colors text before after m _ Hm Hb (Hraise Hc)).
  - intros H1 Hfm. split; [exact (Hplain H1 Hfm)|]. split.
    + intros c0 c1 c2 s ->. rewrite (Hplain H1 Hfm). reflexivity.
    + intros s -> Hlen. rewrite (Hplain H1 Hfm).
      destruct s as [|a [|b [|c s]]]; try reflexivity. simpl in Hlen. lia.
Qed.

Lemma wallpaper_conflict_witness :
  fatal_to_line (sample_colors 10 20 30) "x: KEY(a).r; y: KEY(W, 50);" WallpaperConflict.
Proof.
  refine (proj2 (proj1 (proj2 (wallpaper_conflict (sample_colors 10 20 30)
           {| group1 := "W"; group2 := Some "50"; group3 := None;
              group4 := None; group5 := None |} (Str wall) 0.5%float no_second_mod
           _ _ _ _ _)) _ "x: KEY(a).r; y: KEY(W, 50);")
           [{| group1 := "a"; group2 := None; group3 := Some ".r";
               group4 := None; group5 := None |}] [] _ _).
  - vm_compute. reflexivity.
  - vm_compute. reflexivity.
  - vm_compute. reflexivity.
  - vm_compute. reflexivity.
  - vm_compute. reflexivity.
  - left. vm_compute. reflexivity.
  - vm_compute. reflexivity.
  - constructor; [|constructor]. exists "10". vm_compute. reflexivity.
Defined.

(** The line of the claim, alone and after other text. *)
Example wallpaper_50 :
  try_replace_key_in_theme (sample_colors 10 20 30)
    ["a {"; "  x: KEY(wallpaper, 50);"; "}"] "theme.css" newline
  = ("a {" +:+ newline +:+ "}" +:+ newline, [ERROR 2 "theme.css" WallpaperConflict]) /\
  replace_key (<["w" := Str "ab"]> ∅) "KEY(w, 1)" = Raise IndexError.
Proof. split; vm_compute; reflexivity. Qed.

(** ** The argument list of a recognised second modifier *)



















(** ** The second modifier of a match *)










(** Argument lists that the pattern does not take are left in the text,
    and the modifier is then called without arguments; with two integers
    the modifier is applied; [invert] takes no argument list. *)
Example second_modifier_arguments :
  replace_key (sample_colors 10 20 30) "KEY(a).rgb.add" = Raise AttributeError /\
  replace_key (sample_colors 10 20 30) "KEY(a).rgb.add()" = Raise AttributeError /\
  replace_key (sample_colors 10 20 30) "KEY(a).rgb.add(1,2,3)" = Raise AttributeError /\
  replace_key (sample_colors 10 20 30) "KEY(a).rgb.add(5)" = Raise (TakesTwoParameters 1) /\
  replace_key (sample_colors 10 20 30) "KEY(a).rgb.add(1.5)" = Ok "rgb(10,20,30)" /\
  replace_key (sample_colors 10 20 30) "KEY(a).rgb.add(2, 40)" = Ok "rgb(10,20,70)" /\
  replace_key (sample_colors 10 20 30) "KEY(a).rgb.invert" = Ok "rgb(245,235,225)" /\
  replace_key (sample_colors 10 20 30) "KEY(a).rgb.invert()" = Ok "rgb(245,235,225)()" /\
  replace_key (sample_colors 10 20 30) "KEY(a).rgb.invert(1)"
  = Raise (InvertTakesNoParameters "(1)").
Proof. repeat split; vm_compute; reflexivity. Qed.

(** ** What the wallpaper path resolves to *)






